(** * Session manager of the intern-hub frontend

    A shallow embedding of [lib/api.ts] (the [ApiClient] class with its two
    axios interceptors, and [formatApiError]) and of [contexts/AuthContext.tsx].

    [lib/api.ts] exists in two revisions.  They share the token bookkeeping,
    the response interceptor, [signIn], [signOut] and [formatApiError]; the
    second revision adds HTTPS enforcement to the request interceptor and
    re-reads the access token from [localStorage] before every request.
    Both are embedded; the revision is a parameter of the client. *)

From Stdlib Require Import ZArith String Ascii List Bool Lia.
From stdpp Require Import base option gmap strings pretty.

Local Open Scope string_scope.
Local Open Scope Z_scope.

(** ** JavaScript strings *)

Module Js.

(** [s.includes(needle)] *)
Fixpoint includes (needle s : string) : bool :=
  String.prefix needle s
  || match s with
     | EmptyString => false
     | String _ s' => includes needle s'
     end.

(** [s.startsWith(p)] *)
Definition startsWith (p s : string) : bool := String.prefix p s.

Fixpoint drop (n : nat) (s : string) : string :=
  match n, s with
  | O, _ => s
  | S _, EmptyString => EmptyString
  | S k, String _ s' => drop k s'
  end.

(** [s.replace(/^http:\/\//, 'https://')] *)
Definition replace_http_prefix (s : string) : string :=
  if startsWith "http://" s then "https://" ++ drop 7 s else s.

(** [s.replace(/pat/g, rep)] for a literal, non-empty pattern: the matches
    are found left to right and do not overlap; [skip] counts the
    characters of the current match that are still to be dropped. *)
Fixpoint replace_go (pat rep : string) (skip : nat) (s : string) : string :=
  match s with
  | EmptyString => EmptyString
  | String c s' =>
      match skip with
      | S k => replace_go pat rep k s'
      | O =>
          if String.prefix pat s
          then rep ++ replace_go pat rep (Nat.pred (String.length pat)) s'
          else String c (replace_go pat rep O s')
      end
  end.

Definition replaceAll (pat rep s : string) : string := replace_go pat rep O s.

(** the text before the first occurrence of a non-empty separator *)
Fixpoint before (sep s : string) : string :=
  if String.prefix sep s then EmptyString
  else match s with
       | EmptyString => EmptyString
       | String c s' => String c (before sep s')
       end.

(** [s.split(sep)[0]]; with the empty separator [split] yields the
    characters of [s], so the result is the first character, and
    [undefined] on the empty string. *)
Definition split_first (sep s : string) : option string :=
  match sep with
  | EmptyString =>
      match s with
      | EmptyString => None
      | String c _ => Some (String c EmptyString)
      end
  | _ => Some (before sep s)
  end.

(** truthiness of a [string | null | undefined] *)
Definition truthy (o : option string) : bool :=
  match o with
  | Some s => negb (String.eqb s "")
  | None => false
  end.

(** a value interpolated in a template literal *)
Definition interp (o : option string) : string :=
  match o with
  | Some s => s
  | None => "undefined"
  end.

(** [o?.includes(needle)], as a condition *)
Definition opt_includes (needle : string) (o : option string) : bool :=
  match o with
  | Some s => includes needle s
  | None => false
  end.

(** [a || b] on strings *)
Definition or_else (o : option string) (d : string) : string :=
  if truthy o then interp o else d.

(** [parts.join(sep)] *)
Fixpoint join (sep : string) (parts : list string) : string :=
  match parts with
  | [] => ""
  | [p] => p
  | p :: rest => p ++ sep ++ join sep rest
  end.

End Js.

(** ** Data model *)

Inductive Role := admin | student.

(** [types]: [User] *)
Record User := { id : Z; email : string; role : Role }.

(** [types]: [AuthResponse]; a field the backend leaves out is [None]. *)
Record AuthResponse := {
  access_token : option string;
  token_type : option string;
  expires_in : option Z;
  refresh_token : option string }.

(** an element of a FastAPI [loc] path: a field name or an array index *)
Inductive LocPart := LocName (s : string) | LocIndex (n : N).

(** one entry of a FastAPI validation error array *)
Record ValidationError := { loc : option (list LocPart); msg : option string }.

(** [response.data.detail] *)
Inductive Detail :=
  | DetailString (s : string)
  | DetailArray (errs : list ValidationError)
  | DetailOther.

(** a response body: the three shapes the client reads, any other truthy
    value, and the empty body (the empty string: falsy, but its fields can
    be read and are undefined); a [null] body is [None] in [Response] *)
Inductive Data :=
  | DataAuth (a : AuthResponse)
  | DataUser (u : User)
  | DataDetail (d : Detail)
  | DataOther
  | DataEmpty.

(** request bodies *)
Inductive Payload :=
  | NoPayload
  | SignInRequest (email password : string)
  | RefreshTokenRequest (refresh_token : string)
  | SignOutRequest (refresh_token : string)
  | OtherPayload (json : string).

(** [InternalAxiosRequestConfig & { _retry?: boolean }] *)
Record Config := {
  baseURL : option string;
  url : option string;
  method : option string;
  headers : gmap string string;
  data : Payload;
  _retry : bool }.

(** [AxiosResponse]; [rdata = None] is a [null] body. *)
Record Response := { status : Z; rdata : option Data }.

(** [AxiosError] *)
Record AxiosError := {
  code : option string;
  message : option string;
  response : option Response;
  config : Config }.

(** what a rejected promise carries *)
Inductive Thrown :=
  | AxiosErr (e : AxiosError)
  | TypeError
  | ReferenceError.

Inductive Result (A : Type) :=
  | Resolved (a : A)
  | Rejected (t : Thrown)
  | OutOfFuel.
Arguments Resolved {A} a.
Arguments Rejected {A} t.
Arguments OutOfFuel {A}.

(** ** The world the client runs in *)

(** the browser's [window]: [localStorage] and [location] *)
Record Window := {
  localStorage : gmap string string;
  location_href : string;
  location_origin : string }.

Inductive Via := MainClient | RefreshClient.

#[global] Instance Via_eq_dec : EqDecision Via.
Proof. solve_decision. Defined.

(** a request as it leaves the browser *)
Record Wire := { via : Via; req : Config }.

(** what the network gives back: a response, or no response at all
    (timeout, refused connection, CORS block) with axios' code and message *)
Inductive Outcome :=
  | Responded (r : Response)
  | NoResponse (ecode emessage : option string).

(** the two revisions of [lib/api.ts] *)
Inductive Revision := Rev1 | Rev2.

Record World := {
  accessToken : option string;      (* this.accessToken *)
  refreshToken : option string;     (* this.refreshToken *)
  isProduction : bool;              (* this.isProduction (Rev2) *)
  window : option Window;           (* None: typeof window === 'undefined' *)
  sent : list Wire;                 (* every request dispatched so far *)
  user : option Data;               (* AuthContext: user *)
  loading : bool }.                 (* AuthContext: loading *)

Definition M (A : Type) : Type := World -> Result A * World.

Definition ret {A} (a : A) : M A := fun w => (Resolved a, w).
Definition reject {A} (t : Thrown) : M A := fun w => (Rejected t, w).
Definition bind {A B} (m : M A) (k : A -> M B) : M B :=
  fun w =>
    match m w with
    | (Resolved a, w') => k a w'
    | (Rejected t, w') => (Rejected t, w')
    | (OutOfFuel, w') => (OutOfFuel, w')
    end.
(** [try { m } catch (e) { h e }] *)
Definition try_catch {A} (m : M A) (h : Thrown -> M A) : M A :=
  fun w =>
    match m w with
    | (Rejected t, w') => h t w'
    | r => r
    end.
(** [try { m } finally { f }] where [f] does not throw *)
Definition finally {A} (m : M A) (f : World -> World) : M A :=
  fun w => let '(r, w') := m w in (r, f w').
Definition modify (f : World -> World) : M unit := fun w => (Resolved tt, f w).

Declare Scope js_scope.
Delimit Scope js_scope with js.
Notation "'await' x <- m 'in' k" := (bind m (fun x => k))
  (at level 10, x name, m at level 100, k at level 200) : js_scope.

(** *** Field updates *)

Definition set_accessToken (t : option string) (w : World) : World :=
  {| accessToken := t; refreshToken := refreshToken w;
     isProduction := isProduction w; window := window w; sent := sent w;
     user := user w; loading := loading w |}.

Definition set_refreshToken (t : option string) (w : World) : World :=
  {| accessToken := accessToken w; refreshToken := t;
     isProduction := isProduction w; window := window w; sent := sent w;
     user := user w; loading := loading w |}.

Definition set_window (win : option Window) (w : World) : World :=
  {| accessToken := accessToken w; refreshToken := refreshToken w;
     isProduction := isProduction w; window := win; sent := sent w;
     user := user w; loading := loading w |}.

Definition set_sent (l : list Wire) (w : World) : World :=
  {| accessToken := accessToken w; refreshToken := refreshToken w;
     isProduction := isProduction w; window := window w; sent := l;
     user := user w; loading := loading w |}.

Definition setUser (u : option Data) (w : World) : World :=
  {| accessToken := accessToken w; refreshToken := refreshToken w;
     isProduction := isProduction w; window := window w; sent := sent w;
     user := u; loading := loading w |}.

Definition setLoading (b : bool) (w : World) : World :=
  {| accessToken := accessToken w; refreshToken := refreshToken w;
     isProduction := isProduction w; window := window w; sent := sent w;
     user := user w; loading := b |}.

(** [localStorage.setItem], [localStorage.removeItem] and an assignment to
    [window.location.href], each under [typeof window !== 'undefined'] *)
Definition storage_set (k v : string) (w : World) : World :=
  match window w with
  | Some win =>
      set_window (Some {| localStorage := <[k:=v]> (localStorage win);
                          location_href := location_href win;
                          location_origin := location_origin win |}) w
  | None => w
  end.

Definition storage_remove (k : string) (w : World) : World :=
  match window w with
  | Some win =>
      set_window (Some {| localStorage := delete k (localStorage win);
                          location_href := location_href win;
                          location_origin := location_origin win |}) w
  | None => w
  end.

Definition navigate (href : string) (w : World) : World :=
  match window w with
  | Some win =>
      set_window (Some {| localStorage := localStorage win;
                          location_href := href;
                          location_origin := location_origin win |}) w
  | None => w
  end.

(** [localStorage.getItem(k)], [None] also when there is no window *)
Definition storage_get (k : string) (w : World) : option string :=
  match window w with
  | Some win => localStorage win !! k
  | None => None
  end.

Definition set_baseURL (b : option string) (c : Config) : Config :=
  {| baseURL := b; url := url c; method := method c; headers := headers c;
     data := data c; _retry := _retry c |}.

Definition set_url (u : option string) (c : Config) : Config :=
  {| baseURL := baseURL c; url := u; method := method c; headers := headers c;
     data := data c; _retry := _retry c |}.

Definition set_header (k v : string) (c : Config) : Config :=
  {| baseURL := baseURL c; url := url c; method := method c;
     headers := <[k:=v]> (headers c); data := data c; _retry := _retry c |}.

Definition set_retry (b : bool) (c : Config) : Config :=
  {| baseURL := baseURL c; url := url c; method := method c;
     headers := headers c; data := data c; _retry := b |}.

Definition set_config (c : Config) (e : AxiosError) : AxiosError :=
  {| code := code e; message := message e; response := response e;
     config := c |}.

(** ** ApiClient *)

Module ApiClient.

Section Client.

(** [rev]: which revision of [lib/api.ts] runs.
    [API_BASE_URL]: [process.env.NEXT_PUBLIC_API_BASE_URL] or its default.
    [backend]: the server and the network, as a function of the requests
    dispatched so far and of the request at hand. *)
Variable rev : Revision.
Variable API_BASE_URL : string.
Variable backend : list Wire -> Wire -> Outcome.

Definition PROD : string := "internhubapi.sadn.site".
Definition PROD_URL : string := "https://internhubapi.sadn.site/api/v2".

Definition nonempty (s : string) : bool := negb (String.eqb s "").

(** *** Token bookkeeping *)

(** [setAccessToken(token)] *)
Definition setAccessToken (token : option string) (w : World) : World :=
  let w := set_accessToken token w in
  if Js.truthy token then storage_set "access_token" (Js.interp token) w
  else storage_remove "access_token" w.

(** [setRefreshToken(token)] *)
Definition setRefreshToken (token : option string) (w : World) : World :=
  let w := set_refreshToken token w in
  if Js.truthy token then storage_set "refresh_token" (Js.interp token) w
  else storage_remove "refresh_token" w.

(** [clearTokens()] *)
Definition clearTokens (w : World) : World :=
  let w := set_accessToken None w in
  let w := set_refreshToken None w in
  let w := storage_remove "access_token" w in
  storage_remove "refresh_token" w.

(** the token loading of the constructor: a fresh client in a given
    window (or none).  [prod] is what the second revision computes from
    [window.location] into [this.isProduction]; the connection test the
    constructor starts only writes to the console. *)
Definition constructor (prod : bool) (win : option Window) : World :=
  let w := {| accessToken := None; refreshToken := None;
              isProduction := prod; window := win; sent := [];
              user := None; loading := true |} in
  match win with
  | Some _ =>
      set_refreshToken (storage_get "refresh_token" w)
        (set_accessToken (storage_get "access_token" w) w)
  | None => w
  end.

(** *** Request interceptor, first revision *)

Definition attach_token (config : Config) (w : World) : Config :=
  if Js.truthy (accessToken w)
  then set_header "Authorization" ("Bearer " ++ Js.interp (accessToken w)) config
  else config.

Definition requestInterceptor1 (config : Config) : M Config :=
  fun w => (Resolved (attach_token config w), w).

(** *** Request interceptor, second revision: the HTTPS enforcement
    blocks in source order, then the token *)

(** "Force HTTPS for production domain" (first block, and again as the
    "absolute final check") *)
Definition force_base_https (c : Config) : Config :=
  match baseURL c with
  | Some b =>
      if nonempty b && Js.includes PROD b then
        let c :=
          if Js.startsWith "http://" b
          then set_baseURL
                 (Some (Js.replaceAll "http://" "https://" (Js.replace_http_prefix b))) c
          else c in
        if negb (Js.startsWith "https://" (Js.interp (baseURL c)))
        then set_baseURL (Some PROD_URL) c
        else c
      else c
  | None => c
  end.

(** "Force HTTPS for production", under [this.isProduction] *)
Definition force_production (c : Config) : Config :=
  let c :=
    match baseURL c with
    | Some b =>
        if nonempty b then set_baseURL (Some (Js.replace_http_prefix b)) c else c
    | None => c
    end in
  let c :=
    match url c with
    | Some u =>
        if nonempty u && Js.startsWith "http://" u
        then set_url (Some (Js.replace_http_prefix u)) c else c
    | None => c
    end in
  match baseURL c, url c with
  | Some b, Some u =>
      if nonempty b && nonempty u then
        if Js.includes PROD b || Js.includes PROD u then
          let c := set_baseURL (Some (Js.replace_http_prefix b)) c in
          if Js.startsWith "http://" u
          then set_url (Some (Js.replace_http_prefix u)) c else c
        else c
      else c
  | _, _ => c
  end.

(** "Additional safety" on [baseURL] *)
Definition force_base_prefix (c : Config) : Config :=
  match baseURL c with
  | Some b =>
      if Js.includes PROD b then set_baseURL (Some (Js.replace_http_prefix b)) c else c
  | None => c
  end.

(** "Additional safety" on [url] *)
Definition force_url_domain (c : Config) : Config :=
  match url c with
  | Some u =>
      if Js.includes PROD u
      then set_url (Some (Js.replaceAll "http://internhubapi.sadn.site"
                                        "https://internhubapi.sadn.site" u)) c
      else c
  | None => c
  end.

(** [config.url ? (config.url.startsWith('http') ? config.url
                   : `${config.baseURL}${config.url}`) : config.baseURL] *)
Definition full_url (c : Config) : option string :=
  if Js.truthy (url c) then
    if Js.startsWith "http" (Js.interp (url c)) then url c
    else Some (Js.interp (baseURL c) ++ Js.interp (url c))
  else baseURL c.

Definition must_fix (fullUrl : option string) : bool :=
  Js.truthy fullUrl
  && Js.includes PROD (Js.interp fullUrl)
  && Js.startsWith "http://" (Js.interp fullUrl).

Definition url_is_absolute (c : Config) : bool :=
  Js.truthy (url c) && Js.startsWith "http" (Js.interp (url c)).

(** "Final nuclear option", under [this.isProduction] *)
Definition rebuild_full_url (c : Config) : Config :=
  let fullUrl := full_url c in
  if must_fix fullUrl then
    let httpsUrl := Js.replace_http_prefix (Js.interp fullUrl) in
    if url_is_absolute c then
      set_baseURL (Some "") (set_url (Some httpsUrl) c)
    else
      let c := set_baseURL
                 (Some (Js.interp (Js.split_first "/api/v2" httpsUrl) ++ "/api/v2")) c in
      set_url (Some (Js.or_else (url c) "")) c
  else c.

(** "Final final check", under [this.isProduction] *)
Definition block_mixed_content (c : Config) : Config :=
  let finalUrl := full_url c in
  if must_fix finalUrl then
    let httpsUrl := Js.replace_http_prefix (Js.interp finalUrl) in
    if url_is_absolute c then
      set_baseURL (Some "") (set_url (Some httpsUrl) c)
    else
      set_baseURL
        (Some (Js.interp (Js.split_first "/api/v2" httpsUrl) ++ "/api/v2")) c
  else c.

(** "Force the final constructed URL to be HTTPS", under
    [this.isProduction && config.baseURL] *)
Definition override_final_url (c : Config) : Config :=
  if Js.truthy (baseURL c) then
    if Js.truthy (url c) && Js.startsWith "http://" (Js.interp (url c)) then
      set_baseURL (Some "")
        (set_url (Some (Js.replace_http_prefix (Js.interp (url c)))) c)
    else if Js.truthy (url c) && Js.startsWith "https://" (Js.interp (url c)) then c
    else
      let base := Js.replace_http_prefix (Js.interp (baseURL c)) in
      let path := Js.or_else (url c) "" in
      let finalUrl := base ++ path in
      if Js.includes PROD finalUrl && Js.startsWith "http://" finalUrl
      then set_baseURL (Js.split_first path (Js.replace_http_prefix finalUrl)) c
      else c
  else c.

(** "Reload token from localStorage before each request" *)
Definition reload_token (w : World) : World :=
  match window w with
  | Some win =>
      let storedToken := localStorage win !! "access_token" in
      if Js.truthy storedToken && negb (bool_decide (storedToken = accessToken w))
      then set_accessToken storedToken w
      else w
  | None => w
  end.

(** the debug block for POST requests, under [this.isProduction] *)
Definition debug_post (c : Config) : Config :=
  if bool_decide (method c = Some "POST")
     && Js.truthy (baseURL c) && Js.truthy (url c) then
    let u := Js.interp (url c) in
    let debugUrl :=
      if Js.startsWith "http" u then u else Js.interp (baseURL c) ++ u in
    if Js.includes PROD debugUrl && Js.startsWith "http://" debugUrl then
      if Js.startsWith "http" u
      then set_baseURL (Some "")
             (set_url (Some (Js.replace_http_prefix debugUrl)) c)
      else c
    else c
  else c.

Definition when (b : bool) (f : Config -> Config) (c : Config) : Config :=
  if b then f c else c.

(** the URL part of the second interceptor *)
Definition enforce_https (prod : bool) (c : Config) : Config :=
  let c := force_base_https c in
  let c := when prod force_production c in
  let c := force_base_prefix c in
  let c := force_url_domain c in
  let c := when prod rebuild_full_url c in
  let c := force_base_https c in
  let c := when prod block_mixed_content c in
  when prod override_final_url c.

Definition requestInterceptor2 (config : Config) : M Config :=
  fun w =>
    let c := enforce_https (isProduction w) config in
    let w := reload_token w in
    let c := attach_token c w in
    let c := when (isProduction w) debug_post c in
    (Resolved c, w).

(** the request interceptor of the revision at hand: [authorize] *)
Definition requestInterceptor (config : Config) : M Config :=
  match rev with
  | Rev1 => requestInterceptor1 config
  | Rev2 => requestInterceptor2 config
  end.

(** *** The network *)

(** a request leaves the browser: it is logged, and the backend answers *)
Definition dispatch (v : Via) (c : Config) : World -> Outcome * World :=
  fun w =>
    let wire := {| via := v; req := c |} in
    (backend (sent w) wire, set_sent (sent w ++ [wire]) w).

(** axios' default [validateStatus] *)
Definition validateStatus (st : Z) : bool := (200 <=? st) && (st <? 300).

(** axios' [settle]: a promise from what the network gave back *)
Definition settle (c : Config) (o : Outcome) : Result Response :=
  match o with
  | Responded r =>
      if validateStatus (status r) then Resolved r
      else Rejected (AxiosErr
             {| code := if (400 <=? status r) && (status r <? 500)
                        then Some "ERR_BAD_REQUEST"
                        else if (500 <=? status r) && (status r <? 600)
                        then Some "ERR_BAD_RESPONSE" else None;
                message := Some ("Request failed with status code "
                                 ++ pretty (status r));
                response := Some r;
                config := c |})
  | NoResponse ec em =>
      Rejected (AxiosErr {| code := ec; message := em; response := None;
                            config := c |})
  end.

Definition send (v : Via) (c : Config) : M Response :=
  fun w => let '(o, w') := dispatch v c w in (settle c o, w').

(** the defaults of [axios.create] merged with a call's method, url, data *)
Definition mkConfig (base m u : string) (d : Payload) : Config :=
  {| baseURL := Some base; url := Some u; method := Some m;
     headers := {[ "Content-Type" := "application/json" ]};
     data := d; _retry := false |}.

(** *** refreshAccessToken: a separate axios instance, without the
    interceptors of the main client *)

Definition refreshBaseUrl (w : World) : string :=
  match rev with
  | Rev1 => API_BASE_URL
  | Rev2 =>
      if isProduction w || Js.includes PROD API_BASE_URL
      then Js.replaceAll "http://" "https://" (Js.replace_http_prefix API_BASE_URL)
      else API_BASE_URL
  end.

Definition force_all_https (o : option string) : option string :=
  match o with
  | Some s =>
      if nonempty s
      then Some (Js.replaceAll "http://" "https://" (Js.replace_http_prefix s))
      else o
  | None => None
  end.

(** the interceptor of the refresh client (second revision) *)
Definition refreshInterceptor (w : World) (c : Config) : Config :=
  match rev with
  | Rev1 => c
  | Rev2 =>
      let c :=
        if isProduction w || Js.opt_includes PROD (baseURL c)
        then set_url (force_all_https (url c))
               (set_baseURL (force_all_https (baseURL c)) c)
        else c in
      force_url_domain (force_base_prefix c)
  end.

Definition refreshAccessToken (refreshToken : string) : M (option Data) :=
  fun w =>
    let c := mkConfig (refreshBaseUrl w) "post" "/auth/refresh"
               (RefreshTokenRequest refreshToken) in
    match send RefreshClient (refreshInterceptor w c) w with
    | (Resolved response, w') => (Resolved (rdata response), w')
    | (Rejected t, w') => (Rejected t, w')
    | (OutOfFuel, w') => (OutOfFuel, w')
    end.

(** *** Response interceptor *)

(** [newTokens.access_token] and [newTokens.refresh_token] of a body *)
Definition get_access_token (d : Data) : option string :=
  match d with DataAuth a => access_token a | _ => None end.

Definition get_refresh_token (d : Data) : option string :=
  match d with DataAuth a => refresh_token a | _ => None end.

(** [refreshError?.response?.status === 401 || ... === 403] *)
Definition is_auth_rejection (t : Thrown) : bool :=
  match t with
  | AxiosErr e =>
      match response e with
      | Some r => (status r =? 401) || (status r =? 403)
      | None => false
      end
  | _ => false
  end.

Definition isRefreshEndpoint (c : Config) : bool :=
  Js.opt_includes "/auth/refresh" (url c).

Definition isAuthError (error : AxiosError) : bool :=
  match response error with
  | Some r => status r =? 401
  | None => false
  end.

(** the guard of the refresh-and-retry path *)
Definition should_refresh (error : AxiosError) (w : World) : bool :=
  isAuthError error
  && negb (_retry (config error))
  && negb (isRefreshEndpoint (config error))
  && Js.truthy (refreshToken w).

(** the [catch (refreshError)] block; [error] is the original error *)
Definition on_refresh_error (error : AxiosError) (refreshError : Thrown)
  : M Response :=
  fun w =>
    let w :=
      if is_auth_rejection refreshError
      then navigate "/login" (clearTokens w)
      else w in
    (Rejected (AxiosErr error), w).

(** the rejection handler of the response interceptor; [client] is
    [this.client], through which the request is issued again.
    [originalRequest] is [error.config] itself, so setting its [_retry]
    shows in the error that is rejected later. *)
Definition responseInterceptor (client : Config -> M Response)
    (error : AxiosError) : M Response :=
  fun w =>
    if should_refresh error w then
      let originalRequest := set_retry true (config error) in
      let error := set_config originalRequest error in
      match refreshAccessToken (Js.interp (refreshToken w)) w with
      | (Resolved None, w1) =>
          (* reading [access_token] of a null body throws inside [try] *)
          on_refresh_error error TypeError w1
      | (Resolved (Some newTokens), w1) =>
          let w2 := setAccessToken (get_access_token newTokens) w1 in
          let w3 :=
            if Js.truthy (get_refresh_token newTokens)
            then setRefreshToken (get_refresh_token newTokens) w2
            else w2 in
          let originalRequest :=
            set_header "Authorization"
              ("Bearer " ++ Js.interp (get_access_token newTokens))
              originalRequest in
          client originalRequest w3
      | (Rejected refreshError, w1) => on_refresh_error error refreshError w1
      | (OutOfFuel, w1) => (OutOfFuel, w1)
      end
    else (Rejected (AxiosErr error), w).

(** [this.client(config)]: request interceptor, dispatch, response
    interceptor.  The handler calls the client again, so the definition
    is by recursion on a bound of the nesting depth. *)
Fixpoint client (fuel : nat) (config : Config) : M Response :=
  match fuel with
  | O => fun w => (OutOfFuel, w)
  | S fuel' =>
      fun w =>
        match requestInterceptor config w with
        | (Resolved config', w1) =>
            match send MainClient config' w1 with
            | (Rejected (AxiosErr error), w2) =>
                responseInterceptor (client fuel') error w2
            | r => r
            end
        | (Rejected t, w1) => (Rejected t, w1)
        | (OutOfFuel, w1) => (OutOfFuel, w1)
        end
  end.

(** [this.client.get(url)], [this.client.post(url, data)] *)
Definition get (fuel : nat) (u : string) : M Response :=
  client fuel (mkConfig API_BASE_URL "get" u NoPayload).

Definition post (fuel : nat) (u : string) (d : Payload) : M Response :=
  client fuel (mkConfig API_BASE_URL "post" u d).

(** *** Auth endpoints *)

(** [signIn(credentials)]; reading [access_token] of a null body throws *)
Definition signIn (fuel : nat) (email password : string) : M Data :=
  (await response <- post fuel "/auth/sign-in" (SignInRequest email password) in
   match rdata response with
   | None => reject TypeError
   | Some d =>
       await _ <- modify (setAccessToken (get_access_token d)) in
       await _ <- modify (fun w =>
                   if Js.truthy (get_refresh_token d)
                   then setRefreshToken (get_refresh_token d) w else w) in
       ret d
   end)%js.

(** [getCurrentUser()] *)
Definition getCurrentUser (fuel : nat) : M (option Data) :=
  (await response <- get fuel "/auth/me" in ret (rdata response))%js.

(** [signOut(refreshToken?)] *)
Definition signOut (fuel : nat) (refreshToken : option string) : M unit :=
  finally
    (try_catch
       (if Js.truthy refreshToken
        then (await _ <- post fuel "/auth/sign-out"
                           (SignOutRequest (Js.interp refreshToken)) in
              ret tt)%js
        else ret tt)
       (fun _ => ret tt))
    clearTokens.

End Client.

End ApiClient.

(** ** AuthContext *)

Module AuthContext.

Section Provider.

Variable rev : Revision.
Variable API_BASE_URL : string.
Variable backend : list Wire -> Wire -> Outcome.

(** [refreshUser()] *)
Definition refreshUser (fuel : nat) : M unit :=
  finally
    (try_catch
       (await currentUser <- ApiClient.getCurrentUser rev API_BASE_URL backend fuel in
        modify (setUser currentUser))%js
       (fun error =>
          if ApiClient.is_auth_rejection error
          then modify (fun w => ApiClient.clearTokens (setUser None w))
          else modify (setUser None)))
    (setLoading false).

(** [signIn(credentials)] *)
Definition signIn (fuel : nat) (email password : string) : M unit :=
  (await _ <- ApiClient.signIn rev API_BASE_URL backend fuel email password in
   refreshUser fuel)%js.

(** [signOut()]; [localStorage] is read without a [typeof window] test *)
Definition signOut (fuel : nat) : M unit :=
  fun w =>
    match window w with
    | None => (Rejected ReferenceError, w)
    | Some win =>
        let stored := localStorage win !! "refresh_token" in
        let refreshToken := if Js.truthy stored then stored else None in
        (await _ <- ApiClient.signOut rev API_BASE_URL backend fuel refreshToken in
         modify (setUser None))%js w
    end.

End Provider.

End AuthContext.

(** ** formatApiError *)

Section FormatApiError.

Variable API_BASE_URL : string.
(** the browser's window, [None] when [window] is not defined *)
Variable win : option Window.

(** [error?.code === c] *)
Definition code_is (c : string) (error : option AxiosError) : bool :=
  match error with
  | Some e => bool_decide (code e = Some c)
  | None => false
  end.

(** [error?.message?.includes(s)] *)
Definition message_includes (s : string) (error : option AxiosError) : bool :=
  match error with
  | Some e => Js.opt_includes s (message e)
  | None => false
  end.

(** [error?.message] *)
Definition message_of (error : option AxiosError) : option string :=
  match error with
  | Some e => message e
  | None => None
  end.

(** [String(part)] *)
Definition loc_string (p : LocPart) : string :=
  match p with
  | LocName s => s
  | LocIndex n => pretty n
  end.

(** [err.loc?.slice(1).join('.')] *)
Definition field_path (err : ValidationError) : option string :=
  match loc err with
  | Some l => Some (Js.join "." (map loc_string (tail l)))
  | None => None
  end.

(** the callback of [detail.map] *)
Definition render_entry (err : ValidationError) : string :=
  let field := Js.or_else (field_path err) "field" in
  let message := Js.or_else (msg err) "Invalid value" in
  field ++ ": " ++ message.

(** [error.response.data.detail] *)
Definition detail_of (d : Data) : Detail :=
  match d with
  | DataDetail x => x
  | _ => DetailOther
  end.

Definition TIMEOUT_MESSAGE : string :=
  "Request timeout. Please check your connection and try again.".

Definition cors_message (origin : string) : string :=
  "CORS error. Please check backend CORS configuration allows " ++ origin.

Definition network_message : string :=
  "Network error. Please check your connection and ensure the backend server is running at "
  ++ API_BASE_URL ++ ". Check browser console for details.".

Definition refused_message : string :=
  "Connection refused. Is the backend server running at " ++ API_BASE_URL ++ "?".

Definition generic_network_message : string :=
  "Network error. Please check your connection to " ++ API_BASE_URL
  ++ ". Check browser console for details.".

(** [!error.response.data]: a [null] body and the empty string *)
Definition no_data (d : option Data) : bool :=
  match d with
  | None | Some DataEmpty => true
  | Some _ => false
  end.

(** [formatApiError(error)]; [inr ReferenceError] when [window] is read
    and not defined *)
Definition formatApiError (error : option AxiosError) : string + Thrown :=
  match error ≫= response with
  | None =>
      if code_is "ECONNABORTED" error || message_includes "timeout" error then
        inl TIMEOUT_MESSAGE
      else if message_includes "CORS" error
              || message_includes "cross-origin" error then
        match win with
        | Some w => inl (cors_message (location_origin w))
        | None => inr ReferenceError
        end
      else if code_is "ERR_NETWORK" error
              || message_includes "Network Error" error
              || message_includes "Failed to fetch" error then
        inl network_message
      else if code_is "ECONNREFUSED" error then
        inl refused_message
      else inl (Js.or_else (message_of error) generic_network_message)
  | Some r =>
      if no_data (rdata r) then
        inl (Js.or_else (message_of error) "An unexpected error occurred")
      else
        match from_option detail_of DetailOther (rdata r) with
        | DetailString s => inl s
        | DetailArray errs => inl (Js.join ", " (map render_entry errs))
        | DetailOther => inl "An error occurred. Please try again."
        end
  end.

End FormatApiError.

(** ** Scripted backends for the scenarios *)

Module Scenario.

Definition BASE : string := "http://localhost:8000/api/v2".

Definition ok (d : Data) : Outcome :=
  Responded {| status := 200; rdata := Some d |}.

Definition fail (st : Z) : Outcome :=
  Responded {| status := st;
               rdata := Some (DataDetail (DetailString "Could not validate credentials")) |}.

Definition tokens (a : string) (r : option string) : Data :=
  DataAuth {| access_token := Some a; token_type := None;
              expires_in := None; refresh_token := r |}.

Definition alice : User := {| id := 1; email := "a@x.com"; role := student |}.

Definition bearer (c : Config) : option string := headers c !! "Authorization".

(** sign-in with the right credentials answers [t1] and [r1]; the refresh
    call is answered by [on_refresh]; every other call is accepted with
    [Bearer t2] and rejected with a 401 otherwise *)
Definition backend_with (on_refresh : Payload -> Outcome)
    (_ : list Wire) (x : Wire) : Outcome :=
  let c := req x in
  if bool_decide (url c = Some "/auth/sign-in") then
    match data c with
    | SignInRequest "a@x.com" "secret123" => ok (tokens "t1" (Some "r1"))
    | _ => fail 401
    end
  else if bool_decide (url c = Some "/auth/refresh") then on_refresh (data c)
  else if bool_decide (bearer c = Some "Bearer t2") then
    if bool_decide (url c = Some "/auth/me") then ok (DataUser alice)
    else ok DataOther
  else fail 401.

(** a refresh with [r1] answers [t2] alone, without a new refresh token *)
Definition backend : list Wire -> Wire -> Outcome :=
  backend_with (fun d =>
    match d with
    | RefreshTokenRequest "r1" => ok (tokens "t2" None)
    | _ => fail 401
    end).

(** the refresh call gets no response *)
Definition offline : list Wire -> Wire -> Outcome :=
  backend_with (fun _ => NoResponse (Some "ERR_NETWORK") (Some "Network Error")).

(** the refresh token was revoked *)
Definition revoked : list Wire -> Wire -> Outcome :=
  backend_with (fun _ => fail 401).

(** accepts everything *)
Definition open_backend (_ : list Wire) (x : Wire) : Outcome :=
  if bool_decide (url (req x) = Some "/auth/sign-in")
  then ok (tokens "t1" (Some "r1"))
  else ok (DataUser alice).

Definition browser : Window :=
  {| localStorage := ∅; location_href := "/";
     location_origin := "http://localhost:3000" |}.

(** a fresh client in a browser with an empty storage *)
Definition start : World := ApiClient.constructor false (Some browser).

(** the same on a page served over HTTPS *)
Definition start_production : World := ApiClient.constructor true (Some browser).

(** after the sign-in of the scenario *)
Definition signed_in : World :=
  snd (ApiClient.signIn Rev1 BASE backend 2 "a@x.com" "secret123" start).

(** a protected call as the request interceptor sends it after sign-in,
    and the 401 it comes back with *)
Definition protected_call : Config :=
  set_header "Authorization" "Bearer t1"
    (ApiClient.mkConfig BASE "get" "/internships" NoPayload).

Definition unauthorized : AxiosError :=
  {| code := Some "ERR_BAD_REQUEST";
     message := Some "Request failed with status code 401";
     response := Some {| status := 401;
                         rdata := Some (DataDetail (DetailString
                                    "Could not validate credentials")) |};
     config := protected_call |}.

(** the same call refused with a 403 *)
Definition forbidden : AxiosError :=
  {| code := Some "ERR_BAD_REQUEST";
     message := Some "Request failed with status code 403";
     response := Some {| status := 403; rdata := Some (DataDetail (DetailString "Forbidden")) |};
     config := protected_call |}.





End Scenario.

(** ** The base URL of the second revision *)

Module ApiBase.

(** what the code reads of [window.location] *)
Record Location := { protocol : string; hostname : string }.

(** [typeof window !== 'undefined' && (window.location.protocol === 'https:'
    || window.location.hostname.includes('internhub.sadn.site'))];
    [None] when there is no window *)
Definition isProductionBrowser (loc : option Location) : bool :=
  match loc with
  | Some l =>
      String.eqb (protocol l) "https:"
      || Js.includes "internhub.sadn.site" (hostname l)
  | None => false
  end.

Definition DEFAULT_URL : string := "http://localhost:8000/api/v2".
Definition PROD_HTTPS : string := "https://internhubapi.sadn.site".

(** the two [replace] calls that always come together:
    [s.replace(/^http:\/\//, 'https://').replace(/http:\/\//g, 'https://')] *)
Definition force_https (s : string) : string :=
  Js.replaceAll "http://" "https://" (Js.replace_http_prefix s).

(** [getApiBaseUrl()]; [env] is [process.env.NEXT_PUBLIC_API_BASE_URL] *)
Definition getApiBaseUrl (env : option string) (loc : option Location) : string :=
  let apiUrl := Js.or_else env DEFAULT_URL in
  let apiUrl :=
    if Js.includes ApiClient.PROD apiUrl then
      let apiUrl := force_https apiUrl in
      if negb (Js.startsWith PROD_HTTPS apiUrl) then ApiClient.PROD_URL else apiUrl
    else apiUrl in
  let apiUrl :=
    if isProductionBrowser loc && Js.includes ApiClient.PROD apiUrl
    then force_https apiUrl else apiUrl in
  let apiUrl :=
    if Js.includes ApiClient.PROD apiUrl && Js.startsWith "http://" apiUrl
    then force_https apiUrl else apiUrl in
  if Js.includes ApiClient.PROD apiUrl && negb (Js.startsWith "https://" apiUrl)
  then ApiClient.PROD_URL else apiUrl.

(** the part of the constructor that computes [this.baseURL] *)
Definition constructor_baseURL (env : option string) (loc : option Location)
  : string :=
  let isProduction := isProductionBrowser loc in
  let baseURL := getApiBaseUrl env loc in
  let baseURL :=
    if Js.includes ApiClient.PROD baseURL then
      let baseURL := force_https baseURL in
      if negb (Js.startsWith "https://" baseURL) then ApiClient.PROD_URL else baseURL
    else baseURL in
  let baseURL :=
    if isProduction && Js.includes ApiClient.PROD baseURL
    then force_https baseURL else baseURL in
  if Js.includes ApiClient.PROD baseURL && negb (Js.startsWith "https://" baseURL) then
    let baseURL := force_https baseURL in
    if negb (Js.startsWith "https://" baseURL) then ApiClient.PROD_URL else baseURL
  else baseURL.

(** the runtime check that runs once the module is loaded, on
    [apiClient.baseURL]; it runs only when there is a window *)
Definition runtime_check (loc : option Location) (baseURL : string) : string :=
  match loc with
  | None => baseURL
  | Some _ =>
      if isProductionBrowser loc && negb (String.eqb baseURL "") then
        if Js.includes ApiClient.PROD baseURL then
          if Js.startsWith "http://" baseURL then
            let baseURL := force_https baseURL in
            if negb (Js.startsWith "https://" baseURL)
            then ApiClient.PROD_URL else baseURL
          else baseURL
        else baseURL
      else baseURL
  end.

End ApiBase.

(** ** signUp (second revision) *)

Module SignUp.

Section Client.

Variable rev : Revision.
Variable API_BASE_URL : string.
Variable backend : list Wire -> Wire -> Outcome.

(** [signUp(credentials)]; [credentials] is the serialized body
    [{email, password, role}] *)
Definition signUp (fuel : nat) (credentials : string) : M Data :=
  (await response <- ApiClient.post rev API_BASE_URL backend fuel
                       "/auth/sign-up" (OtherPayload credentials) in
   match rdata response with
   | None => reject TypeError
   | Some d =>
       await _ <- modify (ApiClient.setAccessToken (ApiClient.get_access_token d)) in
       await _ <- modify (fun w =>
                   if Js.truthy (ApiClient.get_refresh_token d)
                   then ApiClient.setRefreshToken (ApiClient.get_refresh_token d) w
                   else w) in
       ret d
   end)%js.

End Client.

End SignUp.

(** ** The login page *)

(** what the login page shows when [signIn] throws:
    [formatApiError(err) || 'Failed to sign in. Please check your credentials.']
    (the other pages do the same with a fallback of their own) *)
Definition shown_error (API_BASE_URL : string) (win : option Window)
    (fallback : string) (err : option AxiosError) : string + Thrown :=
  match formatApiError API_BASE_URL win err with
  | inl s => inl (Js.or_else (Some s) fallback)
  | inr t => inr t
  end.

(** * Specification vocabulary *)

(** [c'] differs from [c] in [baseURL] and [url] at most *)
Definition url_only (c c' : Config) : Prop :=
  method c' = method c /\ headers c' = headers c
  /\ data c' = data c /\ _retry c' = _retry c.

(** a relative path that does not mention the production host *)
Definition relative_path (u : string) : Prop :=
  exists rest, u = String "/" rest /\ Js.includes ApiClient.PROD u = false.

(** [w'] holds the same session as [w]: only the request log may differ *)
Definition same_session (w w' : World) : Prop :=
  accessToken w' = accessToken w /\ refreshToken w' = refreshToken w
  /\ window w' = window w /\ user w' = user w /\ loading w' = loading w
  /\ isProduction w' = isProduction w.

(** the [Authorization] header for the access token held *)
Definition bearer_of (w : World) : string := "Bearer " ++ Js.interp (accessToken w).

(** the requests one call of the client puts on the wire: the request
    itself, then possibly one refresh, then possibly the request again *)
Inductive trace_of (c1 : Config) : list Wire -> Prop :=
  | trace_single :
      trace_of c1 [{| via := MainClient; req := c1 |}]
  | trace_refresh_failed rc :
      trace_of c1 [{| via := MainClient; req := c1 |};
                   {| via := RefreshClient; req := rc |}]
  | trace_retried rc c2 :
      _retry c2 = true ->
      trace_of c1 [{| via := MainClient; req := c1 |};
                   {| via := RefreshClient; req := rc |};
                   {| via := MainClient; req := c2 |}].

(** how often a trace uses one of the two axios instances *)
Definition count_via (v : Via) (l : list Wire) : nat :=
  length (filter (fun x => via x = v) l).

(** the guard of the refresh path, spelled out: a 401 response, on a
    request that is not the refresh call and was not retried yet, while a
    refresh token is held *)
Definition enters_refresh_path (error : AxiosError) (w : World) : Prop :=
  (exists r, response error = Some r /\ status r = 401)
  /\ _retry (config error) = false
  /\ Js.opt_includes "/auth/refresh" (url (config error)) = false
  /\ Js.truthy (refreshToken w) = true.

(** the refresh call was answered, and the answer is a 401 or a 403 *)
Definition auth_rejected (refreshError : Thrown) : Prop :=
  exists e r, refreshError = AxiosErr e /\ response e = Some r
              /\ (status r = 401 \/ status r = 403).

(** the refresh call failed otherwise: no response at all (network error,
    timeout), or a response that is neither a 401 nor a 403 *)
Definition not_auth_rejected (refreshError : Thrown) : Prop :=
  forall e r, refreshError = AxiosErr e -> response e = Some r ->
              status r <> 401 /\ status r <> 403.

(** the error handed back by the refresh path is the original error, with
    the retry flag of its request set *)
Definition original_error (error e' : AxiosError) : Prop :=
  code e' = code error /\ message e' = message error
  /\ response e' = response error
  /\ config e' = set_retry true (config error).

(** the request of [getCurrentUser] *)
Definition who_am_i (API_BASE_URL : string) : Config :=
  ApiClient.mkConfig API_BASE_URL "get" "/auth/me" NoPayload.

(** no token is left, in memory or in the storage *)
Definition session_cleared (w : World) : Prop :=
  accessToken w = None /\ refreshToken w = None
  /\ storage_get "access_token" w = None
  /\ storage_get "refresh_token" w = None.

(** what is seen of a request on the wire *)
Definition summary (x : Wire)
  : Via * option string * option string * Payload * bool :=
  (via x, url (req x), Scenario.bearer (req x), data (req x), _retry (req x)).









(** a [baseURL] that names the production host begins with [https://] *)
Definition https_base (c : Config) : Prop :=
  forall b, baseURL c = Some b ->
            Js.includes ApiClient.PROD b = true ->
            Js.startsWith "https://" b = true.

(** the token held in memory and the one in [localStorage] under [k]
    agree: the same string when a token is held, and no (truthy) entry in
    the storage otherwise; without a window there is no storage *)
Definition token_synced (k : string) (tok : option string) (w : World) : Prop :=
  match window w with
  | None => True
  | Some win =>
      if Js.truthy tok then localStorage win !! k = tok
      else Js.truthy (localStorage win !! k) = false
  end.

Definition synced (w : World) : Prop :=
  token_synced "access_token" (accessToken w) w
  /\ token_synced "refresh_token" (refreshToken w) w.

(** the states a page can bring the client to: a fresh client, then any
    sequence of calls of its public methods and of the auth context *)
Inductive reachable (rev : Revision) (API_BASE_URL : string)
    (backend : list Wire -> Wire -> Outcome) : World -> Prop :=
  | reach_constructor prod win :
      reachable rev API_BASE_URL backend (ApiClient.constructor prod win)
  | reach_client fuel c w :
      reachable rev API_BASE_URL backend w ->
      reachable rev API_BASE_URL backend
        (snd (ApiClient.client rev API_BASE_URL backend fuel c w))
  | reach_signIn fuel email password w :
      reachable rev API_BASE_URL backend w ->
      reachable rev API_BASE_URL backend
        (snd (ApiClient.signIn rev API_BASE_URL backend fuel email password w))
  | reach_signUp fuel credentials w :
      reachable rev API_BASE_URL backend w ->
      reachable rev API_BASE_URL backend
        (snd (SignUp.signUp rev API_BASE_URL backend fuel credentials w))
  | reach_getCurrentUser fuel w :
      reachable rev API_BASE_URL backend w ->
      reachable rev API_BASE_URL backend
        (snd (ApiClient.getCurrentUser rev API_BASE_URL backend fuel w))
  | reach_signOut fuel token w :
      reachable rev API_BASE_URL backend w ->
      reachable rev API_BASE_URL backend
        (snd (ApiClient.signOut rev API_BASE_URL backend fuel token w))
  | reach_setAccessToken token w :
      reachable rev API_BASE_URL backend w ->
      reachable rev API_BASE_URL backend (ApiClient.setAccessToken token w)
  | reach_setRefreshToken token w :
      reachable rev API_BASE_URL backend w ->
      reachable rev API_BASE_URL backend (ApiClient.setRefreshToken token w)
  | reach_clearTokens w :
      reachable rev API_BASE_URL backend w ->
      reachable rev API_BASE_URL backend (ApiClient.clearTokens w)
  | reach_refreshUser fuel w :
      reachable rev API_BASE_URL backend w ->
      reachable rev API_BASE_URL backend
        (snd (AuthContext.refreshUser rev API_BASE_URL backend fuel w))
  | reach_context_signIn fuel email password w :
      reachable rev API_BASE_URL backend w ->
      reachable rev API_BASE_URL backend
        (snd (AuthContext.signIn rev API_BASE_URL backend fuel email password w))
  | reach_context_signOut fuel w :
      reachable rev API_BASE_URL backend w ->
      reachable rev API_BASE_URL backend
        (snd (AuthContext.signOut rev API_BASE_URL backend fuel w)).

(** an operation that leaves memory and storage in agreement *)
Definition keeps_synced {A} (m : M A) : Prop :=
  forall w, synced w -> synced (snd (m w)).

(** the request of [signIn] and of [signUp] *)
Definition sign_in_request (API_BASE_URL email password : string) : Config :=
  ApiClient.mkConfig API_BASE_URL "post" "/auth/sign-in"
    (SignInRequest email password).

Definition sign_up_request (API_BASE_URL credentials : string) : Config :=
  ApiClient.mkConfig API_BASE_URL "post" "/auth/sign-up" (OtherPayload credentials).

(** the backend accepted: a response with a 2xx status *)
Definition accepted (o : Outcome) (r : Response) : Prop :=
  o = Responded r /\ ApiClient.validateStatus (status r) = true.

(** the backend did not accept: no response, or a status outside 2xx *)
Definition refused (o : Outcome) : Prop :=
  match o with
  | Responded r => ApiClient.validateStatus (status r) = false
  | NoResponse _ _ => True
  end.

(** what [setAccessToken] and [setRefreshToken] leave in the storage for a
    token: the token when there is one, no entry otherwise *)
Definition stored (tok : option string) : option string :=
  if Js.truthy tok then tok else None.

(** the tokens of an accepted sign-in or sign-up as the client keeps them *)
Definition store_tokens (d : Data) (w : World) : World :=
  let w := ApiClient.setAccessToken (ApiClient.get_access_token d) w in
  if Js.truthy (ApiClient.get_refresh_token d)
  then ApiClient.setRefreshToken (ApiClient.get_refresh_token d) w else w.

(** * Properties *)

(** ** The string operations on examples *)

Example includes_refresh :
  Js.includes "/auth/refresh" "/auth/refresh?x=1" = true
  /\ Js.includes "/auth/refresh" "/auth/me" = false
  /\ Js.includes "" "" = true.
Proof. repeat split. Qed.

Example replace_http_prefix_once :
  Js.replace_http_prefix "http://a/http://b" = "https://a/http://b"
  /\ Js.replace_http_prefix "https://a" = "https://a".
Proof. split; reflexivity. Qed.

Example replaceAll_every_match :
  Js.replaceAll "http://" "https://" "http://http://x http:/y"
  = "https://https://x http:/y".
Proof. reflexivity. Qed.

Example split_first_cases :
  Js.split_first "/api/v2" "https://h/api/v2/x" = Some "https://h"
  /\ Js.split_first "/api/v2" "https://h" = Some "https://h"
  /\ Js.split_first "" "https://h" = Some "h"
  /\ Js.split_first "" "" = None.
Proof. repeat split. Qed.

Example join_cases :
  Js.join "." ["items"; "0"; "name"] = "items.0.name" /\ Js.join "." [] = "".
Proof. split; reflexivity. Qed.

(** without a window the CORS branch of the formatter reads
    [window.location.origin] and throws *)
Example formatApiError_without_window :
  formatApiError Scenario.BASE None
    (Some {| code := None; message := Some "blocked by CORS policy";
             response := None; config := Scenario.protected_call |})
  = inr ReferenceError.
Proof. reflexivity. Qed.

(** ** Frame lemmas: what the request interceptor leaves alone *)

Section Frames.

Lemma url_only_refl c : url_only c c.
Proof. by repeat split. Qed.

Lemma url_only_trans c1 c2 c3 :
  url_only c1 c2 -> url_only c2 c3 -> url_only c1 c3.
Proof.
  intros (?&?&?&?) (?&?&?&?); repeat split; congruence.
Qed.

Lemma url_only_set_baseURL b c : url_only c (set_baseURL b c).
Proof. by repeat split. Qed.

Lemma url_only_set_url u c : url_only c (set_url u c).
Proof. by repeat split. Qed.

Ltac url_step :=
  repeat first
    [ apply url_only_refl
    | apply url_only_set_baseURL
    | apply url_only_set_url
    | eapply url_only_trans; [ | apply url_only_set_baseURL ]
    | eapply url_only_trans; [ | apply url_only_set_url ]
    | case_match ].

Lemma force_base_https_frame c : url_only c (ApiClient.force_base_https c).
Proof. unfold ApiClient.force_base_https. url_step. Qed.

Lemma force_production_frame c : url_only c (ApiClient.force_production c).
Proof. unfold ApiClient.force_production. url_step. Qed.

Lemma force_base_prefix_frame c : url_only c (ApiClient.force_base_prefix c).
Proof. unfold ApiClient.force_base_prefix. url_step. Qed.

Lemma force_url_domain_frame c : url_only c (ApiClient.force_url_domain c).
Proof. unfold ApiClient.force_url_domain. url_step. Qed.

Lemma rebuild_full_url_frame c : url_only c (ApiClient.rebuild_full_url c).
Proof. unfold ApiClient.rebuild_full_url. url_step. Qed.

Lemma block_mixed_content_frame c : url_only c (ApiClient.block_mixed_content c).
Proof. unfold ApiClient.block_mixed_content. url_step. Qed.

Lemma override_final_url_frame c : url_only c (ApiClient.override_final_url c).
Proof. unfold ApiClient.override_final_url. url_step. Qed.

Lemma debug_post_frame c : url_only c (ApiClient.debug_post c).
Proof. unfold ApiClient.debug_post. url_step. Qed.

Lemma when_frame b f c :
  (forall x, url_only x (f x)) -> url_only c (ApiClient.when b f c).
Proof. intros H. destruct b; simpl; [apply H | apply url_only_refl]. Qed.

Lemma enforce_https_frame prod c : url_only c (ApiClient.enforce_https prod c).
Proof.
  unfold ApiClient.enforce_https.
  repeat (eapply url_only_trans;
          [ | first [ apply when_frame; intros;
                      first [ apply force_production_frame
                            | apply rebuild_full_url_frame
                            | apply block_mixed_content_frame
                            | apply override_final_url_frame ]
                    | apply force_base_https_frame
                    | apply force_base_prefix_frame
                    | apply force_url_domain_frame ] ]).
  apply url_only_refl.
Qed.

Ltac url_kept c :=
  let Hp := fresh "Hp" in
  let Hu := fresh "Hu" in
  intros (? & -> & Hp) Hu; destruct c as [? ? ? ? ? ?];
  simpl in Hu; rewrite Hu;
  repeat first
    [ progress simpl
    | rewrite Hp
    | reflexivity
    | case_match ];
  simplify_eq/=; try done; try congruence.

Lemma force_base_https_url c : url (ApiClient.force_base_https c) = url c.
Proof.
  unfold ApiClient.force_base_https. repeat case_match; reflexivity.
Qed.

Lemma force_base_prefix_url c : url (ApiClient.force_base_prefix c) = url c.
Proof.
  unfold ApiClient.force_base_prefix. repeat case_match; reflexivity.
Qed.

Lemma force_production_url c u :
  relative_path u -> url c = Some u -> url (ApiClient.force_production c) = Some u.
Proof. unfold ApiClient.force_production. url_kept c. Qed.

Lemma force_url_domain_url c u :
  relative_path u -> url c = Some u -> url (ApiClient.force_url_domain c) = Some u.
Proof. unfold ApiClient.force_url_domain. url_kept c. Qed.

Lemma rebuild_full_url_url c u :
  relative_path u -> url c = Some u -> url (ApiClient.rebuild_full_url c) = Some u.
Proof.
  unfold ApiClient.rebuild_full_url, ApiClient.url_is_absolute, ApiClient.full_url.
  url_kept c.
Qed.

Lemma block_mixed_content_url c u :
  relative_path u -> url c = Some u -> url (ApiClient.block_mixed_content c) = Some u.
Proof.
  unfold ApiClient.block_mixed_content, ApiClient.url_is_absolute, ApiClient.full_url.
  url_kept c.
Qed.

Lemma override_final_url_url c u :
  relative_path u -> url c = Some u -> url (ApiClient.override_final_url c) = Some u.
Proof. unfold ApiClient.override_final_url. url_kept c. Qed.

Lemma enforce_https_url prod c u :
  relative_path u -> url c = Some u -> url (ApiClient.enforce_https prod c) = Some u.
Proof.
  intros Hrel Hu. unfold ApiClient.enforce_https, ApiClient.when.
  destruct prod;
    repeat first
      [ rewrite force_base_https_url
      | rewrite force_base_prefix_url
      | apply override_final_url_url; [done|]
      | apply block_mixed_content_url; [done|]
      | apply rebuild_full_url_url; [done|]
      | apply force_url_domain_url; [done|]
      | apply force_production_url; [done|]
      | exact Hu ].
Qed.

End Frames.

(** ** What each operation does to the world *)

Lemma same_session_refl w : same_session w w.
Proof. by repeat split. Qed.

Lemma same_session_set_sent l w : same_session w (set_sent l w).
Proof. by repeat split. Qed.

Create Rewrite HintDb world.

Lemma sent_storage_set k v w : sent (storage_set k v w) = sent w.
Proof. unfold storage_set. by destruct (window w). Qed.

Lemma sent_storage_remove k w : sent (storage_remove k w) = sent w.
Proof. unfold storage_remove. by destruct (window w). Qed.

Lemma sent_navigate h w : sent (navigate h w) = sent w.
Proof. unfold navigate. by destruct (window w). Qed.

Lemma sent_setAccessToken t w : sent (ApiClient.setAccessToken t w) = sent w.
Proof.
  unfold ApiClient.setAccessToken.
  destruct (Js.truthy t); by rewrite ?sent_storage_set, ?sent_storage_remove.
Qed.

Lemma sent_setRefreshToken t w : sent (ApiClient.setRefreshToken t w) = sent w.
Proof.
  unfold ApiClient.setRefreshToken.
  destruct (Js.truthy t); by rewrite ?sent_storage_set, ?sent_storage_remove.
Qed.

Lemma sent_clearTokens w : sent (ApiClient.clearTokens w) = sent w.
Proof. unfold ApiClient.clearTokens. by rewrite !sent_storage_remove. Qed.

Lemma sent_reload_token w : sent (ApiClient.reload_token w) = sent w.
Proof. unfold ApiClient.reload_token. destruct (window w); [case_match|]; done. Qed.

#[local] Hint Rewrite sent_storage_set sent_storage_remove sent_navigate
  sent_setAccessToken sent_setRefreshToken sent_clearTokens sent_reload_token
  : world.

(** [storage_get] after the storage operations *)
Lemma storage_get_remove_eq k w : storage_get k (storage_remove k w) = None.
Proof.
  unfold storage_get, storage_remove.
  destruct (window w) eqn:E; simpl; [apply lookup_delete_eq | by rewrite E].
Qed.

Lemma storage_get_remove_ne k k' w :
  k <> k' -> storage_get k' (storage_remove k w) = storage_get k' w.
Proof.
  intros Hne. unfold storage_get, storage_remove.
  destruct (window w) eqn:E; simpl; [by apply lookup_delete_ne | by rewrite E].
Qed.

Lemma storage_get_navigate k h w : storage_get k (navigate h w) = storage_get k w.
Proof.
  unfold storage_get, navigate. destruct (window w) eqn:E; simpl; [done | by rewrite E].
Qed.

Lemma storage_get_set_tokens k a r w :
  storage_get k (set_refreshToken r (set_accessToken a w)) = storage_get k w.
Proof. done. Qed.

(** [clearTokens] leaves no token behind, in memory or in [localStorage] *)
Lemma clearTokens_clears w :
  accessToken (ApiClient.clearTokens w) = None
  /\ refreshToken (ApiClient.clearTokens w) = None
  /\ storage_get "access_token" (ApiClient.clearTokens w) = None
  /\ storage_get "refresh_token" (ApiClient.clearTokens w) = None.
Proof.
  unfold ApiClient.clearTokens.
  repeat split.
  - unfold storage_remove, set_refreshToken, set_accessToken; simpl.
    destruct (window w); simpl; [|done].
    by destruct w.
  - unfold storage_remove, set_refreshToken, set_accessToken; simpl.
    by destruct (window w).
  - rewrite storage_get_remove_ne by done. apply storage_get_remove_eq.
  - apply storage_get_remove_eq.
Qed.

Lemma navigate_keeps_tokens h w :
  accessToken (navigate h w) = accessToken w
  /\ refreshToken (navigate h w) = refreshToken w
  /\ user (navigate h w) = user w.
Proof. unfold navigate. by destruct (window w). Qed.

Lemma navigate_href h w win :
  window w = Some win ->
  exists win', window (navigate h w) = Some win' /\ location_href win' = h.
Proof. intros E. unfold navigate. rewrite E. simpl. eauto. Qed.

Lemma clearTokens_window w win :
  window w = Some win -> exists win', window (ApiClient.clearTokens w) = Some win'.
Proof.
  intros E. unfold ApiClient.clearTokens, storage_remove. simpl. rewrite E. simpl.
  by eexists.
Qed.

Lemma clearTokens_user w : user (ApiClient.clearTokens w) = user w.
Proof.
  by destruct w as [? ? ? [win|] ? ? ?].
Qed.

(** ** The request pipeline *)

Section Pipeline.

Variable rev : Revision.
Variable API_BASE_URL : string.
Variable backend : list Wire -> Wire -> Outcome.

Abbreviation requestInterceptor := (ApiClient.requestInterceptor rev).
Abbreviation send := (ApiClient.send backend).
Abbreviation refreshAccessToken := (ApiClient.refreshAccessToken rev API_BASE_URL backend).
Abbreviation responseInterceptor := (ApiClient.responseInterceptor rev API_BASE_URL backend).
Abbreviation client := (ApiClient.client rev API_BASE_URL backend).

Lemma attach_token_frame c w :
  let c' := ApiClient.attach_token c w in
  baseURL c' = baseURL c /\ url c' = url c /\ method c' = method c
  /\ data c' = data c /\ _retry c' = _retry c
  /\ headers c' = if Js.truthy (accessToken w)
                  then <["Authorization" := bearer_of w]> (headers c)
                  else headers c.
Proof.
  unfold ApiClient.attach_token. simpl.
  destruct (Js.truthy (accessToken w)); by repeat split.
Qed.

Lemma reload_token_session w :
  let w' := ApiClient.reload_token w in
  refreshToken w' = refreshToken w /\ window w' = window w /\ sent w' = sent w
  /\ user w' = user w /\ loading w' = loading w
  /\ isProduction w' = isProduction w.
Proof.
  unfold ApiClient.reload_token.
  destruct (window w) eqn:E; [case_match|]; cbv zeta; by repeat split.
Qed.

(** the request interceptor never rejects; it changes neither the retry
    flag, the method nor the body of the request, and of the world at
    most the access token held in memory *)
Lemma requestInterceptor_total c w :
  exists c' w',
    requestInterceptor c w = (Resolved c', w')
    /\ method c' = method c /\ data c' = data c /\ _retry c' = _retry c
    /\ headers c' = (if Js.truthy (accessToken w')
                     then <["Authorization" := bearer_of w']> (headers c)
                     else headers c)
    /\ refreshToken w' = refreshToken w /\ window w' = window w
    /\ sent w' = sent w /\ user w' = user w /\ loading w' = loading w
    /\ isProduction w' = isProduction w
    /\ accessToken w' = match rev with
                        | Rev1 => accessToken w
                        | Rev2 => accessToken (ApiClient.reload_token w)
                        end.
Proof.
  unfold ApiClient.requestInterceptor. destruct rev.
  - unfold ApiClient.requestInterceptor1.
    destruct (attach_token_frame c w) as (_&_&?&?&?&?).
    eexists _, _. split; [reflexivity|]. by repeat split.
  - unfold ApiClient.requestInterceptor2.
    set (c0 := ApiClient.enforce_https (isProduction w) c).
    set (w0 := ApiClient.reload_token w).
    destruct (enforce_https_frame (isProduction w) c) as (Hm&Hh&Hd&Hr).
    destruct (attach_token_frame c0 w0) as (_&_&Hm1&Hd1&Hr1&Hh1).
    destruct (when_frame (isProduction w0) ApiClient.debug_post
                (ApiClient.attach_token c0 w0) debug_post_frame)
      as (Hm2&Hh2&Hd2&Hr2).
    destruct (reload_token_session w) as (?&?&?&?&?&?).
    eexists _, _. split; [reflexivity|].
    fold c0 in Hm, Hh, Hd, Hr.
    repeat split; try congruence; try assumption.
    rewrite Hh2, Hh1, Hh. done.
Qed.

Lemma send_eq v c w :
  send v c w =
    (ApiClient.settle c (backend (sent w) {| via := v; req := c |}),
     set_sent (sent w ++ [{| via := v; req := c |}]) w).
Proof. reflexivity. Qed.

Lemma settle_cases c o :
  (exists r, ApiClient.settle c o = Resolved r
             /\ o = Responded r /\ ApiClient.validateStatus (status r) = true)
  \/ (exists e, ApiClient.settle c o = Rejected (AxiosErr e) /\ config e = c
                /\ response e = match o with
                                | Responded r => Some r
                                | NoResponse _ _ => None
                                end).
Proof.
  destruct o as [r|ec em]; simpl.
  - destruct (ApiClient.validateStatus (status r)) eqn:E; [left|right]; eauto.
  - right; eauto.
Qed.

(** the refresh call: one request through the refresh client, and nothing
    else of the world changes *)
Lemma refreshAccessToken_spec rt w :
  exists r rc,
    refreshAccessToken rt w =
      (r, set_sent (sent w ++ [{| via := RefreshClient; req := rc |}]) w)
    /\ r <> OutOfFuel.
Proof.
  unfold ApiClient.refreshAccessToken. rewrite send_eq.
  match goal with |- context [ApiClient.settle ?c ?o] =>
    destruct (settle_cases c o) as [(r&->&_)|(e&->&_)] end;
    eexists _, _; split; try reflexivity; discriminate.
Qed.

(** outside its guard the response interceptor hands the error back and
    touches nothing *)
Lemma responseInterceptor_pass cl error w :
  ApiClient.should_refresh error w = false ->
  responseInterceptor cl error w = (Rejected (AxiosErr error), w).
Proof. intros H. unfold ApiClient.responseInterceptor. by rewrite H. Qed.

Lemma client_S fuel c w :
  client (S fuel) c w =
    match requestInterceptor c w with
    | (Resolved config', w1) =>
        match send MainClient config' w1 with
        | (Rejected (AxiosErr error), w2) =>
            responseInterceptor (client fuel) error w2
        | r => r
        end
    | (Rejected t, w1) => (Rejected t, w1)
    | (OutOfFuel, w1) => (OutOfFuel, w1)
    end.
Proof. reflexivity. Qed.

(** a request whose retry flag is set goes out once and never reaches the
    refresh path *)
Lemma client_retried fuel c w :
  _retry c = true ->
  exists c1 w1 r,
    requestInterceptor c w = (Resolved c1, w1)
    /\ _retry c1 = true
    /\ client (S fuel) c w =
         (r, set_sent (sent w ++ [{| via := MainClient; req := c1 |}]) w1)
    /\ r <> OutOfFuel
    /\ ((exists x, r = Resolved x)
        \/ (exists e, r = Rejected (AxiosErr e) /\ config e = c1)).
Proof.
  intros Hretry.
  destruct (requestInterceptor_total c w)
    as (c1&w1&Hi&_&_&Hr&_&_&_&Hs&_).
  exists c1, w1. rewrite client_S, Hi, send_eq, Hs.
  match goal with |- context [ApiClient.settle ?c ?o] =>
    destruct (settle_cases c o) as [(r&->&_)|(e&->&He&_)] end.
  - eexists. split; [done|]. split; [congruence|].
    split; [reflexivity|]. split; [done|]. eauto.
  - rewrite responseInterceptor_pass.
    + eexists. split; [done|]. split; [congruence|].
      split; [reflexivity|]. split; [done|]. eauto.
    + unfold ApiClient.should_refresh. rewrite He, Hr, Hretry. simpl.
      by rewrite andb_false_r.
Qed.

Lemma should_refresh_inv error w :
  ApiClient.should_refresh error w = true ->
  ApiClient.isAuthError error = true
  /\ _retry (config error) = false
  /\ ApiClient.isRefreshEndpoint (config error) = false
  /\ Js.truthy (refreshToken w) = true.
Proof.
  unfold ApiClient.should_refresh.
  rewrite !andb_true_iff, !negb_true_iff. tauto.
Qed.

Lemma on_refresh_error_sent error t w :
  exists w',
    ApiClient.on_refresh_error error t w = (Rejected (AxiosErr error), w')
    /\ sent w' = sent w.
Proof.
  unfold ApiClient.on_refresh_error. eexists. split; [reflexivity|].
  destruct (ApiClient.is_auth_rejection t); by autorewrite with world.
Qed.

(** with fuel for two rounds the client always settles, and its trace has
    one of the three shapes; without the guard of the refresh path the
    trace is the request alone *)
Lemma client_trace fuel c w :
  exists c1 w1 r w' added,
    requestInterceptor c w = (Resolved c1, w1)
    /\ client (S (S fuel)) c w = (r, w')
    /\ r <> OutOfFuel
    /\ sent w' = (sent w ++ added)%list
    /\ trace_of c1 added
    /\ (_retry c1 = true \/ ApiClient.isRefreshEndpoint c1 = true
        \/ Js.truthy (refreshToken w1) = false ->
        added = [{| via := MainClient; req := c1 |}]).
Proof.
  destruct (requestInterceptor_total c w)
    as (c1&w1&Hi&_&_&Hr&_&Hrt&_&Hs&_).
  exists c1, w1. rewrite client_S, Hi, send_eq, Hs.
  match goal with |- context [ApiClient.settle ?c ?o] =>
    destruct (settle_cases c o) as [(r&->&_)|(e&->&He&_)] end.
  { eexists _, _, _. split; [done|]. split; [reflexivity|]. split; [done|].
    split; [reflexivity|]. split; [constructor|done]. }
  set (w2 := set_sent _ w1).
  destruct (ApiClient.should_refresh e w2) eqn:Hguard.
  2:{ rewrite responseInterceptor_pass by done.
      eexists _, _, _. split; [done|]. split; [reflexivity|]. split; [done|].
    split; [reflexivity|]. split; [constructor|done]. }
  destruct (should_refresh_inv _ _ Hguard) as (_&Hnr&Hne&Hrtk).
  unfold ApiClient.responseInterceptor. rewrite Hguard.
  destruct (refreshAccessToken_spec (Js.interp (refreshToken w2)) w2)
    as (rr&rc&Heq&Hfuel).
  rewrite Heq. set (w3 := set_sent _ w2).
  assert (Hs3 : sent w3 = (sent w ++ [{| via := MainClient; req := c1 |};
                                      {| via := RefreshClient; req := rc |}])%list).
  { subst w3 w2. simpl. by rewrite <- app_assoc. }
  assert (Hno : _retry c1 = true \/ ApiClient.isRefreshEndpoint c1 = true
                \/ Js.truthy (refreshToken w1) = false -> False).
  { rewrite He in Hnr, Hne. subst w2. simpl in Hrtk.
    intros [?|[?|?]]; congruence. }
  destruct rr as [[newTokens|]|t|]; [| | |done].
  - match goal with |- context [client (S fuel) ?o ?w5] =>
      destruct (client_retried fuel o w5 eq_refl)
        as (c2&w6&r2&_&Hr2&Hcl&Hfuel2&_);
      assert (Hs5 : sent w5 = sent w3)
    end.
    { destruct (Js.truthy (ApiClient.get_refresh_token newTokens));
        by autorewrite with world. }
    rewrite Hcl, Hs5, Hs3.
    eexists _, _, _. split; [done|]. split; [reflexivity|]. split; [done|].
    simpl. split; [by rewrite <- app_assoc|].
    split; [by constructor | intros H; destruct (Hno H)].
  - destruct (on_refresh_error_sent
                (set_config (set_retry true (config e)) e) TypeError w3)
      as (w4&->&Hs4).
    eexists _, _, _. split; [done|]. split; [reflexivity|]. split; [done|].
    rewrite Hs4, Hs3. split; [reflexivity|].
    split; [constructor | intros H; destruct (Hno H)].
  - destruct (on_refresh_error_sent
                (set_config (set_retry true (config e)) e) t w3)
      as (w4&->&Hs4).
    eexists _, _, _. split; [done|]. split; [reflexivity|]. split; [done|].
    rewrite Hs4, Hs3. split; [reflexivity|].
    split; [constructor | intros H; destruct (Hno H)].
Qed.

Lemma trace_of_counts c1 added :
  trace_of c1 added ->
  (count_via RefreshClient added <= 1)%nat
  /\ (count_via MainClient added <= 2)%nat
  /\ (count_via MainClient added = 2 -> count_via RefreshClient added = 1)%nat.
Proof. destruct 1; vm_compute; repeat split; lia. Qed.

Lemma should_refresh_iff error w :
  ApiClient.should_refresh error w = true <-> enters_refresh_path error w.
Proof.
  unfold ApiClient.should_refresh, enters_refresh_path,
    ApiClient.isAuthError, ApiClient.isRefreshEndpoint.
  rewrite !andb_true_iff, !negb_true_iff.
  destruct (response error) as [r|].
  - rewrite Z.eqb_eq. split.
    + intros (((?&?)&?)&?). eauto 10.
    + intros ((r'&[= <-]&?)&?&?&?). done.
  - split; [intros (((?&?)&?)&?); done | intros ((r'&?&?)&_); done].
Qed.

(** more fuel than two rounds changes nothing *)
Lemma client_retried_fuel fuel c w :
  _retry c = true -> client (S fuel) c w = client 1 c w.
Proof.
  intros Hretry. rewrite !client_S.
  destruct (requestInterceptor_total c w) as (c1&w1&->&_&_&Hr&_).
  rewrite send_eq.
  match goal with |- context [ApiClient.settle ?c ?o] =>
    destruct (settle_cases c o) as [(r&->&_)|(e&->&He&_)] end; [done|].
  rewrite !responseInterceptor_pass; [done| |];
    unfold ApiClient.should_refresh; rewrite He, Hr, Hretry; simpl;
    by rewrite andb_false_r.
Qed.

Lemma client_fuel fuel c w : client (S (S fuel)) c w = client 2 c w.
Proof.
  rewrite (client_S (S fuel)), (client_S 1).
  destruct (requestInterceptor c w) as [[c1|t|] w1]; [|done|done].
  destruct (send MainClient c1 w1) as [[r|[e| |]|] w2]; try done.
  unfold ApiClient.responseInterceptor.
  destruct (ApiClient.should_refresh e w2); [|done].
  destruct (refreshAccessToken _ w2) as [[[d|]|t|] w3]; try done.
  by apply client_retried_fuel.
Qed.

(** C2. A request that comes back with an authentication rejection is issued
    again at most once.  (1) When the failed request is the refresh call,
    or carries the retry flag, or no refresh token is held, the response
    interceptor rejects with the original error and leaves the world as it
    is: no refresh call is made.  (2) With fuel for two rounds, a call of
    the client always settles, and what it puts on the wire is the request,
    then at most one refresh call, then at most one re-issue, flagged as a
    retry; nothing but the request itself when one of the three conditions
    holds of it; more fuel changes nothing.  (3) A request that carries the retry flag goes out exactly
    once whatever the answer: a second rejection starts no refresh. *)
Theorem retry_at_most_once :
  (forall cl error w,
      Js.opt_includes "/auth/refresh" (url (config error)) = true
      \/ _retry (config error) = true
      \/ Js.truthy (refreshToken w) = false ->
      responseInterceptor cl error w = (Rejected (AxiosErr error), w))
  /\ (forall fuel c w,
        (2 <= fuel)%nat ->
        exists c1 w1 r w' added,
          requestInterceptor c w = (Resolved c1, w1)
          /\ client fuel c w = (r, w')
          /\ client fuel c w = client 2 c w
          /\ r <> OutOfFuel
          /\ sent w' = (sent w ++ added)%list
          /\ trace_of c1 added
          /\ (count_via RefreshClient added <= 1)%nat
          /\ (count_via MainClient added <= 2)%nat
          /\ (Js.opt_includes "/auth/refresh" (url c1) = true
              \/ _retry c1 = true
              \/ Js.truthy (refreshToken w1) = false ->
              added = [{| via := MainClient; req := c1 |}]))
  /\ (forall fuel c w,
        (1 <= fuel)%nat ->
        _retry c = true ->
        exists c1 w1 r,
          requestInterceptor c w = (Resolved c1, w1)
          /\ client fuel c w =
               (r, set_sent (sent w ++ [{| via := MainClient; req := c1 |}]) w1)
          /\ r <> OutOfFuel).
Proof.
  split; [|split].
  - intros cl error w H. apply responseInterceptor_pass.
    destruct (ApiClient.should_refresh error w) eqn:E; [|done].
    apply should_refresh_iff in E. destruct E as (_&?&?&?).
    destruct H as [?|[?|?]]; congruence.
  - intros [|[|fuel]] c w Hfuel; [lia|lia|].
    destruct (client_trace fuel c w) as (c1&w1&r&w'&added&?&?&?&?&Ht&Hone).
    destruct (trace_of_counts _ _ Ht) as (?&?&_).
    pose proof (client_fuel fuel c w).
    exists c1, w1, r, w', added. repeat (split; [done|]).
    intros Hcond. apply Hone. unfold ApiClient.isRefreshEndpoint. tauto.
  - intros [|fuel] c w Hfuel Hretry; [lia|].
    destruct (client_retried fuel c w Hretry) as (c1&w1&r&?&?&?&?&_).
    by exists c1, w1, r.
Qed.

(** C10. A failed request whose response status is not 401 (403, 404, 500,
    or no response at all) never enters the refresh path: the response
    interceptor rejects with the very same error and the world, tokens and
    storage included, is left as it was.  And the refresh call goes out
    exactly when the response is a 401, the request is not the refresh
    call, it was not retried yet and a refresh token is held. *)
Theorem only_401_enters_refresh :
  (forall cl error w,
      (forall r, response error = Some r -> status r <> 401) ->
      responseInterceptor cl error w = (Rejected (AxiosErr error), w))
  /\ (forall fuel error w,
        (exists rc rest,
            sent (snd (responseInterceptor (client fuel) error w))
            = (sent w ++ {| via := RefreshClient; req := rc |} :: rest)%list)
        <-> enters_refresh_path error w).
Proof.
  split.
  - intros cl error w H. apply responseInterceptor_pass.
    destruct (ApiClient.should_refresh error w) eqn:E; [|done].
    apply should_refresh_iff in E. destruct E as ((r&Hr&?)&_).
    by destruct (H r Hr).
  - intros fuel error w. rewrite <- should_refresh_iff. split.
    + intros (rc&rest&Hs).
      destruct (ApiClient.should_refresh error w) eqn:E; [done|].
      rewrite responseInterceptor_pass in Hs by done. simpl in Hs.
      apply (f_equal length) in Hs. rewrite length_app in Hs. simpl in Hs. lia.
    + intros Hguard. unfold ApiClient.responseInterceptor. rewrite Hguard.
      destruct (refreshAccessToken_spec (Js.interp (refreshToken w)) w)
        as (rr&rc&Heq&Hfuel).
      rewrite Heq. set (w3 := set_sent _ w).
      exists rc.
      destruct rr as [[newTokens|]|t|]; [| | |done].
      * match goal with |- context [client fuel ?o ?w5] =>
          assert (Hs5 : sent w5 = sent w3)
            by (destruct (Js.truthy (ApiClient.get_refresh_token newTokens));
                by autorewrite with world);
          destruct fuel as [|fuel];
          [ | destruct (client_retried fuel o w5 eq_refl)
                as (c2&w6&r2&_&_&Hcl&_) ]
        end.
        -- exists []. simpl. by rewrite Hs5.
        -- rewrite Hcl. simpl. rewrite Hs5. simpl.
           eexists. by rewrite <- app_assoc.
      * destruct (on_refresh_error_sent
                    (set_config (set_retry true (config error)) error) TypeError w3)
          as (w4&->&Hs4).
        exists []. simpl. by rewrite Hs4.
      * destruct (on_refresh_error_sent
                    (set_config (set_retry true (config error)) error) t w3)
          as (w4&->&Hs4).
        exists []. simpl. by rewrite Hs4.
Qed.

Abbreviation getCurrentUser := (ApiClient.getCurrentUser rev API_BASE_URL backend).
Abbreviation signOut := (ApiClient.signOut rev API_BASE_URL backend).
Abbreviation refreshUser := (AuthContext.refreshUser rev API_BASE_URL backend).

Lemma is_auth_rejection_true t :
  auth_rejected t -> ApiClient.is_auth_rejection t = true.
Proof.
  intros (e&r&->&Hr&Hs). simpl. rewrite Hr.
  apply orb_true_iff. rewrite !Z.eqb_eq. done.
Qed.

Lemma is_auth_rejection_false t :
  not_auth_rejected t -> ApiClient.is_auth_rejection t = false.
Proof.
  intros H. destruct t as [e| |]; simpl; try done.
  destruct (response e) as [r|] eqn:Hr; [|done].
  destruct (H e r eq_refl Hr) as (?&?).
  apply orb_false_iff. rewrite !Z.eqb_neq. done.
Qed.

Lemma refreshAccessToken_session rt w r w1 :
  refreshAccessToken rt w = (r, w1) -> same_session w w1.
Proof.
  destruct (refreshAccessToken_spec rt w) as (r'&rc&->&_).
  intros [= _ <-]. apply same_session_set_sent.
Qed.

(** C3. When the refresh call fails without an authentication rejection (no
    response at all, as on a network error or a timeout), the access token,
    the refresh token and the storage are what they were before the refresh,
    and the caller gets the error of the original request (its code, message
    and response), not the error of the refresh call. *)
Theorem refresh_network_failure_keeps_session cl error w refreshError w1 :
  enters_refresh_path error w ->
  refreshAccessToken (Js.interp (refreshToken w)) w = (Rejected refreshError, w1) ->
  not_auth_rejected refreshError ->
  exists e',
    responseInterceptor cl error w = (Rejected (AxiosErr e'), w1)
    /\ original_error error e'
    /\ accessToken w1 = accessToken w
    /\ refreshToken w1 = refreshToken w
    /\ window w1 = window w.
Proof.
  intros Hguard Hrefresh Hnet.
  apply should_refresh_iff in Hguard.
  destruct (refreshAccessToken_session _ _ _ _ Hrefresh) as (?&?&?&_).
  unfold ApiClient.responseInterceptor. rewrite Hguard, Hrefresh.
  unfold ApiClient.on_refresh_error.
  rewrite (is_auth_rejection_false _ Hnet).
  eexists. split; [reflexivity|]. by repeat split.
Qed.

Lemma relative_auth_me : relative_path "/auth/me".
Proof. eexists. split; reflexivity. Qed.

(** the who-am-I request as it leaves the request interceptor *)
Lemma who_am_i_request w :
  exists c1 w1,
    requestInterceptor (who_am_i API_BASE_URL) w = (Resolved c1, w1)
    /\ url c1 = Some "/auth/me"
    /\ method c1 = Some "get"
    /\ headers c1 = (if Js.truthy (accessToken w1)
                     then <["Authorization" := bearer_of w1]> (headers (who_am_i API_BASE_URL))
                     else headers (who_am_i API_BASE_URL))
    /\ sent w1 = sent w /\ refreshToken w1 = refreshToken w
    /\ user w1 = user w
    /\ accessToken w1 = match rev with
                        | Rev1 => accessToken w
                        | Rev2 => accessToken (ApiClient.reload_token w)
                        end.
Proof.
  destruct (requestInterceptor_total (who_am_i API_BASE_URL) w)
    as (c1&w1&Hi&Hm&_&_&Hh&?&?&?&?&_&_&?).
  exists c1, w1. repeat (split; [done|]). split; [|done].
  revert Hi. unfold ApiClient.requestInterceptor. destruct rev.
  - intros [= <- _]. unfold ApiClient.attach_token.
    by destruct (Js.truthy (accessToken w)).
  - unfold ApiClient.requestInterceptor2. intros [= <- _].
    set (c0 := ApiClient.enforce_https (isProduction w) (who_am_i API_BASE_URL)).
    assert (Hu : url c0 = Some "/auth/me")
      by (apply enforce_https_url; [apply relative_auth_me | done]).
    assert (Hm0 : method c0 = Some "get")
      by (destruct (enforce_https_frame (isProduction w) (who_am_i API_BASE_URL)) as (Hf&_);
          exact Hf).
    assert (Hd : forall c, method c = Some "get" -> ApiClient.debug_post c = c).
    { intros c Hc. unfold ApiClient.debug_post. rewrite Hc.
      by rewrite bool_decide_eq_false_2. }
    destruct (attach_token_frame c0 (ApiClient.reload_token w)) as (_&Hua&Hma&_).
    assert (Hw : forall b,
      ApiClient.when b ApiClient.debug_post
        (ApiClient.attach_token c0 (ApiClient.reload_token w))
      = ApiClient.attach_token c0 (ApiClient.reload_token w)).
    { intros [|]; [|done]. apply Hd. by rewrite Hma. }
    by rewrite Hw, Hua.
Qed.

Lemma reload_token_none w :
  storage_get "access_token" w = None -> ApiClient.reload_token w = w.
Proof.
  unfold storage_get, ApiClient.reload_token.
  destruct (window w); [|done]. by intros ->.
Qed.

(** with no token in memory or in storage, and no refresh token, who-am-I
    goes out without credentials, and the identity is what the backend
    makes of that one request *)
Lemma anonymous_who_am_i fuel w :
  accessToken w = None -> refreshToken w = None ->
  storage_get "access_token" w = None ->
  exists c1 w1,
    requestInterceptor (who_am_i API_BASE_URL) w = (Resolved c1, w1)
    /\ url c1 = Some "/auth/me"
    /\ headers c1 !! "Authorization" = None
    /\ (refused (backend (sent w) {| via := MainClient; req := c1 |}) ->
        (exists e w2, getCurrentUser (S fuel) w = (Rejected (AxiosErr e), w2))
        /\ user (snd (refreshUser (S fuel) w)) = None)
    /\ (forall r,
         accepted (backend (sent w) {| via := MainClient; req := c1 |}) r ->
         (exists w2, getCurrentUser (S fuel) w = (Resolved (rdata r), w2))
         /\ user (snd (refreshUser (S fuel) w)) = rdata r).
Proof.
  intros Ha Hr Hst.
  destruct (who_am_i_request w) as (c1&w1&Hi&Hu&_&Hh&Hs&Hrt&_&Hat).
  assert (Hnone : accessToken w1 = None).
  { rewrite Hat. destruct rev; [done|]. by rewrite reload_token_none. }
  rewrite Hnone in Hh. simpl in Hh.
  assert (Hanon : headers c1 !! "Authorization" = None) by (by rewrite Hh).
  exists c1, w1. do 3 (split; [done|]).
  unfold AuthContext.refreshUser, finally, try_catch, bind,
    ApiClient.getCurrentUser, ApiClient.get, bind.
  fold (who_am_i API_BASE_URL). rewrite client_S, Hi, send_eq, Hs.
  split.
  - intros Href.
    match goal with |- context [ApiClient.settle ?c ?o] =>
      destruct (settle_cases c o) as [(r&->&Ho&Hok)|(e&->&He&_)] end.
    { rewrite Ho in Href. simpl in Href. congruence. }
    rewrite responseInterceptor_pass.
    + split; [by eexists _, _|].
      destruct (ApiClient.is_auth_rejection (AxiosErr e)); unfold modify; simpl;
        by rewrite ?clearTokens_user.
    + unfold ApiClient.should_refresh. simpl. rewrite Hrt, Hr. simpl.
      by rewrite andb_false_r.
  - intros r (Ho & Hok). rewrite Ho. simpl. rewrite Hok. simpl.
    split; [by eexists|done].
Qed.

(** C4. When the refresh call is answered with an authentication rejection
    (401 or 403), the original error is handed to the caller, both tokens
    are gone from memory and from the storage, and in a browser the location
    is set to the sign-in page [/login].  The handler leaves the identity
    held by the auth context as it was.  The next who-am-I goes out without
    an [Authorization] header: [getCurrentUser] rejects and [refreshUser]
    leaves no identity when the backend does not accept it, and both give
    the body of the answer when it does. *)
Theorem refresh_rejection_expires_session cl error w refreshError w1 :
  enters_refresh_path error w ->
  refreshAccessToken (Js.interp (refreshToken w)) w = (Rejected refreshError, w1) ->
  auth_rejected refreshError ->
  exists e' w',
    responseInterceptor cl error w = (Rejected (AxiosErr e'), w')
    /\ original_error error e'
    /\ accessToken w' = None
    /\ refreshToken w' = None
    /\ storage_get "access_token" w' = None
    /\ storage_get "refresh_token" w' = None
    /\ (forall win, window w = Some win ->
          exists win', window w' = Some win' /\ location_href win' = "/login")
    /\ user w' = user w
    /\ (forall fuel, (1 <= fuel)%nat ->
          exists c1 w2,
            requestInterceptor (who_am_i API_BASE_URL) w' = (Resolved c1, w2)
            /\ url c1 = Some "/auth/me"
            /\ headers c1 !! "Authorization" = None
            /\ (refused (backend (sent w') {| via := MainClient; req := c1 |}) ->
                (exists e w3, getCurrentUser fuel w' = (Rejected (AxiosErr e), w3))
                /\ user (snd (refreshUser fuel w')) = None)
            /\ (forall r,
                 accepted (backend (sent w') {| via := MainClient; req := c1 |}) r ->
                 (exists w3, getCurrentUser fuel w' = (Resolved (rdata r), w3))
                 /\ user (snd (refreshUser fuel w')) = rdata r)).
Proof.
  intros Hguard Hrefresh Hauth.
  apply should_refresh_iff in Hguard.
  destruct (refreshAccessToken_session _ _ _ _ Hrefresh) as (_&_&Hwin&Huser&_).
  unfold ApiClient.responseInterceptor. rewrite Hguard, Hrefresh.
  unfold ApiClient.on_refresh_error.
  rewrite (is_auth_rejection_true _ Hauth).
  eexists _, _. split; [reflexivity|]. split; [by repeat split|].
  destruct (clearTokens_clears w1) as (Ha&Hr&Hsa&Hsr).
  destruct (navigate_keeps_tokens "/login" (ApiClient.clearTokens w1)) as (Hna&Hnr&Hnu).
  assert (Hclean :
    accessToken (navigate "/login" (ApiClient.clearTokens w1)) = None
    /\ refreshToken (navigate "/login" (ApiClient.clearTokens w1)) = None
    /\ storage_get "access_token" (navigate "/login" (ApiClient.clearTokens w1)) = None
    /\ storage_get "refresh_token" (navigate "/login" (ApiClient.clearTokens w1)) = None).
  { rewrite Hna, Hnr, !storage_get_navigate. done. }
  destruct Hclean as (?&?&?&?).
  repeat (split; [done|]). split; [|split].
  - intros win Hw. rewrite <- Hwin in Hw.
    destruct (clearTokens_window _ _ Hw) as (win1&Hw1).
    apply (navigate_href _ _ _ Hw1).
  - by rewrite Hnu, clearTokens_user.
  - intros [|fuel] Hfuel; [lia|]. by apply anonymous_who_am_i.
Qed.

Lemma signOut_clears fuel token w :
  exists w', signOut (S (S fuel)) token w = (Resolved tt, w') /\ session_cleared w'.
Proof.
  unfold ApiClient.signOut, finally, try_catch.
  destruct (Js.truthy token).
  - unfold bind, ApiClient.post.
    match goal with |- context [client _ ?c w] =>
      destruct (client_trace fuel c w) as (_&_&r&w1&_&_&->&Hfuel&_) end.
    destruct r as [x|t|]; [| |done];
      (eexists; split; [reflexivity | apply clearTokens_clears]).
  - eexists; split; [reflexivity | apply clearTokens_clears].
Qed.

(** C5. [signOut] always resolves, and always ends with both tokens gone
    from memory and from the storage: whatever token it is given (or none),
    whatever the client holds, and whatever becomes of the sign-out call
    (accepted, rejected by the backend, or no response at all).  The same
    holds of [signOut] of the auth context in a browser, which also drops
    the identity. *)
Theorem signOut_always_clears (fuel : nat) (token : option string) (w : World) :
  (2 <= fuel)%nat ->
  (exists w', signOut fuel token w = (Resolved tt, w') /\ session_cleared w')
  /\ (forall win, window w = Some win ->
        exists w',
          AuthContext.signOut rev API_BASE_URL backend fuel w = (Resolved tt, w')
          /\ session_cleared w' /\ user w' = None).
Proof.
  destruct fuel as [|[|fuel]]; [lia|lia|]. intros _. split.
  - apply signOut_clears.
  - intros win Hw. unfold AuthContext.signOut. rewrite Hw. unfold bind.
    match goal with |- context [ApiClient.signOut _ _ _ _ ?t w] =>
      destruct (signOut_clears fuel t w) as (w'&->&Hc) end.
    eexists. split; [reflexivity|]. split; [exact Hc | reflexivity].
Qed.

(** C9 (as amended). [getCurrentUser] asks the backend on every call,
    whether or not an identity was resolved before: with fuel for two
    rounds, the first request it puts on the wire is a GET of [/auth/me]
    through the main client, carrying the current access token as a Bearer
    header when one is held; when the backend accepts it, the body of the
    answer is what [getCurrentUser] resolves to and what [refreshUser]
    stores as the identity [user]. *)
Theorem getCurrentUser_always_asks_backend (fuel : nat) (w : World) :
  (2 <= fuel)%nat ->
  exists c1 w1,
    requestInterceptor (who_am_i API_BASE_URL) w = (Resolved c1, w1)
    /\ url c1 = Some "/auth/me"
    /\ method c1 = Some "get"
    /\ (Js.truthy (accessToken w1) = true ->
        headers c1 !! "Authorization" = Some ("Bearer " ++ Js.interp (accessToken w1)))
    /\ (exists rest,
          sent (snd (getCurrentUser fuel w))
          = (sent w ++ {| via := MainClient; req := c1 |} :: rest)%list)
    /\ (forall r,
          backend (sent w) {| via := MainClient; req := c1 |} = Responded r ->
          ApiClient.validateStatus (status r) = true ->
          fst (getCurrentUser fuel w) = Resolved (rdata r)
          /\ user (snd (refreshUser fuel w)) = rdata r).
Proof.
  destruct fuel as [|[|fuel]]; [lia|lia|]. intros _.
  destruct (who_am_i_request w) as (c1&w1&Hi&Hu&Hm&Hh&Hs&_).
  exists c1, w1. repeat (split; [done|]). split; [|split].
  - intros Ht. rewrite Hh, Ht. apply lookup_insert_eq.
  - unfold ApiClient.getCurrentUser, ApiClient.get, bind. fold (who_am_i API_BASE_URL).
    destruct (client_trace fuel (who_am_i API_BASE_URL) w)
      as (c1'&w1'&r&w'&added&Hi'&->&_&Hsent&Htrace&_).
    rewrite Hi in Hi'. injection Hi' as <- <-.
    assert (Hw : sent w' = sent (match r with
                                 | Resolved a => ret (rdata a) w'
                                 | Rejected t => (Rejected t, w')
                                 | OutOfFuel => (OutOfFuel, w')
                                 end).2) by (by destruct r).
    rewrite <- Hw, Hsent. destruct Htrace; by eexists.
  - intros r Hr Hok.
    unfold AuthContext.refreshUser, finally, try_catch,
      ApiClient.getCurrentUser, ApiClient.get, bind.
    fold (who_am_i API_BASE_URL). rewrite client_S, Hi, send_eq, Hs, Hr. simpl. by rewrite Hok.
Qed.

Lemma enforce_https_noop c :
  Js.opt_includes ApiClient.PROD (baseURL c) = false ->
  Js.opt_includes ApiClient.PROD (url c) = false ->
  ApiClient.enforce_https false c = c.
Proof.
  intros Hb Hu.
  assert (H1 : ApiClient.force_base_https c = c).
  { unfold ApiClient.force_base_https. destruct (baseURL c); [|done].
    simpl in Hb. by rewrite Hb, andb_false_r. }
  assert (H2 : ApiClient.force_base_prefix c = c).
  { unfold ApiClient.force_base_prefix. destruct (baseURL c); [|done].
    simpl in Hb. by rewrite Hb. }
  assert (H3 : ApiClient.force_url_domain c = c).
  { unfold ApiClient.force_url_domain. destruct (url c); [|done].
    simpl in Hu. by rewrite Hu. }
  unfold ApiClient.enforce_https, ApiClient.when.
  by rewrite H1, H2, H3, H1.
Qed.

Lemma reload_token_falsy w :
  Js.truthy (storage_get "access_token" w) = false -> ApiClient.reload_token w = w.
Proof.
  unfold storage_get, ApiClient.reload_token.
  destruct (window w); [|done]. by intros ->.
Qed.

(** C7 (as amended). The request interceptor always hands the request on.
    It never changes the method, the body or the retry flag, and of the
    headers only [Authorization]: set to [Bearer <token>] when an access
    token is held, all headers left as they are otherwise.  In the first
    revision the token is the one in memory, and [baseURL] and [url] are
    never touched: without a token the request passes through unmodified.
    In the second revision the token in memory is first replaced by the one
    in [localStorage] when that is present and differs, and the HTTPS
    enforcement may rewrite [baseURL] and [url]; outside production mode
    and when neither mentions the production host they are left alone, and
    with no token in memory or storage the request passes through
    unmodified. *)
Theorem authorize_attaches_token (c : Config) (w : World) :
  exists c' w',
    requestInterceptor c w = (Resolved c', w')
    /\ method c' = method c /\ data c' = data c /\ _retry c' = _retry c
    /\ (Js.truthy (accessToken w') = true ->
        headers c' = <["Authorization" := "Bearer " ++ Js.interp (accessToken w')]>
                       (headers c))
    /\ (Js.truthy (accessToken w') = false -> headers c' = headers c)
    /\ (rev = Rev1 ->
        w' = w /\ baseURL c' = baseURL c /\ url c' = url c
        /\ (Js.truthy (accessToken w) = false -> c' = c))
    /\ (rev = Rev2 ->
        w' = ApiClient.reload_token w
        /\ (isProduction w = false ->
            Js.opt_includes ApiClient.PROD (baseURL c) = false ->
            Js.opt_includes ApiClient.PROD (url c) = false ->
            baseURL c' = baseURL c /\ url c' = url c
            /\ (Js.truthy (accessToken w) = false ->
                Js.truthy (storage_get "access_token" w) = false ->
                c' = c /\ w' = w))).
Proof.
  destruct (requestInterceptor_total c w)
    as (c'&w'&Hi&Hm&Hd&Hr&Hh&_).
  exists c', w'. repeat (split; [done|]).
  split; [by intros Ht; rewrite Hh, Ht|].
  split; [by intros Ht; rewrite Hh, Ht|].
  revert Hi. unfold ApiClient.requestInterceptor.
  destruct rev; intros Hi; split; try done; intros _; revert Hi.
  - unfold ApiClient.requestInterceptor1. intros [= <- <-].
    destruct (attach_token_frame c w) as (?&?&_).
    repeat (split; [done|]).
    intros Ht. unfold ApiClient.attach_token. by rewrite Ht.
  - unfold ApiClient.requestInterceptor2. intros [= <- <-].
    split; [done|]. intros Hprod Hb Hu.
    destruct (reload_token_session w) as (_&_&_&_&_&Hp).
    rewrite Hp, Hprod, enforce_https_noop by done. simpl.
    destruct (attach_token_frame c (ApiClient.reload_token w)) as (?&?&_).
    repeat (split; [done|]).
    intros Ht Hst. rewrite reload_token_falsy by done.
    unfold ApiClient.attach_token. by rewrite Ht.
Qed.

End Pipeline.

(** ** The scenarios of the specification *)

(** C6. Sign-in answers [t1] and [r1]; a protected call then comes back with
    a 401; the refresh call carries [r1] and is answered with [t2] alone.
    The protected call is issued again exactly once, flagged as a retry and
    carrying [Bearer t2], and succeeds; at the end the access token is [t2]
    and the refresh token is still [r1], in memory and in the storage.  In
    both revisions. *)
Theorem scenario_refresh_then_retry (rev : Revision) :
  let w1 := snd (ApiClient.signIn rev Scenario.BASE Scenario.backend 2
                   "a@x.com" "secret123" Scenario.start) in
  let call := ApiClient.get rev Scenario.BASE Scenario.backend 2 "/internships" w1 in
  accessToken w1 = Some "t1" /\ refreshToken w1 = Some "r1"
  /\ fst call = Resolved {| status := 200; rdata := Some DataOther |}
  /\ map summary (sent (snd call)) =
       [ (MainClient, Some "/auth/sign-in", None,
          SignInRequest "a@x.com" "secret123", false);
         (MainClient, Some "/internships", Some "Bearer t1", NoPayload, false);
         (RefreshClient, Some "/auth/refresh", None,
          RefreshTokenRequest "r1", false);
         (MainClient, Some "/internships", Some "Bearer t2", NoPayload, true) ]
  /\ accessToken (snd call) = Some "t2"
  /\ refreshToken (snd call) = Some "r1"
  /\ storage_get "refresh_token" (snd call) = Some "r1".
Proof. destruct rev; vm_compute; repeat split. Qed.

(** a refresh answered without a new refresh token replaces the access
    token and keeps the refresh token, then issues the request again with
    the new token and the retry flag *)
Lemma refresh_without_rotation rev base backend cl error w d w1 :
  enters_refresh_path error w ->
  ApiClient.refreshAccessToken rev base backend (Js.interp (refreshToken w)) w
    = (Resolved (Some d), w1) ->
  Js.truthy (ApiClient.get_refresh_token d) = false ->
  ApiClient.responseInterceptor rev base backend cl error w
    = cl (set_header "Authorization"
            ("Bearer " ++ Js.interp (ApiClient.get_access_token d))
            (set_retry true (config error)))
         (ApiClient.setAccessToken (ApiClient.get_access_token d) w1)
  /\ accessToken (ApiClient.setAccessToken (ApiClient.get_access_token d) w1)
     = ApiClient.get_access_token d
  /\ refreshToken (ApiClient.setAccessToken (ApiClient.get_access_token d) w1)
     = refreshToken w.
Proof.
  intros Hguard Hrefresh Hrot. apply should_refresh_iff in Hguard.
  destruct (refreshAccessToken_session _ _ _ _ _ _ _ Hrefresh) as (_&Hrt&_).
  unfold ApiClient.responseInterceptor. rewrite Hguard, Hrefresh, Hrot.
  split; [reflexivity|].
  unfold ApiClient.setAccessToken, storage_set, storage_remove.
  destruct (Js.truthy (ApiClient.get_access_token d)), (window w1) eqn:E;
    simpl; rewrite ?E; by simpl.
Qed.

(** C1. The access token does reach the durable storage: after the sign-in
    of the scenario [localStorage] holds it under [access_token], a refresh
    overwrites it there, and a client constructed later in the same browser
    reads it back. *)
Theorem access_token_written_to_storage (rev : Revision) :
  let w1 := snd (ApiClient.signIn rev Scenario.BASE Scenario.backend 2
                   "a@x.com" "secret123" Scenario.start) in
  let w2 := snd (ApiClient.get rev Scenario.BASE Scenario.backend 2 "/internships" w1) in
  storage_get "access_token" Scenario.start = None
  /\ storage_get "access_token" w1 = Some "t1"
  /\ storage_get "access_token" w2 = Some "t2"
  /\ accessToken (ApiClient.constructor false (window w2)) = Some "t2".
Proof. destruct rev; vm_compute; repeat split. Qed.

(** C7, the claim as stated fails: on a page served over HTTPS the second
    revision rewrites [baseURL] although no token is held anywhere. *)
Lemma authorize_rewrites_without_token :
  let c := ApiClient.mkConfig Scenario.BASE "get" "/internships" NoPayload in
  let w := Scenario.start_production in
  accessToken w = None /\ storage_get "access_token" w = None
  /\ baseURL c = Some "http://localhost:8000/api/v2"
  /\ exists c', ApiClient.requestInterceptor Rev2 c w = (Resolved c', w)
                /\ baseURL c' = Some "https://localhost:8000/api/v2"
                /\ c' <> c.
Proof.
  simpl. repeat (split; [reflexivity|]).
  eexists. split; [vm_compute; reflexivity|]. split; [reflexivity|].
  intros H. apply (f_equal baseURL) in H. discriminate H.
Qed.

(** C9, the claim as stated fails: with the identity already resolved,
    another [getCurrentUser] puts another request on the wire. *)
Lemma cached_identity_still_asks_backend :
  let w1 := snd (AuthContext.signIn Rev1 Scenario.BASE Scenario.backend 2
                   "a@x.com" "secret123" Scenario.start) in
  let again := ApiClient.getCurrentUser Rev1 Scenario.BASE Scenario.backend 2 w1 in
  user w1 = Some (DataUser Scenario.alice)
  /\ fst again = Resolved (Some (DataUser Scenario.alice))
  /\ length (sent w1) = 4%nat
  /\ map summary (drop 4 (sent (snd again))) =
       [ (MainClient, Some "/auth/me", Some "Bearer t2", NoPayload, false) ].
Proof. vm_compute. repeat split. Qed.

(** C4, the claim as stated fails.  The sign-in is accepted; by the time
    of the next call the backend has revoked the session, and the refresh
    is answered with a 401.  The tokens are gone and the page is sent to
    [/login], but no identity lookup gives null: the identity the auth
    context holds is still the account's; [getCurrentUser] rejects with
    the backend's 401 instead of returning; and against a backend that
    answers who-am-I without credentials it returns the account. *)
Lemma expired_session_identity_not_null :
  let w0 := snd (AuthContext.signIn Rev1 Scenario.BASE Scenario.open_backend 2
                   "a@x.com" "secret123" Scenario.start) in
  let call := ApiClient.get Rev1 Scenario.BASE Scenario.revoked 2 "/internships" w0 in
  let w1 := snd call in
  let again := ApiClient.getCurrentUser Rev1 Scenario.BASE Scenario.revoked 2 w1 in
  let anyone := ApiClient.getCurrentUser Rev1 Scenario.BASE Scenario.open_backend 2 w1 in
  user w0 = Some (DataUser Scenario.alice)
  /\ map summary (drop 2 (sent w1)) =
       [ (MainClient, Some "/internships", Some "Bearer t1", NoPayload, false);
         (RefreshClient, Some "/auth/refresh", None, RefreshTokenRequest "r1", false) ]
  /\ (exists e r, fst call = Rejected (AxiosErr e)
                  /\ response e = Some r /\ status r = 401)
  /\ session_cleared w1
  /\ (exists win, window w1 = Some win /\ location_href win = "/login")
  /\ user w1 = Some (DataUser Scenario.alice)
  /\ (exists e r, fst again = Rejected (AxiosErr e)
                  /\ response e = Some r /\ status r = 401)
  /\ fst anyone = Resolved (Some (DataUser Scenario.alice)).
Proof.
  vm_compute. split; [reflexivity|]. split; [reflexivity|].
  split; [eexists _, _; repeat split|].
  split; [repeat split|]. split; [eexists; split; reflexivity|].
  split; [reflexivity|]. split; [eexists _, _; repeat split | reflexivity].
Qed.

(** ** The error formatter *)

Section Formatter.

Variable API_BASE_URL : string.
(** the browser's window, [None] where [window] is not defined *)
Variable win : option Window.

Abbreviation format := (formatApiError API_BASE_URL win).









End Formatter.

(** ** The theorems at work on the scenarios *)

Lemma retry_at_most_once_witness :
  let c := ApiClient.mkConfig Scenario.BASE "get" "/internships" NoPayload in
  ApiClient.responseInterceptor Rev1 Scenario.BASE Scenario.backend
    (ApiClient.client Rev1 Scenario.BASE Scenario.backend 1)
    Scenario.unauthorized (set_refreshToken None Scenario.signed_in)
  = (Rejected (AxiosErr Scenario.unauthorized),
     set_refreshToken None Scenario.signed_in)
  /\ exists r w' added,
      ApiClient.client Rev1 Scenario.BASE Scenario.backend 2 c Scenario.signed_in
      = (r, w')
      /\ r <> OutOfFuel
      /\ sent w' = (sent Scenario.signed_in ++ added)%list
      /\ (count_via RefreshClient added <= 1)%nat
      /\ (count_via MainClient added <= 2)%nat.
Proof.
  intros c.
  destruct (retry_at_most_once Rev1 Scenario.BASE Scenario.backend) as (H1&H2&_).
  split.
  - apply H1. right; right; reflexivity.
  - destruct (H2 2%nat c Scenario.signed_in (le_n 2))
      as (c1&w1&r&w'&added&_&Hc&_&Hf&Hs&_&Hr&Hm&_).
    exists r, w', added. repeat split; assumption.
Defined.

Lemma only_401_enters_refresh_witness :
  ApiClient.responseInterceptor Rev1 Scenario.BASE Scenario.backend
    (ApiClient.client Rev1 Scenario.BASE Scenario.backend 1)
    Scenario.forbidden Scenario.signed_in
  = (Rejected (AxiosErr Scenario.forbidden), Scenario.signed_in).
Proof.
  destruct (only_401_enters_refresh Rev1 Scenario.BASE Scenario.backend) as (H&_).
  apply H. intros r [= <-]. simpl. lia.
Defined.

Lemma refresh_network_failure_keeps_session_witness :
  exists e' w1,
    ApiClient.responseInterceptor Rev1 Scenario.BASE Scenario.offline
      (ApiClient.client Rev1 Scenario.BASE Scenario.offline 1)
      Scenario.unauthorized Scenario.signed_in
    = (Rejected (AxiosErr e'), w1)
    /\ message e' = Some "Request failed with status code 401"
    /\ accessToken w1 = Some "t1"
    /\ refreshToken w1 = Some "r1"
    /\ storage_get "refresh_token" w1 = Some "r1".
Proof.
  edestruct (refresh_network_failure_keeps_session Rev1 Scenario.BASE
               Scenario.offline
               (ApiClient.client Rev1 Scenario.BASE Scenario.offline 1)
               Scenario.unauthorized Scenario.signed_in)
    as (e'&Hres&(_&Hm&_)&Ha&Hr&Hw).
  - apply should_refresh_iff. reflexivity.
  - vm_compute. reflexivity.
  - intros e r [= <-] Hr. discriminate Hr.
  - eexists e', _. split; [exact Hres|].
    split; [exact Hm|]. split; [exact Ha|]. split; [exact Hr|].
    unfold storage_get. rewrite Hw. reflexivity.
Defined.

Lemma refresh_rejection_expires_session_witness :
  exists e' w',
    ApiClient.responseInterceptor Rev2 Scenario.BASE Scenario.revoked
      (ApiClient.client Rev2 Scenario.BASE Scenario.revoked 1)
      Scenario.unauthorized Scenario.signed_in
    = (Rejected (AxiosErr e'), w')
    /\ accessToken w' = None /\ refreshToken w' = None
    /\ storage_get "access_token" w' = None
    /\ storage_get "refresh_token" w' = None
    /\ (exists win', window w' = Some win' /\ location_href win' = "/login")
    /\ user w' = user Scenario.signed_in
    /\ (exists e w3,
          ApiClient.getCurrentUser Rev2 Scenario.BASE Scenario.revoked 2 w'
          = (Rejected (AxiosErr e), w3))
    /\ user (snd (AuthContext.refreshUser Rev2 Scenario.BASE Scenario.revoked 2 w')) = None.
Proof.
  edestruct (refresh_rejection_expires_session Rev2 Scenario.BASE
               Scenario.revoked
               (ApiClient.client Rev2 Scenario.BASE Scenario.revoked 1)
               Scenario.unauthorized Scenario.signed_in)
    as (e'&w'&Hres&_&Ha&Hr&Hsa&Hsr&Hloc&Hu&Hid).
  - apply should_refresh_iff. reflexivity.
  - vm_compute. reflexivity.
  - eexists _, _. split; [reflexivity|]. split; [reflexivity|]. left. reflexivity.
  - exists e', w'. repeat (split; [assumption|]). split; [|split; [exact Hu|]].
    + eapply Hloc. reflexivity.
    + destruct (Hid 2%nat (le_S _ _ (le_n 1))) as (c1&w2&_&Hurl&Hanon&Href&_).
      apply Href.
      unfold Scenario.revoked, Scenario.backend_with, Scenario.bearer. cbn [req].
      rewrite Hurl, Hanon. reflexivity.
Defined.

Lemma signOut_always_clears_witness :
  (exists w',
      ApiClient.signOut Rev1 Scenario.BASE Scenario.offline 2 (Some "r1")
        Scenario.signed_in = (Resolved tt, w')
      /\ session_cleared w')
  /\ (exists w',
        AuthContext.signOut Rev1 Scenario.BASE Scenario.offline 2
          Scenario.signed_in = (Resolved tt, w')
        /\ session_cleared w' /\ user w' = None).
Proof.
  destruct (signOut_always_clears Rev1 Scenario.BASE Scenario.offline 2%nat
              (Some "r1") Scenario.signed_in (le_n 2)) as (H1&H2).
  split; [exact H1|]. eapply H2. reflexivity.
Defined.

Lemma authorize_attaches_token_witness :
  let c := ApiClient.mkConfig Scenario.BASE "get" "/internships" NoPayload in
  exists c',
    ApiClient.requestInterceptor Rev1 c Scenario.signed_in
    = (Resolved c', Scenario.signed_in)
    /\ headers c' = <["Authorization" := "Bearer t1"]> (headers c)
    /\ baseURL c' = baseURL c /\ url c' = url c /\ method c' = method c.
Proof.
  intros c.
  destruct (authorize_attaches_token Rev1 c Scenario.signed_in)
    as (c'&w'&Hi&Hm&_&_&Hh&_&H1&_).
  destruct (H1 eq_refl) as (->&Hb&Hu&_).
  exists c'. split; [exact Hi|]. split; [exact (Hh eq_refl)|].
  split; [exact Hb|]. split; [exact Hu | exact Hm].
Defined.


Lemma getCurrentUser_always_asks_backend_witness :
  exists c1,
    url c1 = Some "/auth/me"
    /\ headers c1 !! "Authorization" = Some "Bearer t1"
    /\ exists rest,
        sent (snd (ApiClient.getCurrentUser Rev1 Scenario.BASE Scenario.backend 2
                     Scenario.signed_in))
        = (sent Scenario.signed_in ++ {| via := MainClient; req := c1 |} :: rest)%list.
Proof.
  destruct (getCurrentUser_always_asks_backend Rev1 Scenario.BASE Scenario.backend
              2%nat Scenario.signed_in (le_n 2))
    as (c1&w1&Hi&Hu&_&Hh&Hs&_).
  injection Hi as <- <-.
  eexists. split; [exact Hu|]. split; [exact (Hh eq_refl) | exact Hs].
Defined.

(** * Beyond the session manager *)

(** ** Strings with a known beginning *)

Lemma prefix_cons a p b s :
  String.prefix (String a p) (String b s)
  = if ascii_dec a b then String.prefix p s else false.
Proof. reflexivity. Qed.

Lemma startsWith_split p s :
  Js.startsWith p s = true -> exists rest, s = p ++ rest.
Proof.
  unfold Js.startsWith. revert s.
  induction p as [|a p IH]; intros s H; simpl in *.
  - by exists s.
  - destruct s as [|b s]; [done|].
    rewrite prefix_cons in H.
    destruct (ascii_dec a b) as [->|]; [|discriminate H].
    destruct (IH s H) as (rest & ->). by exists rest.
Qed.

Lemma startsWith_app p rest : Js.startsWith p (p ++ rest) = true.
Proof.
  unfold Js.startsWith. induction p as [|a p IH]; simpl.
  - by destruct rest.
  - by destruct (ascii_dec a a).
Qed.

(** a string that begins with [https://] is left alone by the anchored
    replacement, and still begins so after the global one *)
Lemma https_replace_http_prefix s :
  Js.startsWith "https://" s = true -> Js.replace_http_prefix s = s.
Proof. intros H. destruct (startsWith_split _ _ H) as (rest & ->). reflexivity. Qed.

Lemma https_not_http s :
  Js.startsWith "https://" s = true -> Js.startsWith "http://" s = false.
Proof. intros H. destruct (startsWith_split _ _ H) as (rest & ->). reflexivity. Qed.

Lemma https_force_https s :
  Js.startsWith "https://" s = true ->
  Js.startsWith "https://" (ApiBase.force_https s) = true.
Proof.
  intros H. unfold ApiBase.force_https. rewrite https_replace_http_prefix by done.
  destruct (startsWith_split _ _ H) as (rest & ->).
  exact (startsWith_app "https://" (Js.replace_go "http://" "https://" 0 rest)).
Qed.

Lemma prod_https_is_https s :
  Js.startsWith ApiBase.PROD_HTTPS s = true -> Js.startsWith "https://" s = true.
Proof.
  intros H. destruct (startsWith_split _ _ H) as (rest & ->).
  exact (startsWith_app "https://" ("internhubapi.sadn.site" ++ rest)).
Qed.

Lemma prod_https_force_https s :
  Js.startsWith ApiBase.PROD_HTTPS s = true ->
  Js.startsWith ApiBase.PROD_HTTPS (ApiBase.force_https s) = true.
Proof.
  intros H. unfold ApiBase.force_https.
  rewrite https_replace_http_prefix by by apply prod_https_is_https.
  destruct (startsWith_split _ _ H) as (rest & ->).
  exact (startsWith_app ApiBase.PROD_HTTPS (Js.replace_go "http://" "https://" 0 rest)).
Qed.

Lemma prod_https_includes s :
  Js.startsWith ApiBase.PROD_HTTPS s = true -> Js.includes ApiClient.PROD s = true.
Proof.
  intros H. destruct (startsWith_split _ _ H) as (rest & ->).
  unfold ApiBase.PROD_HTTPS, ApiClient.PROD. simpl.
  by destruct rest.
Qed.

(** ** The base URL *)

Lemma prod_url_prod_https : Js.startsWith ApiBase.PROD_HTTPS ApiClient.PROD_URL = true.
Proof. reflexivity. Qed.

Lemma getApiBaseUrl_cases (env : option string) (loc : option ApiBase.Location) :
  let u := Js.or_else env ApiBase.DEFAULT_URL in
  if Js.includes ApiClient.PROD u
  then Js.startsWith ApiBase.PROD_HTTPS (ApiBase.getApiBaseUrl env loc) = true
  else ApiBase.getApiBaseUrl env loc = u.
Proof.
  unfold ApiBase.getApiBaseUrl. set (u := Js.or_else env ApiBase.DEFAULT_URL).
  cbv zeta. destruct (Js.includes ApiClient.PROD u) eqn:H.
  2:{ repeat first [rewrite H | rewrite andb_false_r | progress simpl].
      reflexivity. }
  - cbv zeta.
    set (a := if negb (Js.startsWith ApiBase.PROD_HTTPS (ApiBase.force_https u))
              then ApiClient.PROD_URL else ApiBase.force_https u).
    assert (Ha : Js.startsWith ApiBase.PROD_HTTPS a = true).
    { subst a. destruct (Js.startsWith _ (ApiBase.force_https u)) eqn:E; done. }
    set (b := if ApiBase.isProductionBrowser loc && Js.includes ApiClient.PROD a
              then ApiBase.force_https a else a).
    assert (Hb : Js.startsWith ApiBase.PROD_HTTPS b = true).
    { subst b. destruct (_ && _); [by apply prod_https_force_https | done]. }
    rewrite (https_not_http b) by by apply prod_https_is_https.
    rewrite andb_false_r.
    rewrite (prod_https_is_https b Hb). simpl. by rewrite andb_false_r.
Qed.

(** X1. [getApiBaseUrl] returns a URL that does not name the production
    host as it is configured (the default when nothing is configured), and
    turns every URL that names it into one that begins with
    [https://internhubapi.sadn.site], in a production browser or not. *)
Theorem getApiBaseUrl_https (env : option string) (loc : option ApiBase.Location) :
  (Js.includes ApiClient.PROD (Js.or_else env ApiBase.DEFAULT_URL) = false ->
   ApiBase.getApiBaseUrl env loc = Js.or_else env ApiBase.DEFAULT_URL)
  /\ (Js.includes ApiClient.PROD (Js.or_else env ApiBase.DEFAULT_URL) = true ->
      Js.startsWith ApiBase.PROD_HTTPS (ApiBase.getApiBaseUrl env loc) = true).
Proof.
  pose proof (getApiBaseUrl_cases env loc) as H. cbv zeta in H.
  split; intros E; by rewrite E in H.
Qed.

Lemma getApiBaseUrl_https_witness :
  ApiBase.getApiBaseUrl None None = "http://localhost:8000/api/v2"
  /\ Js.startsWith "https://internhubapi.sadn.site"
       (ApiBase.getApiBaseUrl (Some "http://internhubapi.sadn.site/api/v2") None) = true.
Proof.
  split.
  - apply (getApiBaseUrl_https None None). reflexivity.
  - apply (getApiBaseUrl_https (Some "http://internhubapi.sadn.site/api/v2") None).
    reflexivity.
Defined.

(** the same of [this.baseURL] as the constructor leaves it *)
Lemma constructor_baseURL_cases env loc :
  (Js.includes ApiClient.PROD (Js.or_else env ApiBase.DEFAULT_URL) = false
   /\ ApiBase.constructor_baseURL env loc = Js.or_else env ApiBase.DEFAULT_URL)
  \/ (Js.includes ApiClient.PROD (Js.or_else env ApiBase.DEFAULT_URL) = true
      /\ Js.startsWith ApiBase.PROD_HTTPS (ApiBase.constructor_baseURL env loc) = true).
Proof.
  unfold ApiBase.constructor_baseURL.
  pose proof (getApiBaseUrl_cases env loc) as H1. cbv zeta in H1.
  destruct (Js.includes ApiClient.PROD (Js.or_else env ApiBase.DEFAULT_URL)) eqn:E.
  - right. split; [done|].
    set (g := ApiBase.getApiBaseUrl env loc) in *. cbv zeta.
    rewrite (prod_https_includes g H1).
    pose proof (prod_https_force_https g H1) as Hf.
    rewrite (prod_https_is_https _ Hf). simpl.
    set (b := if ApiBase.isProductionBrowser loc
                 && Js.includes ApiClient.PROD (ApiBase.force_https g)
              then ApiBase.force_https (ApiBase.force_https g)
              else ApiBase.force_https g).
    assert (Hb : Js.startsWith ApiBase.PROD_HTTPS b = true).
    { subst b. destruct (_ && _); [by apply prod_https_force_https | done]. }
    by rewrite (prod_https_is_https b Hb), andb_false_r.
  - left. split; [done|]. rewrite H1. cbv zeta.
    repeat first [rewrite E | rewrite andb_false_r | progress simpl].
    reflexivity.
Qed.

(** X2. After the constructor [this.baseURL] is the configured URL when
    that does not name the production host, and begins with
    [https://internhubapi.sadn.site] when it does. *)
Theorem constructor_baseURL_https (env : option string) (loc : option ApiBase.Location) :
  (Js.includes ApiClient.PROD (Js.or_else env ApiBase.DEFAULT_URL) = false ->
   ApiBase.constructor_baseURL env loc = Js.or_else env ApiBase.DEFAULT_URL)
  /\ (Js.includes ApiClient.PROD (Js.or_else env ApiBase.DEFAULT_URL) = true ->
      Js.startsWith ApiBase.PROD_HTTPS (ApiBase.constructor_baseURL env loc) = true).
Proof.
  destruct (constructor_baseURL_cases env loc) as [(E & H)|(E & H)];
    rewrite E; by split.
Qed.

Lemma constructor_baseURL_https_witness :
  ApiBase.constructor_baseURL (Some "http://127.0.0.1:8000/api/v2") None
  = "http://127.0.0.1:8000/api/v2"
  /\ Js.startsWith "https://internhubapi.sadn.site"
       (ApiBase.constructor_baseURL (Some "http://internhubapi.sadn.site/api/v2")
          (Some {| ApiBase.protocol := "https:";
                   ApiBase.hostname := "internhub.sadn.site" |})) = true.
Proof.
  split.
  - apply (constructor_baseURL_https (Some "http://127.0.0.1:8000/api/v2") None).
    reflexivity.
  - apply (constructor_baseURL_https (Some "http://internhubapi.sadn.site/api/v2")).
    reflexivity.
Defined.

(** X3. The runtime check that runs after the module is loaded never
    changes the base URL the constructor computed, whatever is configured
    and wherever the page is served from. *)
Theorem runtime_check_noop (env : option string) (loc loc' : option ApiBase.Location) :
  ApiBase.runtime_check loc' (ApiBase.constructor_baseURL env loc)
  = ApiBase.constructor_baseURL env loc.
Proof.
  unfold ApiBase.runtime_check. destruct loc'; [|done].
  destruct (constructor_baseURL_cases env loc) as [(E & ->)|(_ & H)].
  - by rewrite E; destruct (_ && _).
  - rewrite (https_not_http _ (prod_https_is_https _ H)).
    by repeat case_match.
Qed.

(** ** HTTPS enforcement in the request interceptor *)

Lemma before_cons sep c s :
  Js.before sep (String c s)
  = if String.prefix sep (String c s) then EmptyString
    else String c (Js.before sep s).
Proof. reflexivity. Qed.

Lemma replace_http_prefix_http s :
  Js.startsWith "http://" s = true ->
  Js.replace_http_prefix s = "https://" ++ Js.drop 7 s.
Proof. intros H. unfold Js.replace_http_prefix. by rewrite H. Qed.

(** cutting [https://...] before a separator gives either a short piece
    that names no host, or a string that still begins with [https://] *)
Lemma before_https sep rest b :
  Js.before sep ("https://" ++ rest) = b ->
  Js.includes ApiClient.PROD b = true ->
  Js.startsWith "https://" b = true.
Proof.
  intros <-.
  change ("https://" ++ rest)
    with (String "h" (String "t" (String "t" (String "p" (String "s"
           (String ":" (String "/" (String "/" rest)))))))).
  do 8 (rewrite before_cons;
        destruct (String.prefix sep _); [by vm_compute|]).
  intros _.
  exact (startsWith_app "https://" (Js.before sep rest)).
Qed.

Lemma force_base_https_establishes c : https_base (ApiClient.force_base_https c).
Proof.
  unfold ApiClient.force_base_https, https_base.
  destruct (baseURL c) as [b|] eqn:Eb; [|by intros b'; rewrite Eb].
  destruct (ApiClient.nonempty b && Js.includes ApiClient.PROD b) eqn:E.
  - destruct (Js.startsWith "http://" b); simpl; rewrite ?Eb; simpl.
    + destruct (Js.startsWith "https://" _) eqn:E1; simpl.
      * by intros b' [= <-].
      * by intros b' [= <-].
    + destruct (Js.startsWith "https://" b) eqn:E1; simpl.
      * rewrite Eb. by intros b' [= <-].
      * by intros b' [= <-].
  - rewrite Eb. intros b' [= <-] Hi.
    rewrite Hi, andb_true_r in E. unfold ApiClient.nonempty in E.
    apply negb_false_iff, String.eqb_eq in E. by subst.
Qed.

Lemma block_mixed_content_keeps c :
  https_base c -> https_base (ApiClient.block_mixed_content c).
Proof.
  intros Hc. unfold ApiClient.block_mixed_content.
  destruct (ApiClient.must_fix (ApiClient.full_url c)) eqn:Hfix; [|done].
  unfold ApiClient.must_fix in Hfix.
  apply andb_true_iff in Hfix as (_ & Hhttp).
  rewrite (replace_http_prefix_http _ Hhttp).
  destruct (ApiClient.url_is_absolute c).
  - by intros b [= <-].
  - intros b [= <-] _.
    destruct (String.prefix "api/v2" _);
      [reflexivity | apply (startsWith_app "https://")].
Qed.

Lemma override_final_url_keeps c :
  https_base c -> https_base (ApiClient.override_final_url c).
Proof.
  intros Hc. unfold ApiClient.override_final_url.
  repeat case_match; try done.
  - by intros b [= <-].
  - match goal with H : _ && Js.startsWith "http://" _ = true |- _ =>
      apply andb_true_iff in H as (_ & Hhttp) end.
    rewrite (replace_http_prefix_http _ Hhttp).
    intros b Hb. simpl in Hb.
    destruct (Js.or_else (url c) "") as [|a path] eqn:Ep.
    + simpl in Hb. injection Hb as <-. by vm_compute.
    + unfold Js.split_first in Hb. injection Hb as Hb.
      by apply (before_https _ _ _ Hb).
Qed.

Lemma debug_post_keeps c : https_base c -> https_base (ApiClient.debug_post c).
Proof.
  intros Hc. unfold ApiClient.debug_post.
  repeat case_match; try done. by intros b [= <-].
Qed.

Lemma attach_token_keeps c w : https_base c -> https_base (ApiClient.attach_token c w).
Proof. intros Hc. unfold ApiClient.attach_token. by case_match. Qed.

Lemma enforce_https_establishes prod c : https_base (ApiClient.enforce_https prod c).
Proof.
  unfold ApiClient.enforce_https, ApiClient.when. destruct prod.
  - apply override_final_url_keeps, block_mixed_content_keeps,
      force_base_https_establishes.
  - apply force_base_https_establishes.
Qed.

(** X4. Whatever request enters the request interceptor of the second
    revision, in production mode or not, the [baseURL] of the request that
    leaves it begins with [https://] whenever it names the production host. *)
Theorem requestInterceptor_https_base (c c' : Config) (w w' : World) :
  ApiClient.requestInterceptor Rev2 c w = (Resolved c', w') ->
  forall b, baseURL c' = Some b ->
            Js.includes ApiClient.PROD b = true ->
            Js.startsWith "https://" b = true.
Proof.
  unfold ApiClient.requestInterceptor, ApiClient.requestInterceptor2.
  intros [= <- _]. unfold ApiClient.when.
  destruct (isProduction _).
  - apply debug_post_keeps, attach_token_keeps, enforce_https_establishes.
  - apply attach_token_keeps, enforce_https_establishes.
Qed.

Lemma requestInterceptor_https_base_witness :
  let c := ApiClient.mkConfig "http://internhubapi.sadn.site/api/v2" "get"
             "/internships" NoPayload in
  exists c',
    ApiClient.requestInterceptor Rev2 c Scenario.start = (Resolved c', Scenario.start)
    /\ baseURL c' = Some "https://internhubapi.sadn.site/api/v2"
    /\ Js.startsWith "https://" "https://internhubapi.sadn.site/api/v2" = true.
Proof.
  intros c. eexists. split; [vm_compute; reflexivity|]. split; [reflexivity|].
  eapply (requestInterceptor_https_base c _ Scenario.start Scenario.start).
  - vm_compute. reflexivity.
  - reflexivity.
  - reflexivity.
Defined.

Lemma https_base_facts b :
  Js.startsWith "https://" b = true ->
  Js.startsWith "http://" b = false
  /\ Js.replace_http_prefix b = b
  /\ ApiClient.nonempty b = true
  /\ (forall u, Js.startsWith "http://" (b ++ u) = false).
Proof.
  intros H. split; [by apply https_not_http|].
  split; [by apply https_replace_http_prefix|].
  destruct (startsWith_split _ _ H) as (rest & ->). by repeat split.
Qed.

Lemma relative_path_facts u :
  relative_path u ->
  Js.startsWith "http://" u = false
  /\ Js.startsWith "https://" u = false
  /\ Js.startsWith "http" u = false
  /\ ApiClient.nonempty u = true
  /\ Js.includes ApiClient.PROD u = false.
Proof. intros (rest & -> & H). by repeat split. Qed.

Ltac fields :=
  cbn [baseURL url method headers data _retry set_baseURL set_url set_header
       Js.interp Js.opt_includes andb orb negb].

(** with an HTTPS base and a relative path there is nothing to enforce *)
Lemma enforce_https_noop_https prod c b u :
  baseURL c = Some b -> Js.startsWith "https://" b = true ->
  url c = Some u -> relative_path u ->
  ApiClient.enforce_https prod c = c
  /\ (forall w, ApiClient.debug_post (ApiClient.attach_token c w)
                = ApiClient.attach_token c w).
Proof.
  intros Eb Hb Eu Hu.
  destruct (https_base_facts b Hb) as (Hb1 & Hb2 & Hb3 & Hb4).
  destruct (relative_path_facts u Hu) as (Hu1 & Hu2 & Hu3 & Hu4 & Hu5).
  destruct c as [b0 u0 m h d r]. simpl in Eb, Eu. subst b0 u0.
  assert (Ht : Js.truthy (Some u) = true) by exact Hu4.
  assert (Htb : Js.truthy (Some b) = true) by exact Hb3.
  assert (Ho : Js.or_else (Some u) "" = u) by (unfold Js.or_else; by rewrite Ht).
  assert (HA : forall m h, ApiClient.force_base_https
            {| baseURL := Some b; url := Some u; method := m; headers := h;
               data := d; _retry := r |}
          = {| baseURL := Some b; url := Some u; method := m; headers := h;
               data := d; _retry := r |}).
  { intros. unfold ApiClient.force_base_https. fields.
    rewrite Hb3, Hb1. fields. destruct (Js.includes ApiClient.PROD b); fields;
      by rewrite ?Hb. }
  assert (HE : forall m h, ApiClient.must_fix (ApiClient.full_url
            {| baseURL := Some b; url := Some u; method := m; headers := h;
               data := d; _retry := r |}) = false).
  { intros. unfold ApiClient.must_fix, ApiClient.full_url. fields.
    rewrite Ht. fields. rewrite Hu3. fields. by rewrite Hb4, !andb_false_r. }
  split.
  - unfold ApiClient.enforce_https, ApiClient.when. rewrite HA.
    assert (HB : ApiClient.force_production
            {| baseURL := Some b; url := Some u; method := m; headers := h;
               data := d; _retry := r |}
          = {| baseURL := Some b; url := Some u; method := m; headers := h;
               data := d; _retry := r |}).
    { unfold ApiClient.force_production. fields.
      rewrite Hb3, Hb2. fields. rewrite Hu4, Hu1. fields.
      rewrite Hb3, Hu4, Hu5, Hu1, Hb2. fields. by destruct (Js.includes _ b). }
    assert (HC : ApiClient.force_base_prefix
            {| baseURL := Some b; url := Some u; method := m; headers := h;
               data := d; _retry := r |}
          = {| baseURL := Some b; url := Some u; method := m; headers := h;
               data := d; _retry := r |}).
    { unfold ApiClient.force_base_prefix. fields. rewrite Hb2.
      by destruct (Js.includes _ b). }
    assert (HD : ApiClient.force_url_domain
            {| baseURL := Some b; url := Some u; method := m; headers := h;
               data := d; _retry := r |}
          = {| baseURL := Some b; url := Some u; method := m; headers := h;
               data := d; _retry := r |}).
    { unfold ApiClient.force_url_domain. fields. by rewrite Hu5. }
    assert (HG : ApiClient.rebuild_full_url
            {| baseURL := Some b; url := Some u; method := m; headers := h;
               data := d; _retry := r |}
          = {| baseURL := Some b; url := Some u; method := m; headers := h;
               data := d; _retry := r |}
          /\ ApiClient.block_mixed_content
            {| baseURL := Some b; url := Some u; method := m; headers := h;
               data := d; _retry := r |}
          = {| baseURL := Some b; url := Some u; method := m; headers := h;
               data := d; _retry := r |}).
    { unfold ApiClient.rebuild_full_url, ApiClient.block_mixed_content.
      by rewrite HE. }
    destruct HG as (HG1 & HG2).
    assert (HH : ApiClient.override_final_url
            {| baseURL := Some b; url := Some u; method := m; headers := h;
               data := d; _retry := r |}
          = {| baseURL := Some b; url := Some u; method := m; headers := h;
               data := d; _retry := r |}).
    { unfold ApiClient.override_final_url. fields.
      rewrite Htb, Ht. fields. rewrite Hu1, Hu2. fields.
      by rewrite Ho, Hb2, Hb4, andb_false_r. }
    destruct prod; by rewrite ?HB, ?HC, ?HD, ?HG1, ?HA, ?HG2, ?HH.
  - intros w. unfold ApiClient.debug_post, ApiClient.attach_token.
    destruct (Js.truthy (accessToken w)); fields;
      rewrite Htb, Ht; fields; rewrite Hu3; fields;
      rewrite Hb4, andb_false_r; by destruct (bool_decide _).
Qed.

(** X5. In the second revision, a request with an HTTPS [baseURL] and a
    relative path that does not name the production host (every call the
    client builds once its base URL is HTTPS) leaves the request interceptor
    with only the token attached: none of the HTTPS enforcement blocks
    changes it, in production mode or not. *)
Theorem requestInterceptor_https_noop (c : Config) (w : World) (b u : string) :
  baseURL c = Some b -> Js.startsWith "https://" b = true ->
  url c = Some u -> relative_path u ->
  ApiClient.requestInterceptor Rev2 c w
  = (Resolved (ApiClient.attach_token c (ApiClient.reload_token w)),
     ApiClient.reload_token w).
Proof.
  intros Eb Hb Eu Hu.
  unfold ApiClient.requestInterceptor, ApiClient.requestInterceptor2.
  destruct (enforce_https_noop_https (isProduction w) c b u Eb Hb Eu Hu)
    as (-> & Hd).
  unfold ApiClient.when. destruct (isProduction _); by rewrite ?Hd.
Qed.

Lemma requestInterceptor_https_noop_witness :
  let c := ApiClient.mkConfig "https://internhubapi.sadn.site/api/v2" "post"
             "/internships" (OtherPayload "{}") in
  ApiClient.requestInterceptor Rev2 c Scenario.start_production
  = (Resolved c, Scenario.start_production).
Proof.
  intros c.
  rewrite (requestInterceptor_https_noop c Scenario.start_production
             "https://internhubapi.sadn.site/api/v2" "/internships"
             eq_refl eq_refl eq_refl).
  - reflexivity.
  - eexists. split; reflexivity.
Defined.

(** ** Memory and storage agree *)

Lemma synced_ext w w' :
  accessToken w' = accessToken w -> refreshToken w' = refreshToken w ->
  window w' = window w -> synced w -> synced w'.
Proof.
  unfold synced, token_synced. by intros -> -> ->.
Qed.

Lemma synced_set_sent l w : synced w -> synced (set_sent l w).
Proof. by apply synced_ext. Qed.

Lemma synced_setUser u w : synced w -> synced (setUser u w).
Proof. by apply synced_ext. Qed.

Lemma synced_setLoading b w : synced w -> synced (setLoading b w).
Proof. by apply synced_ext. Qed.

Lemma synced_navigate h w : synced w -> synced (navigate h w).
Proof.
  unfold synced, token_synced, navigate.
  by destruct (window w) eqn:E; simpl; rewrite ?E.
Qed.

Lemma truthy_some t : Js.truthy t = true -> t = Some (Js.interp t).
Proof. by destruct t. Qed.

Lemma synced_setAccessToken t w :
  synced w -> synced (ApiClient.setAccessToken t w).
Proof.
  unfold synced, token_synced, ApiClient.setAccessToken, storage_set, storage_remove.
  intros (Ha & Hr). destruct (window w) as [win|] eqn:E.
  - destruct (Js.truthy t) eqn:Et; simpl; rewrite E; simpl; rewrite ?Et.
    + rewrite lookup_insert_eq, lookup_insert_ne by done.
      split; [symmetry; by apply truthy_some | done].
    + rewrite lookup_delete_eq, lookup_delete_ne by done. by split.
  - destruct (Js.truthy t); simpl; rewrite E; simpl; rewrite ?E; by simpl.
Qed.

Lemma synced_setRefreshToken t w :
  synced w -> synced (ApiClient.setRefreshToken t w).
Proof.
  unfold synced, token_synced, ApiClient.setRefreshToken, storage_set, storage_remove.
  intros (Ha & Hr). destruct (window w) as [win|] eqn:E.
  - destruct (Js.truthy t) eqn:Et; simpl; rewrite E; simpl; rewrite ?Et.
    + rewrite lookup_insert_eq, lookup_insert_ne by done.
      split; [done | symmetry; by apply truthy_some].
    + rewrite lookup_delete_eq, lookup_delete_ne by done. by split.
  - destruct (Js.truthy t); simpl; rewrite E; simpl; rewrite ?E; by simpl.
Qed.

Lemma synced_clearTokens w : synced (ApiClient.clearTokens w).
Proof.
  destruct (clearTokens_clears w) as (Ha & Hr & Hsa & Hsr).
  unfold synced, token_synced. rewrite Ha, Hr. simpl.
  unfold storage_get in Hsa, Hsr.
  destruct (window (ApiClient.clearTokens w)); [|done].
  by rewrite Hsa, Hsr.
Qed.

Lemma synced_constructor prod win : synced (ApiClient.constructor prod win).
Proof.
  unfold synced, token_synced, ApiClient.constructor.
  destruct win as [win|]; simpl; [|done].
  split; by case_match.
Qed.

Lemma synced_reload_token w : synced w -> ApiClient.reload_token w = w.
Proof.
  unfold synced, token_synced, ApiClient.reload_token.
  intros (Ha & _). destruct (window w); [|done].
  destruct (Js.truthy (accessToken w)) eqn:Et.
  - rewrite Ha, bool_decide_eq_true_2 by done. by rewrite andb_false_r.
  - by rewrite Ha.
Qed.

Section Synced.

Variable rev : Revision.
Variable API_BASE_URL : string.
Variable backend : list Wire -> Wire -> Outcome.

Lemma keeps_ret {A} (a : A) : keeps_synced (ret a).
Proof. by intros w. Qed.

Lemma keeps_reject {A} t : keeps_synced (@reject A t).
Proof. by intros w. Qed.

Lemma keeps_modify f :
  (forall w, synced w -> synced (f w)) -> keeps_synced (modify f).
Proof. intros H w. apply H. Qed.

Lemma keeps_bind {A B} (m : M A) (k : A -> M B) :
  keeps_synced m -> (forall a, keeps_synced (k a)) -> keeps_synced (bind m k).
Proof.
  intros Hm Hk w Hw. unfold bind. specialize (Hm w Hw).
  destruct (m w) as [[a|t|] w1]; simpl in *; [by apply Hk|done|done].
Qed.

Lemma keeps_try_catch {A} (m : M A) (h : Thrown -> M A) :
  keeps_synced m -> (forall t, keeps_synced (h t)) -> keeps_synced (try_catch m h).
Proof.
  intros Hm Hh w Hw. unfold try_catch. specialize (Hm w Hw).
  destruct (m w) as [[a|t|] w1]; simpl in *; [done|by apply Hh|done].
Qed.

Lemma keeps_finally {A} (m : M A) f :
  keeps_synced m -> (forall w, synced w -> synced (f w)) -> keeps_synced (finally m f).
Proof.
  intros Hm Hf w Hw. unfold finally. specialize (Hm w Hw).
  destruct (m w) as [r w1]. by apply Hf.
Qed.

Lemma keeps_requestInterceptor c : keeps_synced (ApiClient.requestInterceptor rev c).
Proof.
  intros w Hw. unfold ApiClient.requestInterceptor. destruct rev; simpl; [done|].
  by rewrite synced_reload_token.
Qed.

Lemma keeps_send v c : keeps_synced (ApiClient.send backend v c).
Proof. intros w Hw. rewrite send_eq. by apply synced_set_sent. Qed.

Lemma keeps_refreshAccessToken t :
  keeps_synced (ApiClient.refreshAccessToken rev API_BASE_URL backend t).
Proof.
  intros w Hw.
  destruct (refreshAccessToken_spec rev API_BASE_URL backend t w) as (r&rc&->&_).
  by apply synced_set_sent.
Qed.

Lemma keeps_responseInterceptor cl error :
  (forall c, keeps_synced (cl c)) ->
  keeps_synced (ApiClient.responseInterceptor rev API_BASE_URL backend cl error).
Proof.
  intros Hcl w Hw. unfold ApiClient.responseInterceptor.
  destruct (ApiClient.should_refresh error w); [|done].
  pose proof (keeps_refreshAccessToken (Js.interp (refreshToken w)) w Hw) as H1.
  destruct (ApiClient.refreshAccessToken _ _ _ _ w) as [[[d|]|t|] w1];
    simpl in H1; [| | |done].
  - apply Hcl. destruct (Js.truthy (ApiClient.get_refresh_token d));
      [apply synced_setRefreshToken|]; by apply synced_setAccessToken.
  - done.
  - unfold ApiClient.on_refresh_error.
    destruct (ApiClient.is_auth_rejection t); simpl; [|done].
    apply synced_navigate, synced_clearTokens.
Qed.

Lemma keeps_client fuel c :
  keeps_synced (ApiClient.client rev API_BASE_URL backend fuel c).
Proof.
  revert c. induction fuel as [|fuel IH]; intros c w Hw; [done|].
  rewrite client_S.
  pose proof (keeps_requestInterceptor c w Hw) as H1.
  destruct (ApiClient.requestInterceptor rev c w) as [[c1|t|] w1];
    simpl in H1; [|done|done].
  pose proof (keeps_send MainClient c1 w1 H1) as H2.
  destruct (ApiClient.send backend MainClient c1 w1) as [[r|[e| |]|] w2];
    simpl in H2; try done.
  by apply keeps_responseInterceptor.
Qed.

Lemma keeps_signIn fuel email password :
  keeps_synced (ApiClient.signIn rev API_BASE_URL backend fuel email password).
Proof.
  unfold ApiClient.signIn, ApiClient.post.
  apply keeps_bind; [apply keeps_client|]. intros response.
  destruct (rdata response) as [d|]; [|apply keeps_reject].
  apply keeps_bind; [apply keeps_modify, synced_setAccessToken|]. intros _.
  apply keeps_bind; [|intros _; apply keeps_ret].
  apply keeps_modify. intros w Hw.
  destruct (Js.truthy _); [by apply synced_setRefreshToken | done].
Qed.

Lemma keeps_signUp fuel credentials :
  keeps_synced (SignUp.signUp rev API_BASE_URL backend fuel credentials).
Proof.
  unfold SignUp.signUp, ApiClient.post.
  apply keeps_bind; [apply keeps_client|]. intros response.
  destruct (rdata response) as [d|]; [|apply keeps_reject].
  apply keeps_bind; [apply keeps_modify, synced_setAccessToken|]. intros _.
  apply keeps_bind; [|intros _; apply keeps_ret].
  apply keeps_modify. intros w Hw.
  destruct (Js.truthy _); [by apply synced_setRefreshToken | done].
Qed.

Lemma keeps_getCurrentUser fuel :
  keeps_synced (ApiClient.getCurrentUser rev API_BASE_URL backend fuel).
Proof.
  unfold ApiClient.getCurrentUser, ApiClient.get.
  apply keeps_bind; [apply keeps_client | intros; apply keeps_ret].
Qed.

Lemma keeps_signOut fuel token :
  keeps_synced (ApiClient.signOut rev API_BASE_URL backend fuel token).
Proof.
  intros w _. unfold ApiClient.signOut, finally.
  destruct (try_catch _ _ w) as [r w1]. apply synced_clearTokens.
Qed.

Lemma keeps_refreshUser fuel :
  keeps_synced (AuthContext.refreshUser rev API_BASE_URL backend fuel).
Proof.
  unfold AuthContext.refreshUser.
  apply keeps_finally; [|apply synced_setLoading].
  apply keeps_try_catch.
  - apply keeps_bind; [apply keeps_getCurrentUser|].
    intros u. apply keeps_modify, synced_setUser.
  - intros t. destruct (ApiClient.is_auth_rejection t); apply keeps_modify.
    + intros w _. apply synced_clearTokens.
    + apply synced_setUser.
Qed.

Lemma keeps_context_signIn fuel email password :
  keeps_synced (AuthContext.signIn rev API_BASE_URL backend fuel email password).
Proof.
  unfold AuthContext.signIn.
  apply keeps_bind; [apply keeps_signIn | intros; apply keeps_refreshUser].
Qed.

Lemma keeps_context_signOut fuel :
  keeps_synced (AuthContext.signOut rev API_BASE_URL backend fuel).
Proof.
  intros w Hw. unfold AuthContext.signOut.
  destruct (window w); [|done].
  apply (keeps_bind (ApiClient.signOut rev API_BASE_URL backend fuel _)
           (fun _ => modify (setUser None))); [apply keeps_signOut| |done].
  intros _. apply keeps_modify, synced_setUser.
Qed.

Lemma reachable_keeps_synced (w : World) :
  reachable rev API_BASE_URL backend w -> synced w.
Proof.
  induction 1.
  - apply synced_constructor.
  - by apply keeps_client.
  - by apply keeps_signIn.
  - by apply keeps_signUp.
  - by apply keeps_getCurrentUser.
  - by apply keeps_signOut.
  - by apply synced_setAccessToken.
  - by apply synced_setRefreshToken.
  - apply synced_clearTokens.
  - by apply keeps_refreshUser.
  - by apply keeps_context_signIn.
  - by apply keeps_context_signOut.
Qed.

(** X6. In every state a page can bring the client to (a fresh client
    followed by any calls of its methods and of the auth context, with any
    backend), the token in memory and the one in [localStorage] agree, for
    the access token and for the refresh token: the same string when a
    token is held, no entry otherwise. *)
Theorem reachable_synced (w : World) (win : Window) :
  reachable rev API_BASE_URL backend w ->
  window w = Some win ->
  (Js.truthy (accessToken w) = true ->
   localStorage win !! "access_token" = accessToken w)
  /\ (Js.truthy (accessToken w) = false ->
      Js.truthy (localStorage win !! "access_token") = false)
  /\ (Js.truthy (refreshToken w) = true ->
      localStorage win !! "refresh_token" = refreshToken w)
  /\ (Js.truthy (refreshToken w) = false ->
      Js.truthy (localStorage win !! "refresh_token") = false).
Proof.
  intros Hr Hw. destruct (reachable_keeps_synced w Hr) as (Ha & Hrt).
  unfold token_synced in Ha, Hrt. rewrite Hw in Ha, Hrt.
  repeat split; intros Ht; rewrite Ht in *; done.
Qed.

(** X7. In every such state the re-read of the access token from
    [localStorage], which the second revision does before each request,
    changes nothing: the request interceptor leaves the world as it is and
    attaches the token held in memory. *)
Theorem reachable_reload_noop (w : World) (c : Config) :
  reachable rev API_BASE_URL backend w ->
  ApiClient.reload_token w = w
  /\ exists c', ApiClient.requestInterceptor Rev2 c w = (Resolved c', w)
                /\ headers c' = headers (ApiClient.attach_token c w).
Proof.
  intros Hr. pose proof (synced_reload_token w (reachable_keeps_synced w Hr)) as Hw.
  split; [done|].
  destruct (requestInterceptor_total Rev2 c w)
    as (c'&w'&Hi&_&_&_&Hh&_).
  assert (w' = w) as ->.
  { revert Hi. unfold ApiClient.requestInterceptor, ApiClient.requestInterceptor2.
    rewrite Hw. by intros [= _ <-]. }
  exists c'. split; [done|]. rewrite Hh.
  by destruct (attach_token_frame c w) as (_&_&_&_&_&->).
Qed.

End Synced.

Lemma signed_in_reachable :
  reachable Rev1 Scenario.BASE Scenario.backend Scenario.signed_in.
Proof. apply reach_signIn, reach_constructor. Qed.

Lemma reachable_synced_witness :
  exists win,
    window Scenario.signed_in = Some win
    /\ localStorage win !! "access_token" = Some "t1"
    /\ localStorage win !! "refresh_token" = Some "r1".
Proof.
  eexists. split; [reflexivity|].
  edestruct (reachable_synced Rev1 Scenario.BASE Scenario.backend
               Scenario.signed_in _ signed_in_reachable eq_refl)
    as (Ha & _ & Hr & _).
  split; [exact (Ha eq_refl) | exact (Hr eq_refl)].
Defined.

Lemma reachable_reload_noop_witness :
  ApiClient.reload_token Scenario.signed_in = Scenario.signed_in.
Proof.
  apply (reachable_reload_noop Rev1 Scenario.BASE Scenario.backend
           Scenario.signed_in Scenario.protected_call signed_in_reachable).
Defined.

(** ** Reloading the page *)

(** X8. A page reload keeps the session: a client constructed in the window
    of any state the page could reach holds the same access token and the
    same refresh token as the client before the reload (and none where
    none was held). *)
Theorem reload_restores_tokens rev API_BASE_URL backend (w : World)
    (win : Window) (prod : bool) :
  reachable rev API_BASE_URL backend w ->
  window w = Some win ->
  let w' := ApiClient.constructor prod (window w) in
  (Js.truthy (accessToken w) = true -> accessToken w' = accessToken w)
  /\ (Js.truthy (accessToken w) = false -> Js.truthy (accessToken w') = false)
  /\ (Js.truthy (refreshToken w) = true -> refreshToken w' = refreshToken w)
  /\ (Js.truthy (refreshToken w) = false -> Js.truthy (refreshToken w') = false).
Proof.
  intros Hr Hw. destruct (reachable_keeps_synced _ _ _ _ Hr) as (Ha & Hrt).
  unfold token_synced in Ha, Hrt. rewrite Hw in *. simpl.
  repeat split; intros Ht; rewrite Ht in *; done.
Qed.

Lemma reload_restores_tokens_witness :
  accessToken (ApiClient.constructor false (window Scenario.signed_in)) = Some "t1"
  /\ refreshToken (ApiClient.constructor false (window Scenario.signed_in)) = Some "r1".
Proof.
  destruct (reload_restores_tokens Rev1 Scenario.BASE Scenario.backend
              Scenario.signed_in
              {| localStorage := {[ "access_token" := "t1"; "refresh_token" := "r1" ]};
                 location_href := "/";
                 location_origin := "http://localhost:3000" |}
              false signed_in_reachable)
    as (Ha & _ & Hr & _).
  - vm_compute. reflexivity.
  - split; [exact (Ha eq_refl) | exact (Hr eq_refl)].
Defined.

(** ** The path of a request *)

Lemma debug_post_url c u :
  relative_path u -> url c = Some u -> url (ApiClient.debug_post c) = Some u.
Proof.
  intros Hu Eu. destruct (relative_path_facts u Hu) as (_ & _ & Hu3 & _).
  unfold ApiClient.debug_post. rewrite Eu. cbn [Js.interp]. rewrite Hu3.
  by repeat case_match.
Qed.

Lemma requestInterceptor_url rev (c c' : Config) (w w' : World) (u : string) :
  url c = Some u -> relative_path u ->
  ApiClient.requestInterceptor rev c w = (Resolved c', w') ->
  url c' = Some u.
Proof.
  intros Eu Hu Hi.
  revert Hi. unfold ApiClient.requestInterceptor. destruct rev.
  - intros [= <- _]. by destruct (attach_token_frame c w) as (_ & -> & _).
  - unfold ApiClient.requestInterceptor2. intros [= <- _].
    set (c0 := ApiClient.enforce_https (isProduction w) c).
    assert (H0 : url c0 = Some u) by by apply enforce_https_url.
    destruct (attach_token_frame c0 (ApiClient.reload_token w)) as (_ & Hu1 & _).
    unfold ApiClient.when. destruct (isProduction (ApiClient.reload_token w)).
    + apply debug_post_url; [done|]. by rewrite Hu1.
    + by rewrite Hu1.
Qed.

(** X9. The request interceptor of either revision never rewrites a
    relative path that does not name the production host (the paths of all
    the client's own calls), whatever the base URL, the method and the
    mode; together with the method and the body, which it never touches,
    the request reaches the endpoint it was made for. *)
Theorem requestInterceptor_keeps_path rev (c c' : Config) (w w' : World) (u : string) :
  url c = Some u -> relative_path u ->
  ApiClient.requestInterceptor rev c w = (Resolved c', w') ->
  url c' = Some u /\ method c' = method c /\ data c' = data c.
Proof.
  intros Eu Hu Hi.
  destruct (requestInterceptor_total rev c w) as (c2&w2&Hi2&Hm&Hd&_).
  rewrite Hi in Hi2. injection Hi2 as <- <-.
  split; [|done]. by apply (requestInterceptor_url rev c c' w w' u).
Qed.

Lemma requestInterceptor_keeps_path_witness :
  let c := ApiClient.mkConfig "http://internhubapi.sadn.site/api/v2" "post"
             "/auth/sign-in" (SignInRequest "a@x.com" "secret123") in
  exists c',
    ApiClient.requestInterceptor Rev2 c Scenario.start_production
    = (Resolved c', Scenario.start_production)
    /\ url c' = Some "/auth/sign-in"
    /\ baseURL c' = Some "https://internhubapi.sadn.site/api/v2".
Proof.
  intros c. eexists. split; [vm_compute; reflexivity|]. split; [|reflexivity].
  eapply (requestInterceptor_keeps_path Rev2 c _ Scenario.start_production
            Scenario.start_production "/auth/sign-in" eq_refl).
  - eexists. split; reflexivity.
  - vm_compute. reflexivity.
Defined.

(** ** Calls through the client *)

Section Calls.

Variable rev : Revision.
Variable API_BASE_URL : string.
Variable backend : list Wire -> Wire -> Outcome.

Abbreviation requestInterceptor := (ApiClient.requestInterceptor rev).
Abbreviation client := (ApiClient.client rev API_BASE_URL backend).

(** a call the backend accepts resolves with the response after one
    request *)
Lemma client_accepted fuel c w c1 w1 r :
  requestInterceptor c w = (Resolved c1, w1) ->
  accepted (backend (sent w) {| via := MainClient; req := c1 |}) r ->
  client (S fuel) c w
  = (Resolved r, set_sent (sent w ++ [{| via := MainClient; req := c1 |}]) w1).
Proof.
  intros Hi (Ho & Hok).
  destruct (requestInterceptor_total rev c w) as (c2&w2&Hi2&_&_&_&_&_&_&Hs&_).
  rewrite Hi in Hi2. injection Hi2 as <- <-.
  rewrite client_S, Hi, send_eq, Hs, Ho. simpl. by rewrite Hok.
Qed.

(** a call the backend refuses, outside the refresh path, rejects with the
    error of that one request *)
Lemma client_refused fuel c w c1 w1 :
  requestInterceptor c w = (Resolved c1, w1) ->
  refused (backend (sent w) {| via := MainClient; req := c1 |}) ->
  (Js.truthy (refreshToken w) = false
   \/ forall r, backend (sent w) {| via := MainClient; req := c1 |} = Responded r ->
                status r <> 401) ->
  exists e,
    client (S fuel) c w
    = (Rejected (AxiosErr e),
       set_sent (sent w ++ [{| via := MainClient; req := c1 |}]) w1)
    /\ config e = c1
    /\ match backend (sent w) {| via := MainClient; req := c1 |} with
       | Responded r => response e = Some r
       | NoResponse ec em => response e = None /\ code e = ec /\ message e = em
       end.
Proof.
  intros Hi Hno Hguard.
  destruct (requestInterceptor_total rev c w) as (c2&w2&Hi2&_&_&_&_&Hrt&_&Hs&_).
  rewrite Hi in Hi2. injection Hi2 as <- <-.
  rewrite client_S, Hi, send_eq, Hs.
  destruct (backend (sent w) {| via := MainClient; req := c1 |})
    as [r0|ec em] eqn:Eo; simpl in *.
  - rewrite Hno. eexists. split.
    + apply responseInterceptor_pass.
      match goal with |- ApiClient.should_refresh ?e ?w2 = false =>
        destruct (ApiClient.should_refresh e w2) eqn:E; [|done] end.
      apply should_refresh_iff in E as ((r & Hr & H401) & _ & _ & Ht).
      simpl in Hr, Ht. rewrite Hrt in Ht. injection Hr as <-.
      destruct Hguard as [Hg|Hg]; [congruence|]. by destruct (Hg r0 eq_refl).
    + by split.
  - eexists. split.
    + apply responseInterceptor_pass.
      match goal with |- ApiClient.should_refresh ?e ?w2 = false =>
        destruct (ApiClient.should_refresh e w2) eqn:E; [|done] end.
      by apply should_refresh_iff in E as ((r & Hr & _) & _).
    + by repeat split.
Qed.

(** the access token after the request interceptor: the one held, which
    the second revision re-reads from the storage *)
Lemma interceptor_token c w c1 w1 :
  requestInterceptor c w = (Resolved c1, w1) ->
  accessToken w1 = match rev with
                   | Rev1 => accessToken w
                   | Rev2 => accessToken (ApiClient.reload_token w)
                   end
  /\ (synced w -> accessToken w1 = accessToken w).
Proof.
  intros Hi.
  destruct (requestInterceptor_total rev c w)
    as (c2&w2&Hi2&_&_&_&_&_&_&_&_&_&_&Hat).
  rewrite Hi in Hi2. injection Hi2 as <- <-. split; [done|].
  intros Hsy. rewrite Hat. destruct rev; [done|].
  by rewrite (synced_reload_token w Hsy).
Qed.

Lemma api_request c w u :
  url c = Some u -> relative_path u ->
  exists c1 w1,
    requestInterceptor c w = (Resolved c1, w1)
    /\ url c1 = Some u /\ method c1 = method c /\ data c1 = data c
    /\ sent w1 = sent w /\ refreshToken w1 = refreshToken w
    /\ window w1 = window w /\ user w1 = user w /\ loading w1 = loading w.
Proof.
  intros Eu Hu.
  destruct (requestInterceptor_total rev c w)
    as (c1&w1&Hi&?&?&_&_&?&?&?&?&?&_).
  pose proof (requestInterceptor_url rev c c1 w w1 u Eu Hu Hi).
  by exists c1, w1.
Qed.

Lemma relative_sign_in : relative_path "/auth/sign-in".
Proof. eexists. split; reflexivity. Qed.

Lemma relative_sign_up : relative_path "/auth/sign-up".
Proof. eexists. split; reflexivity. Qed.

Lemma setAccessToken_fields t w :
  accessToken (ApiClient.setAccessToken t w) = t
  /\ refreshToken (ApiClient.setAccessToken t w) = refreshToken w
  /\ sent (ApiClient.setAccessToken t w) = sent w
  /\ user (ApiClient.setAccessToken t w) = user w
  /\ (forall win, window w = Some win ->
        storage_get "access_token" (ApiClient.setAccessToken t w) = stored t
        /\ storage_get "refresh_token" (ApiClient.setAccessToken t w)
           = storage_get "refresh_token" w).
Proof.
  unfold ApiClient.setAccessToken, storage_set, storage_remove, storage_get, stored.
  destruct w as [a r p [win|] s u l]; destruct (Js.truthy t) eqn:Et; simpl;
    (split; [done|]); (split; [done|]); (split; [done|]); (split; [done|]);
    intros win' [= <-].
  - rewrite lookup_insert_eq, lookup_insert_ne by done.
    split; [symmetry; by apply truthy_some | done].
  - by rewrite lookup_delete_eq, lookup_delete_ne.
Qed.

Lemma setRefreshToken_fields t w :
  accessToken (ApiClient.setRefreshToken t w) = accessToken w
  /\ refreshToken (ApiClient.setRefreshToken t w) = t
  /\ sent (ApiClient.setRefreshToken t w) = sent w
  /\ user (ApiClient.setRefreshToken t w) = user w
  /\ (forall win, window w = Some win ->
        storage_get "refresh_token" (ApiClient.setRefreshToken t w) = stored t
        /\ storage_get "access_token" (ApiClient.setRefreshToken t w)
           = storage_get "access_token" w).
Proof.
  unfold ApiClient.setRefreshToken, storage_set, storage_remove, storage_get, stored.
  destruct w as [a r p [win|] s u l]; destruct (Js.truthy t) eqn:Et; simpl;
    (split; [done|]); (split; [done|]); (split; [done|]); (split; [done|]);
    intros win' [= <-].
  - rewrite lookup_insert_eq, lookup_insert_ne by done.
    split; [symmetry; by apply truthy_some | done].
  - by rewrite lookup_delete_eq, lookup_delete_ne.
Qed.

Lemma store_tokens_fields d w :
  accessToken (store_tokens d w) = ApiClient.get_access_token d
  /\ refreshToken (store_tokens d w)
     = (if Js.truthy (ApiClient.get_refresh_token d)
        then ApiClient.get_refresh_token d else refreshToken w)
  /\ sent (store_tokens d w) = sent w
  /\ user (store_tokens d w) = user w
  /\ (forall win, window w = Some win ->
        storage_get "access_token" (store_tokens d w)
        = stored (ApiClient.get_access_token d)
        /\ storage_get "refresh_token" (store_tokens d w)
           = (if Js.truthy (ApiClient.get_refresh_token d)
              then ApiClient.get_refresh_token d
              else storage_get "refresh_token" w)).
Proof.
  unfold store_tokens.
  destruct (setAccessToken_fields (ApiClient.get_access_token d) w)
    as (Ha & Hr & Hs & Hu & Hst).
  destruct (Js.truthy (ApiClient.get_refresh_token d)) eqn:Et.
  - destruct (setRefreshToken_fields (ApiClient.get_refresh_token d)
                (ApiClient.setAccessToken (ApiClient.get_access_token d) w))
      as (Ha' & Hr' & Hs' & Hu' & Hst').
    do 4 (split; [congruence|]).
    intros win Hw. destruct (Hst win Hw) as (H1 & _).
    assert (exists win1, window (ApiClient.setAccessToken
              (ApiClient.get_access_token d) w) = Some win1) as (win1 & Hw1).
    { unfold ApiClient.setAccessToken, storage_set, storage_remove.
      destruct (Js.truthy (ApiClient.get_access_token d));
        simpl; rewrite Hw; simpl; by eexists. }
    destruct (Hst' win1 Hw1) as (-> & ->). unfold stored at 2. by rewrite Et.
  - do 4 (split; [done|]). intros win Hw. by destruct (Hst win Hw).
Qed.

Lemma store_tokens_window d w win2 :
  window (store_tokens d w) = Some win2 -> exists win, window w = Some win.
Proof.
  destruct w as [a r p [win|] s u l]; [by eexists|].
  unfold store_tokens, ApiClient.setAccessToken, ApiClient.setRefreshToken,
    storage_set, storage_remove.
  by repeat (case_match; simpl).
Qed.

(** the world an accepted sign-in leaves *)
Lemma signIn_accepted fuel email password w c1 w1 r d :
  requestInterceptor (sign_in_request API_BASE_URL email password) w
  = (Resolved c1, w1) ->
  accepted (backend (sent w) {| via := MainClient; req := c1 |}) r ->
  rdata r = Some d ->
  ApiClient.signIn rev API_BASE_URL backend (S fuel) email password w
  = (Resolved d,
     store_tokens d
       (set_sent (sent w ++ [{| via := MainClient; req := c1 |}]) w1)).
Proof.
  intros Hi Hacc Hd. unfold ApiClient.signIn, ApiClient.post, bind.
  fold (sign_in_request API_BASE_URL email password).
  by rewrite (client_accepted fuel _ w c1 w1 r Hi Hacc), Hd.
Qed.

(** X10. [signIn] sends the credentials to [/auth/sign-in]; when the backend
    accepts, it resolves with the body after that one request, the access
    token of the body is the token in memory and in the storage, the
    refresh token of the body replaces the one held when the body has one
    and the one held stays otherwise.  An accepted answer with a [null]
    body makes it throw a [TypeError] after that request: the refresh token
    and the window with its storage are as before, and so is the access
    token in the first revision and wherever memory and storage agree; the
    second revision holds the token its request interceptor re-read from
    the storage. *)
Theorem signIn_stores_tokens (fuel : nat) (email password : string) (w : World) :
  (1 <= fuel)%nat ->
  exists c1 w1,
    requestInterceptor (sign_in_request API_BASE_URL email password) w
    = (Resolved c1, w1)
    /\ url c1 = Some "/auth/sign-in"
    /\ data c1 = SignInRequest email password
    /\ forall r,
        accepted (backend (sent w) {| via := MainClient; req := c1 |}) r ->
        let w2 := set_sent (sent w ++ [{| via := MainClient; req := c1 |}]) w1 in
        match rdata r with
        | Some d =>
            exists w',
              ApiClient.signIn rev API_BASE_URL backend fuel email password w
              = (Resolved d, w')
              /\ sent w' = (sent w ++ [{| via := MainClient; req := c1 |}])%list
              /\ accessToken w' = ApiClient.get_access_token d
              /\ refreshToken w'
                 = (if Js.truthy (ApiClient.get_refresh_token d)
                    then ApiClient.get_refresh_token d else refreshToken w)
              /\ (forall win, window w = Some win ->
                    storage_get "access_token" w'
                    = stored (ApiClient.get_access_token d)
                    /\ storage_get "refresh_token" w'
                       = (if Js.truthy (ApiClient.get_refresh_token d)
                          then ApiClient.get_refresh_token d
                          else storage_get "refresh_token" w))
        | None =>
            ApiClient.signIn rev API_BASE_URL backend fuel email password w
            = (Rejected TypeError, w2)
            /\ refreshToken w2 = refreshToken w
            /\ window w2 = window w
            /\ accessToken w2 = match rev with
                                | Rev1 => accessToken w
                                | Rev2 => accessToken (ApiClient.reload_token w)
                                end
            /\ (synced w -> accessToken w2 = accessToken w)
        end.
Proof.
  destruct fuel as [|fuel]; [lia|]. intros _.
  destruct (api_request (sign_in_request API_BASE_URL email password) w
              "/auth/sign-in" eq_refl relative_sign_in)
    as (c1&w1&Hi&Hu&_&Hd&Hs&Hrt&Hw&_).
  exists c1, w1. repeat (split; [done|]).
  intros r Hacc. cbv zeta.
  unfold ApiClient.signIn, ApiClient.post, bind.
  fold (sign_in_request API_BASE_URL email password).
  rewrite (client_accepted fuel _ w c1 w1 r Hi Hacc).
  destruct (rdata r) as [d|].
  2:{ destruct (interceptor_token _ w c1 w1 Hi) as (Hat & Hsy).
      by repeat split. }
  unfold modify, ret. set (w2 := set_sent _ w1).
  eexists. split; [reflexivity|].
  destruct (store_tokens_fields d w2) as (Ha & Hr & Hse & _ & Hst).
  unfold store_tokens in *. cbv zeta in *.
  assert (Hget : storage_get "refresh_token" w2 = storage_get "refresh_token" w)
    by (unfold storage_get; subst w2; simpl; by rewrite Hw).
  split; [exact Hse|]. split; [exact Ha|].
  split; [rewrite Hr; subst w2; simpl; by rewrite Hrt|].
  intros win Hwin. rewrite <- Hget. apply (Hst win). subst w2. simpl. by rewrite Hw.
Qed.

(** X11. [signUp] sends its body to [/auth/sign-up]; when the backend
    accepts with a body, it resolves with the body after that one request
    and stores the tokens of the answer as [signIn] does: the access token
    in memory and in the storage, the refresh token when the body has
    one. *)
Theorem signUp_stores_tokens (fuel : nat) (credentials : string) (w : World) :
  (1 <= fuel)%nat ->
  exists c1 w1,
    requestInterceptor (sign_up_request API_BASE_URL credentials) w
    = (Resolved c1, w1)
    /\ url c1 = Some "/auth/sign-up"
    /\ data c1 = OtherPayload credentials
    /\ forall r d,
        accepted (backend (sent w) {| via := MainClient; req := c1 |}) r ->
        rdata r = Some d ->
        exists w',
          SignUp.signUp rev API_BASE_URL backend fuel credentials w = (Resolved d, w')
          /\ sent w' = (sent w ++ [{| via := MainClient; req := c1 |}])%list
          /\ accessToken w' = ApiClient.get_access_token d
          /\ refreshToken w'
             = (if Js.truthy (ApiClient.get_refresh_token d)
                then ApiClient.get_refresh_token d else refreshToken w)
          /\ (forall win, window w = Some win ->
                storage_get "access_token" w'
                = stored (ApiClient.get_access_token d)
                /\ storage_get "refresh_token" w'
                   = (if Js.truthy (ApiClient.get_refresh_token d)
                      then ApiClient.get_refresh_token d
                      else storage_get "refresh_token" w)).
Proof.
  destruct fuel as [|fuel]; [lia|]. intros _.
  destruct (api_request (sign_up_request API_BASE_URL credentials) w
              "/auth/sign-up" eq_refl relative_sign_up)
    as (c1&w1&Hi&Hu&_&Hd&Hs&Hrt&Hw&_).
  exists c1, w1. repeat (split; [done|]).
  intros r d Hacc Hbody.
  unfold SignUp.signUp, ApiClient.post, bind.
  fold (sign_up_request API_BASE_URL credentials).
  rewrite (client_accepted fuel _ w c1 w1 r Hi Hacc), Hbody.
  unfold modify, ret. set (w2 := set_sent _ w1).
  eexists. split; [reflexivity|].
  destruct (store_tokens_fields d w2) as (Ha & Hr & Hse & _ & Hst).
  unfold store_tokens in *. cbv zeta in *.
  assert (Hget : storage_get "refresh_token" w2 = storage_get "refresh_token" w)
    by (unfold storage_get; subst w2; simpl; by rewrite Hw).
  split; [exact Hse|]. split; [exact Ha|].
  split; [rewrite Hr; subst w2; simpl; by rewrite Hrt|].
  intros win Hwin. rewrite <- Hget. apply (Hst win). subst w2. simpl. by rewrite Hw.
Qed.

End Calls.

(** ** Failures seen from the pages *)

Section Failures.

Variable rev : Revision.
Variable API_BASE_URL : string.
Variable backend : list Wire -> Wire -> Outcome.

Abbreviation requestInterceptor := (ApiClient.requestInterceptor rev).
Abbreviation client := (ApiClient.client rev API_BASE_URL backend).

Lemma or_else_some s d : Js.or_else (Some s) d = if String.eqb s "" then d else s.
Proof. unfold Js.or_else, Js.truthy. by destruct (String.eqb s ""). Qed.

(** X12. A sign-in the backend refuses while no refresh token is held
    rejects with the error of that one request (its config, and the
    backend's response, or axios' code and message when there was none),
    for the client and for the auth context alike.  Nothing else goes on
    the wire; the refresh token, the window with its storage, the identity
    and the loading flag are as before, and so is the access token in the
    first revision and wherever memory and storage agree (the second
    revision holds the token its request interceptor re-read from the
    storage).  When the backend gave a string [detail] the login page shows
    it (its own fallback text when the detail is empty). *)
Theorem signIn_refused (fuel : nat) (email password : string) (w : World) :
  (1 <= fuel)%nat ->
  Js.truthy (refreshToken w) = false ->
  exists c1 w1,
    requestInterceptor (sign_in_request API_BASE_URL email password) w
    = (Resolved c1, w1)
    /\ refreshToken w1 = refreshToken w /\ window w1 = window w
    /\ user w1 = user w /\ loading w1 = loading w
    /\ (refused (backend (sent w) {| via := MainClient; req := c1 |}) ->
        exists e,
          let w' := set_sent (sent w ++ [{| via := MainClient; req := c1 |}]) w1 in
          ApiClient.signIn rev API_BASE_URL backend fuel email password w
          = (Rejected (AxiosErr e), w')
          /\ AuthContext.signIn rev API_BASE_URL backend fuel email password w
             = (Rejected (AxiosErr e), w')
          /\ config e = c1
          /\ match backend (sent w) {| via := MainClient; req := c1 |} with
             | Responded r => response e = Some r
             | NoResponse ec em =>
                 response e = None /\ code e = ec /\ message e = em
             end
          /\ sent w' = (sent w ++ [{| via := MainClient; req := c1 |}])%list
          /\ refreshToken w' = refreshToken w /\ window w' = window w
          /\ user w' = user w /\ loading w' = loading w
          /\ accessToken w' = match rev with
                              | Rev1 => accessToken w
                              | Rev2 => accessToken (ApiClient.reload_token w)
                              end
          /\ (synced w -> accessToken w' = accessToken w)
          /\ forall r s win fallback,
              backend (sent w) {| via := MainClient; req := c1 |} = Responded r ->
              rdata r = Some (DataDetail (DetailString s)) ->
              shown_error API_BASE_URL (Some win) fallback (Some e)
              = inl (if String.eqb s "" then fallback else s)).
Proof.
  destruct fuel as [|fuel]; [lia|]. intros _ Hrt.
  destruct (api_request rev (sign_in_request API_BASE_URL email password) w
              "/auth/sign-in" eq_refl relative_sign_in)
    as (c1&w1&Hi&_&_&_&_&?&?&?&?).
  exists c1, w1. do 5 (split; [done|]). intros Href.
  destruct (client_refused rev API_BASE_URL backend fuel _ w c1 w1 Hi Href
              (or_introl Hrt)) as (e & Hcl & Hcfg & Hresp).
  destruct (interceptor_token rev _ w c1 w1 Hi) as (Hat & Hsy).
  exists e. cbv zeta.
  assert (Hs : ApiClient.signIn rev API_BASE_URL backend (S fuel) email password w
               = (Rejected (AxiosErr e),
                  set_sent (sent w ++ [{| via := MainClient; req := c1 |}]) w1)).
  { unfold ApiClient.signIn, ApiClient.post, bind.
    fold (sign_in_request API_BASE_URL email password). by rewrite Hcl. }
  split; [exact Hs|]. split; [|do 9 (split; [done|])].
  - unfold AuthContext.signIn, bind. by rewrite Hs.
  - intros r s win fallback Ho Hd. rewrite Ho in Hresp.
    unfold shown_error, formatApiError. simpl. rewrite Hresp, Hd. simpl.
    by rewrite or_else_some.
Qed.

Lemma client_no_response (fuel : nat) (c c1 : Config) (w w1 : World) ec em :
  requestInterceptor c w = (Resolved c1, w1) ->
  backend (sent w) {| via := MainClient; req := c1 |} = NoResponse ec em ->
  exists e,
    client (S fuel) c w
    = (Rejected (AxiosErr e),
       set_sent (sent w ++ [{| via := MainClient; req := c1 |}]) w1)
    /\ response e = None /\ code e = ec /\ message e = em.
Proof.
  intros Hi Ho.
  destruct (client_refused rev API_BASE_URL backend fuel c w c1 w1 Hi)
    as (e & Hcl & _ & Hresp).
  - by rewrite Ho.
  - right. intros r. by rewrite Ho.
  - rewrite Ho in Hresp. destruct Hresp as (Hr & Hc & Hm). by exists e.
Qed.

(** X13. A call that gets no response at all (of any method, to any path,
    with or without tokens held) is rejected after that one request with
    axios' code and message; what the request interceptor left of the world
    is untouched, no refresh is tried; and a timeout
    ([ECONNABORTED]) is shown by the formatter as the timeout message. *)
Theorem no_response_keeps_session (fuel : nat) (c : Config) (w : World) :
  (1 <= fuel)%nat ->
  exists c1 w1,
    requestInterceptor c w = (Resolved c1, w1)
    /\ refreshToken w1 = refreshToken w /\ window w1 = window w
    /\ forall ec em,
        backend (sent w) {| via := MainClient; req := c1 |} = NoResponse ec em ->
        exists e,
          client fuel c w
          = (Rejected (AxiosErr e),
             set_sent (sent w ++ [{| via := MainClient; req := c1 |}]) w1)
          /\ response e = None /\ code e = ec /\ message e = em
          /\ (ec = Some "ECONNABORTED" ->
              forall win, formatApiError API_BASE_URL win (Some e)
                          = inl TIMEOUT_MESSAGE).
Proof.
  destruct fuel as [|fuel]; [lia|]. intros _.
  destruct (requestInterceptor_total rev c w)
    as (c1&w1&Hi&_&_&_&_&?&?&_).
  exists c1, w1. do 3 (split; [done|]). intros ec em Ho.
  destruct (client_no_response fuel c c1 w w1 ec em Hi Ho)
    as (e & Hcl & Hr & Hc & Hm).
  exists e. do 4 (split; [done|]).
  intros -> win. unfold formatApiError. simpl. rewrite Hr.
  unfold code_is. by rewrite Hc.
Qed.

(** X14. The refresh call is one POST of [/auth/refresh] through the
    separate axios instance: its body is exactly the refresh token it was
    given, it carries no [Authorization] header, and it changes nothing of
    the world but the request log; it resolves with the body when the
    backend accepts and rejects with the error otherwise. *)
Theorem refreshAccessToken_request (token : string) (w : World) :
  exists rc,
    let x := {| via := RefreshClient; req := rc |} in
    url rc = Some "/auth/refresh"
    /\ method rc = Some "post"
    /\ data rc = RefreshTokenRequest token
    /\ headers rc !! "Authorization" = None
    /\ snd (ApiClient.refreshAccessToken rev API_BASE_URL backend token w)
       = set_sent (sent w ++ [x]) w
    /\ (forall r, accepted (backend (sent w) x) r ->
          fst (ApiClient.refreshAccessToken rev API_BASE_URL backend token w)
          = Resolved (rdata r))
    /\ (refused (backend (sent w) x) ->
          exists e,
            fst (ApiClient.refreshAccessToken rev API_BASE_URL backend token w)
            = Rejected (AxiosErr e)).
Proof.
  unfold ApiClient.refreshAccessToken. rewrite send_eq.
  set (c := ApiClient.mkConfig _ "post" "/auth/refresh" (RefreshTokenRequest token)).
  set (rc := ApiClient.refreshInterceptor rev w c).
  assert (Hrc : url rc = Some "/auth/refresh" /\ method rc = method c
                /\ data rc = data c /\ headers rc = headers c).
  { subst rc. unfold ApiClient.refreshInterceptor. destruct rev; [done|].
    assert (Hstep : forall c', url c' = Some "/auth/refresh" -> url_only c c' ->
              url (ApiClient.force_url_domain (ApiClient.force_base_prefix c'))
              = Some "/auth/refresh"
              /\ method (ApiClient.force_url_domain (ApiClient.force_base_prefix c'))
                 = method c
              /\ data (ApiClient.force_url_domain (ApiClient.force_base_prefix c'))
                 = data c
              /\ headers (ApiClient.force_url_domain (ApiClient.force_base_prefix c'))
                 = headers c).
    { intros c' Hu (Hm & Hh & Hd & _).
      destruct (force_base_prefix_frame c') as (Hm1 & Hh1 & Hd1 & _).
      destruct (force_url_domain_frame (ApiClient.force_base_prefix c'))
        as (Hm2 & Hh2 & Hd2 & _).
      split; [|by repeat split; congruence].
      apply force_url_domain_url; [eexists; split; reflexivity|].
      by rewrite force_base_prefix_url. }
    destruct (isProduction w || Js.opt_includes ApiClient.PROD (baseURL c)).
    - apply Hstep; [done | by repeat split].
    - apply Hstep; [done | apply url_only_refl]. }
  destruct Hrc as (Hu & Hm & Hd & Hh).
  exists rc. cbv zeta. split; [done|]. split; [by rewrite Hm|].
  split; [by rewrite Hd|]. split; [by rewrite Hh|].
  match goal with |- context [ApiClient.settle ?c ?o] =>
    destruct (settle_cases c o) as [(r&Hr&Ho&Hok)|(e&He&_&Hresp)];
      rewrite ?Hr, ?He end.
  - split; [done|]. split.
    + intros r' (Ho' & _). rewrite Ho in Ho'. by injection Ho' as ->.
    + rewrite Ho. simpl. congruence.
  - split; [done|]. split.
    + intros r' (Ho' & Hok'). rewrite Ho' in He. simpl in He.
      by rewrite Hok' in He.
    + intros _. by exists e.
Qed.

End Failures.

(** ** The auth context *)

Section Identity.

Variable rev : Revision.
Variable API_BASE_URL : string.
Variable backend : list Wire -> Wire -> Outcome.

Abbreviation requestInterceptor := (ApiClient.requestInterceptor rev).
Abbreviation refreshUser := (AuthContext.refreshUser rev API_BASE_URL backend).
Abbreviation getCurrentUser := (ApiClient.getCurrentUser rev API_BASE_URL backend).

(** X15. [refreshUser] never throws: with fuel for two rounds it resolves
    whatever the backend does, leaves [loading] false, takes the identity
    from [getCurrentUser] when that resolves and drops it when that
    rejects; the tokens are cleared when the rejection is a 401 or a 403
    and left as [getCurrentUser] left them otherwise. *)
Theorem refreshUser_settles (fuel : nat) (w : World) :
  (2 <= fuel)%nat ->
  exists w',
    refreshUser fuel w = (Resolved tt, w')
    /\ loading w' = false
    /\ (forall u w1, getCurrentUser fuel w = (Resolved u, w1) ->
          user w' = u /\ accessToken w' = accessToken w1
          /\ refreshToken w' = refreshToken w1 /\ window w' = window w1)
    /\ (forall t w1, getCurrentUser fuel w = (Rejected t, w1) ->
          user w' = None
          /\ (auth_rejected t -> session_cleared w')
          /\ (not_auth_rejected t ->
              accessToken w' = accessToken w1
              /\ refreshToken w' = refreshToken w1 /\ window w' = window w1)).
Proof.
  destruct fuel as [|[|fuel]]; [lia|lia|]. intros _.
  unfold AuthContext.refreshUser, finally, try_catch, bind.
  assert (Hfuel : fst (getCurrentUser (S (S fuel)) w) <> OutOfFuel).
  { unfold ApiClient.getCurrentUser, ApiClient.get, bind.
    destruct (client_trace rev API_BASE_URL backend fuel
                (ApiClient.mkConfig API_BASE_URL "get" "/auth/me" NoPayload) w)
      as (_&_&r&w1&_&_&->&Hf&_).
    by destruct r. }
  destruct (getCurrentUser (S (S fuel)) w) as [[u|t|] w1]; [| |done].
  - eexists. split; [reflexivity|]. split; [done|]. split.
    + by intros u' w1' [= <- <-].
    + by intros t w1'.
  - destruct (ApiClient.is_auth_rejection t) eqn:E.
    + eexists. split; [reflexivity|]. split; [done|]. split; [by intros u w1'|].
      intros t' w1' [= <- <-]. split; [simpl; by rewrite clearTokens_user|].
      split.
      * intros _. unfold session_cleared. simpl.
        destruct (clearTokens_clears (setUser None w1)) as (?&?&?&?).
        by repeat split.
      * intros Hn. by rewrite (is_auth_rejection_false _ Hn) in E.
    + eexists. split; [reflexivity|]. split; [done|]. split; [by intros u w1'|].
      intros t' w1' [= <- <-]. split; [done|]. split; [|done].
      intros Ha. by rewrite (is_auth_rejection_true _ Ha) in E.
Qed.

(** X16. When who-am-I gets no response (the backend is unreachable),
    [refreshUser] drops the identity and keeps the session: one request on
    the wire, no refresh, the refresh token and the storage as before. *)
Theorem refreshUser_offline_keeps_tokens (fuel : nat) (w : World) :
  (1 <= fuel)%nat ->
  exists c1 w1,
    requestInterceptor (who_am_i API_BASE_URL) w = (Resolved c1, w1)
    /\ forall ec em,
        backend (sent w) {| via := MainClient; req := c1 |} = NoResponse ec em ->
        exists w',
          refreshUser fuel w = (Resolved tt, w')
          /\ user w' = None /\ loading w' = false
          /\ sent w' = (sent w ++ [{| via := MainClient; req := c1 |}])%list
          /\ accessToken w' = accessToken w1
          /\ refreshToken w' = refreshToken w
          /\ window w' = window w.
Proof.
  destruct fuel as [|fuel]; [lia|]. intros _.
  destruct (requestInterceptor_total rev (who_am_i API_BASE_URL) w)
    as (c1&w1&Hi&_&_&_&_&Hrt&Hw&_).
  exists c1, w1. split; [done|]. intros ec em Ho.
  destruct (client_no_response rev API_BASE_URL backend fuel _ c1 w w1 ec em Hi Ho)
    as (e & Hcl & Hr & _).
  unfold AuthContext.refreshUser, finally, try_catch, bind,
    ApiClient.getCurrentUser, ApiClient.get, bind.
  fold (who_am_i API_BASE_URL). rewrite Hcl. simpl. rewrite Hr.
  eexists. split; [reflexivity|]. by repeat split.
Qed.

(** X17. When who-am-I is answered with a 403, [refreshUser] ends the
    session at once: one request on the wire and no refresh even if a
    refresh token is held, no identity, and no token left in memory or in
    the storage. *)
Theorem refreshUser_forbidden_clears (fuel : nat) (w : World) :
  (1 <= fuel)%nat ->
  exists c1 w1,
    requestInterceptor (who_am_i API_BASE_URL) w = (Resolved c1, w1)
    /\ forall r,
        backend (sent w) {| via := MainClient; req := c1 |} = Responded r ->
        status r = 403 ->
        exists w',
          refreshUser fuel w = (Resolved tt, w')
          /\ user w' = None /\ loading w' = false
          /\ sent w' = (sent w ++ [{| via := MainClient; req := c1 |}])%list
          /\ session_cleared w'.
Proof.
  destruct fuel as [|fuel]; [lia|]. intros _.
  destruct (requestInterceptor_total rev (who_am_i API_BASE_URL) w)
    as (c1&w1&Hi&_).
  exists c1, w1. split; [done|]. intros r Ho H403.
  destruct (client_refused rev API_BASE_URL backend fuel _ w c1 w1 Hi)
    as (e & Hcl & _ & Hresp).
  - rewrite Ho. simpl. by rewrite H403.
  - right. intros r'. rewrite Ho. intros [= <-]. by rewrite H403.
  - rewrite Ho in Hresp.
    unfold AuthContext.refreshUser, finally, try_catch, bind,
      ApiClient.getCurrentUser, ApiClient.get, bind.
    fold (who_am_i API_BASE_URL). rewrite Hcl. simpl. rewrite Hresp, H403. simpl.
    unfold modify. eexists. split; [reflexivity|].
    set (w2 := setUser None _).
    destruct (clearTokens_clears w2) as (?&?&?&?).
    split; [simpl; by rewrite clearTokens_user|]. split; [done|].
    split; [simpl; by rewrite sent_clearTokens|].
    by repeat split.
Qed.

(** X18. A sign-in through the auth context that the backend accepts ends
    with the identity of the account: when the sign-in answer carries an
    access token and who-am-I, sent next with that token as its Bearer
    header, is accepted, [signIn] resolves with [user] the body of that
    answer, [loading] false and the token held. *)
Theorem context_signIn_resolves_identity (fuel : nat) (email password : string)
    (w : World) :
  (1 <= fuel)%nat ->
  exists c1 w1,
    requestInterceptor (sign_in_request API_BASE_URL email password) w
    = (Resolved c1, w1)
    /\ forall r d a,
        accepted (backend (sent w) {| via := MainClient; req := c1 |}) r ->
        rdata r = Some d ->
        ApiClient.get_access_token d = Some a -> a <> "" ->
        exists c2,
          url c2 = Some "/auth/me"
          /\ headers c2 !! "Authorization" = Some ("Bearer " ++ a)
          /\ forall r2,
              accepted (backend (sent w ++ [{| via := MainClient; req := c1 |}])
                          {| via := MainClient; req := c2 |}) r2 ->
              exists w',
                AuthContext.signIn rev API_BASE_URL backend fuel email password w
                = (Resolved tt, w')
                /\ user w' = rdata r2 /\ loading w' = false
                /\ accessToken w' = Some a
                /\ sent w' = (sent w ++ [{| via := MainClient; req := c1 |};
                                         {| via := MainClient; req := c2 |}])%list.
Proof.
  destruct fuel as [|fuel]; [lia|]. intros _.
  destruct (requestInterceptor_total rev
              (sign_in_request API_BASE_URL email password) w)
    as (c1&w1&Hi&_&_&_&_&_&_&Hs1&_).
  exists c1, w1. split; [done|]. intros r d a Hr Hd Ha Hne.
  pose proof (signIn_accepted rev API_BASE_URL backend fuel email password
                w c1 w1 r d Hi Hr Hd) as Hs.
  set (w0 := set_sent (sent w ++ [{| via := MainClient; req := c1 |}]) w1) in *.
  set (w2 := store_tokens d w0) in *.
  destruct (store_tokens_fields d w0) as (Hat & _ & Hsent & _ & Hst).
  fold w2 in Hat, Hsent, Hst. rewrite Ha in Hat.
  assert (Htr : Js.truthy (Some a) = true).
  { simpl. apply negb_true_iff. by apply String.eqb_neq. }
  destruct (who_am_i_request rev API_BASE_URL w2)
    as (c2&w3&Hi2&Hu2&_&Hh2&Hs3&_&_&Hat3).
  assert (Hreload : accessToken w3 = Some a).
  { rewrite Hat3. destruct rev; [done|].
    unfold ApiClient.reload_token.
    destruct (window w2) as [win2|] eqn:Ew2; [|done].
    destruct (store_tokens_window d w0 win2 Ew2) as (win & Hw).
    destruct (Hst win Hw) as (Hsa & _).
    unfold storage_get in Hsa. rewrite Ew2, Ha in Hsa. unfold stored in Hsa.
    rewrite Htr in Hsa. rewrite Hsa, Hat, Htr.
    by rewrite bool_decide_eq_true_2. }
  exists c2. split; [done|]. split.
  { rewrite Hh2, Hreload, Htr, lookup_insert_eq. unfold bearer_of.
    by rewrite Hreload. }
  intros r2 Hr2.
  assert (Hs2 : sent w2 = (sent w ++ [{| via := MainClient; req := c1 |}])%list)
    by (by rewrite Hsent).
  rewrite <- Hs2 in Hr2.
  unfold AuthContext.signIn, bind. rewrite Hs.
  unfold AuthContext.refreshUser, finally, try_catch, bind,
    ApiClient.getCurrentUser, ApiClient.get, bind.
  fold (who_am_i API_BASE_URL).
  rewrite (client_accepted rev API_BASE_URL backend fuel _ w2 c2 w3 r2 Hi2 Hr2).
  unfold modify, ret. eexists. split; [reflexivity|].
  simpl. rewrite Hs2. do 3 (split; [done|]). by rewrite <- app_assoc.
Qed.

End Identity.

(** ** When the pages fall back to their own message *)

Lemma or_else_nonempty o d : d <> "" -> Js.or_else o d <> "".
Proof.
  intros Hd. unfold Js.or_else. destruct o as [s|]; simpl; [|done].
  destruct (String.eqb_spec s ""); simpl; done.
Qed.

Lemma app_nonempty_l a b : a <> "" -> a ++ b <> "".
Proof. by destruct a. Qed.

Lemma render_entry_nonempty err : render_entry err <> "".
Proof.
  unfold render_entry. apply app_nonempty_l, or_else_nonempty. done.
Qed.

Lemma join_nonempty sep x xs : x <> "" -> Js.join sep (x :: xs) <> "".
Proof. intros Hx. destruct xs; simpl; [done | by apply app_nonempty_l]. Qed.

(** X19. In a browser the formatter returns the empty string, which makes
    a page show its own fallback text ([formatApiError(err) || '...']), in
    exactly two cases: the response carries an empty string [detail], or an
    empty array of validation errors.  Every other failure, with or
    without a response, gets a message from the formatter. *)
Theorem formatApiError_empty_iff (API_BASE_URL : string) (win : Window)
    (error : option AxiosError) :
  formatApiError API_BASE_URL (Some win) error = inl ""
  <-> exists e r,
        error = Some e /\ response e = Some r
        /\ (rdata r = Some (DataDetail (DetailString ""))
            \/ rdata r = Some (DataDetail (DetailArray []))).
Proof.
  split.
  - unfold formatApiError.
    destruct error as [e|]; simpl.
    + destruct (response e) as [r|] eqn:Er.
      * destruct (rdata r) as [[a|u|[s|errs|]| |]|] eqn:Ed; simpl;
          intros [= H]; try done;
          try (by apply or_else_nonempty in H).
        -- subst s. by exists e, r; eauto.
        -- destruct errs as [|x xs]; [by exists e, r; eauto|].
           by apply join_nonempty in H; [|apply render_entry_nonempty].
      * repeat case_match; intros [= Hx]; try done.
        by apply or_else_nonempty in Hx.
    + intros [= Hx]; done.
  - intros (e & r & -> & Hr & [Hd|Hd]); unfold formatApiError; simpl;
      by rewrite Hr, Hd.
Qed.

Lemma formatApiError_empty_iff_witness :
  formatApiError Scenario.BASE (Some Scenario.browser)
    (Some {| code := Some "ERR_BAD_REQUEST";
             message := Some "Request failed with status code 422";
             response := Some {| status := 422;
                                 rdata := Some (DataDetail (DetailArray [])) |};
             config := Scenario.protected_call |})
  = inl "".
Proof.
  apply formatApiError_empty_iff. eexists _, _.
  split; [reflexivity|]. split; [reflexivity|]. right. reflexivity.
Defined.

(** ** The added theorems at work on the scenarios *)

Lemma signIn_stores_tokens_witness :
  (exists w',
      ApiClient.signIn Rev1 Scenario.BASE Scenario.backend 1 "a@x.com" "secret123"
        Scenario.start
      = (Resolved (Scenario.tokens "t1" (Some "r1")), w')
      /\ accessToken w' = Some "t1" /\ refreshToken w' = Some "r1"
      /\ storage_get "access_token" w' = Some "t1"
      /\ storage_get "refresh_token" w' = Some "r1")
  /\ (let nobody := fun (_ : list Wire) (_ : Wire) =>
                      Responded {| status := 200; rdata := None |} in
      exists w',
        ApiClient.signIn Rev2 Scenario.BASE nobody 1 "a@x.com" "secret123"
          Scenario.signed_in
        = (Rejected TypeError, w')
        /\ accessToken w' = Some "t1" /\ refreshToken w' = Some "r1").
Proof.
  split.
  - destruct (signIn_stores_tokens Rev1 Scenario.BASE Scenario.backend 1
                "a@x.com" "secret123" Scenario.start (le_n 1))
      as (c1&w1&Hi&_&_&H).
    injection Hi as <- <-.
    destruct (H {| status := 200;
                   rdata := Some (Scenario.tokens "t1" (Some "r1")) |})
      as (w'&Hs&_&Ha&Hr&Hst).
    + split; reflexivity.
    + destruct (Hst Scenario.browser eq_refl) as (Hsa & Hsr).
      exists w'. split; [exact Hs|]. split; [exact Ha|]. split; [exact Hr|].
      split; [exact Hsa | exact Hsr].
  - intros nobody.
    destruct (signIn_stores_tokens Rev2 Scenario.BASE nobody 1
                "a@x.com" "secret123" Scenario.signed_in (le_n 1))
      as (c1&w1&Hi&_&_&H).
    destruct (H {| status := 200; rdata := None |}) as (Hs&Hr&_&_&Ha).
    + split; reflexivity.
    + eexists. split; [exact Hs|]. split; [|exact Hr].
      apply Ha. split; reflexivity.
Defined.

Lemma signUp_stores_tokens_witness :
  let backend := fun (_ : list Wire) (_ : Wire) =>
                   Scenario.ok (Scenario.tokens "t1" (Some "r1")) in
  exists w',
    SignUp.signUp Rev2 Scenario.BASE backend 1 "{}" Scenario.start
    = (Resolved (Scenario.tokens "t1" (Some "r1")), w')
    /\ accessToken w' = Some "t1" /\ refreshToken w' = Some "r1"
    /\ storage_get "access_token" w' = Some "t1"
    /\ storage_get "refresh_token" w' = Some "r1".
Proof.
  intros backend.
  destruct (signUp_stores_tokens Rev2 Scenario.BASE backend 1
              "{}" Scenario.start (le_n 1))
    as (c1&w1&Hi&_&_&H).
  injection Hi as <- <-.
  destruct (H {| status := 200;
                 rdata := Some (Scenario.tokens "t1" (Some "r1")) |}
              (Scenario.tokens "t1" (Some "r1")))
    as (w'&Hs&_&Ha&Hr&Hst).
  - split; reflexivity.
  - reflexivity.
  - destruct (Hst Scenario.browser eq_refl) as (Hsa & Hsr).
    exists w'. split; [exact Hs|]. split; [exact Ha|]. split; [exact Hr|].
    split; [exact Hsa | exact Hsr].
Defined.

Lemma signIn_refused_witness :
  exists e w',
    AuthContext.signIn Rev1 Scenario.BASE Scenario.backend 1 "a@x.com" "wrong"
      Scenario.start
    = (Rejected (AxiosErr e), w')
    /\ (exists r, response e = Some r /\ status r = 401)
    /\ url (config e) = Some "/auth/sign-in"
    /\ accessToken w' = None /\ user w' = None
    /\ shown_error Scenario.BASE (Some Scenario.browser)
         "Failed to sign in. Please check your credentials." (Some e)
       = inl "Could not validate credentials".
Proof.
  destruct (signIn_refused Rev1 Scenario.BASE Scenario.backend 1
              "a@x.com" "wrong" Scenario.start (le_n 1) eq_refl)
    as (c1&w1&Hi&_&_&_&_&H).
  injection Hi as <- <-.
  destruct H as (e&_&Hc&Hcfg&Hresp&_&_&_&Hu&_&Hat&_&Hshow); [reflexivity|].
  eexists e, _. split; [exact Hc|].
  split; [eexists; split; [exact Hresp | reflexivity]|].
  split; [by rewrite Hcfg|].
  split; [exact Hat|]. split; [exact Hu|].
  apply (Hshow _ "Could not validate credentials" Scenario.browser
           "Failed to sign in. Please check your credentials." eq_refl eq_refl).
Defined.

Lemma no_response_keeps_session_witness :
  exists e w',
    ApiClient.client Rev1 Scenario.BASE
      (fun _ _ => NoResponse (Some "ECONNABORTED") (Some "timeout of 30000ms exceeded"))
      1 Scenario.protected_call Scenario.signed_in
    = (Rejected (AxiosErr e), w')
    /\ accessToken w' = Some "t1" /\ refreshToken w' = Some "r1"
    /\ formatApiError Scenario.BASE None (Some e)
       = inl "Request timeout. Please check your connection and try again.".
Proof.
  destruct (no_response_keeps_session Rev1 Scenario.BASE
              (fun _ _ => NoResponse (Some "ECONNABORTED")
                            (Some "timeout of 30000ms exceeded"))
              1 Scenario.protected_call Scenario.signed_in (le_n 1))
    as (c1&w1&Hi&_&_&H).
  injection Hi as <- <-.
  destruct (H _ _ eq_refl) as (e&Hc&_&_&_&Hf).
  eexists e, _. split; [exact Hc|]. split; [reflexivity|]. split; [reflexivity|].
  apply (Hf eq_refl).
Defined.

Lemma refreshAccessToken_request_witness :
  exists rc,
    url rc = Some "/auth/refresh" /\ data rc = RefreshTokenRequest "r1"
    /\ headers rc !! "Authorization" = None
    /\ fst (ApiClient.refreshAccessToken Rev2 Scenario.BASE Scenario.backend "r1"
              Scenario.signed_in)
       = Resolved (Some (Scenario.tokens "t2" None)).
Proof.
  destruct (refreshAccessToken_request Rev2 Scenario.BASE Scenario.backend "r1"
              Scenario.signed_in) as (rc&Hu&_&Hd&Hh&_&Hacc&_).
  exists rc. split; [exact Hu|]. split; [exact Hd|]. split; [exact Hh|].
  apply (Hacc {| status := 200; rdata := Some (Scenario.tokens "t2" None) |}).
  split; [|reflexivity].
  unfold Scenario.backend, Scenario.backend_with. cbn [req].
  rewrite Hu, Hd. reflexivity.
Defined.

Lemma refreshUser_settles_witness :
  exists w',
    AuthContext.refreshUser Rev1 Scenario.BASE Scenario.revoked 2 Scenario.signed_in
    = (Resolved tt, w')
    /\ loading w' = false /\ user w' = None /\ session_cleared w'.
Proof.
  destruct (refreshUser_settles Rev1 Scenario.BASE Scenario.revoked 2
              Scenario.signed_in (le_n 2)) as (w'&Hr&Hl&_&Hrej).
  edestruct Hrej as (Hu&Hc&_); [vm_compute; reflexivity|].
  exists w'. split; [exact Hr|]. split; [exact Hl|]. split; [exact Hu|].
  apply Hc. eexists _, _. split; [reflexivity|]. split; [reflexivity|].
  left. reflexivity.
Defined.

Lemma refreshUser_offline_keeps_tokens_witness :
  exists w',
    AuthContext.refreshUser Rev1 Scenario.BASE
      (fun _ _ => NoResponse (Some "ERR_NETWORK") (Some "Network Error"))
      1 Scenario.signed_in
    = (Resolved tt, w')
    /\ user w' = None /\ accessToken w' = Some "t1" /\ refreshToken w' = Some "r1".
Proof.
  destruct (refreshUser_offline_keeps_tokens Rev1 Scenario.BASE
              (fun _ _ => NoResponse (Some "ERR_NETWORK") (Some "Network Error"))
              1 Scenario.signed_in (le_n 1)) as (c1&w1&Hi&H).
  injection Hi as <- <-.
  destruct (H _ _ eq_refl) as (w'&Hr&Hu&_&_&Ha&Hrt&_).
  exists w'. split; [exact Hr|]. split; [exact Hu|]. split; [exact Ha | exact Hrt].
Defined.

Lemma refreshUser_forbidden_clears_witness :
  exists w',
    AuthContext.refreshUser Rev2 Scenario.BASE (fun _ _ => Scenario.fail 403)
      1 Scenario.signed_in
    = (Resolved tt, w')
    /\ user w' = None /\ session_cleared w'
    /\ length (sent w') = 2%nat.
Proof.
  destruct (refreshUser_forbidden_clears Rev2 Scenario.BASE
              (fun _ _ => Scenario.fail 403) 1 Scenario.signed_in (le_n 1))
    as (c1&w1&Hi&H).
  destruct (H _ eq_refl eq_refl) as (w'&Hr&Hu&_&Hs&Hc).
  exists w'. split; [exact Hr|]. split; [exact Hu|]. split; [exact Hc|].
  rewrite Hs. reflexivity.
Defined.

Lemma context_signIn_resolves_identity_witness :
  exists w',
    AuthContext.signIn Rev2 Scenario.BASE Scenario.open_backend 1
      "a@x.com" "secret123" Scenario.start
    = (Resolved tt, w')
    /\ user w' = Some (DataUser Scenario.alice) /\ loading w' = false
    /\ accessToken w' = Some "t1".
Proof.
  destruct (context_signIn_resolves_identity Rev2 Scenario.BASE
              Scenario.open_backend 1 "a@x.com" "secret123" Scenario.start (le_n 1))
    as (c1&w1&Hi&H).
  injection Hi as <- <-.
  destruct (H {| status := 200; rdata := Some (Scenario.tokens "t1" (Some "r1")) |}
              (Scenario.tokens "t1" (Some "r1")) "t1")
    as (c2&Hu&_&H2).
  - split; reflexivity.
  - reflexivity.
  - reflexivity.
  - discriminate.
  - destruct (H2 {| status := 200; rdata := Some (DataUser Scenario.alice) |})
      as (w'&Hs&Hus&Hl&Ha&_).
    + split; [|reflexivity].
      unfold Scenario.open_backend. simpl. rewrite Hu. reflexivity.
    + exists w'. split; [exact Hs|]. split; [exact Hus|]. split; [exact Hl|exact Ha].
Defined.
